(** * Incremental tokenization state cache of the text model

    A shallow embedding of [vs/editor/common/model/textModelTokens.ts]:
    the [TokenizationStateStore] class (the per-line cache of begin states
    and validity bits with its invalid frontier), the [safeTokenize]
    wrapper, and the synchronous entry points of [TextModelTokenization].

    Numbers are JavaScript integers and are kept in [Z]; the two arrays of
    the store are lists, read and written through [arr_get] and [arr_set],
    which spell out what an array access does at every index. *)

From Stdlib Require Import ZArith Lia Bool String Sorted.
From stdpp Require Import base list.

Local Open Scope Z_scope.

(** ** JavaScript arrays as lists *)

Module JsArray.

(** [arr[i]]: [None] stands for [undefined] (an index that is no element). *)
Definition arr_get {A : Type} (l : list A) (i : Z) : option A :=
  if i <? 0 then None else l !! Z.to_nat i.

(** [arr[i] = v]: overwrites an element, appends at [arr.length], and pads
    with [hole] when [i] lies further out.  A negative [i] names a property
    that is no element: the elements stay as they are. *)
Definition arr_set {A : Type} (hole : A) (l : list A) (i : Z) (v : A) : list A :=
  if i <? 0 then l
  else if i <? Z.of_nat (length l) then <[Z.to_nat i := v]> l
  else l ++ replicate (Z.to_nat i - length l)%nat hole ++ [v].

(** [arr.splice(start, deleteCount)], with the clamping of both arguments. *)
Definition splice {A : Type} (l : list A) (start deleteCount : Z) : list A :=
  let len := Z.of_nat (length l) in
  let actualStart := if start <? 0 then Z.max (len + start) 0 else Z.min start len in
  let actualDelete := Z.min (Z.max deleteCount 0) (len - actualStart) in
  take (Z.to_nat actualStart) l ++ drop (Z.to_nat (actualStart + actualDelete)) l.

(** Modelled from the spec: [arrays.arrayInsert] ([vs/base/common/arrays]
    is not part of the sources at hand).  The spec has the new entries
    spliced in at [insertIndex]; what was at [insertIndex] and after moves
    behind them. *)
Definition arrayInsert {A : Type} (target : list A) (insertIndex : Z) (insertArr : list A) : list A :=
  take (Z.to_nat insertIndex) target ++ insertArr ++ drop (Z.to_nat insertIndex) target.

End JsArray.

Import JsArray.

(** ** The ranges and positions of the editor (1-based line numbers) *)

Record IRange : Type := mkRange {
  startLineNumber : Z;
  startColumn : Z;
  endLineNumber : Z;
  endColumn : Z
}.

Record Position : Type := mkPosition {
  lineNumber : Z;
  column : Z
}.

(** ** TokenizationStateStore *)

Section StateStore.

Context {IState : Type}.
(** [a.equals(b)] of the opaque tokenizer state. *)
Variable equals : IState -> IState -> bool.

Record TokenizationStateStore : Type := mkStore {
  _beginState : list (option IState);
  _valid : list bool;
  _len : Z;
  _invalidLineStartIndex : Z
}.

Definition set_invalidLineStartIndex (i : Z) (s : TokenizationStateStore) : TokenizationStateStore :=
  mkStore (_beginState s) (_valid s) (_len s) i.

(** The constructor. *)
Definition newStore : TokenizationStateStore := mkStore [] [] 0 0.

Definition invalidLineStartIndex (s : TokenizationStateStore) : Z :=
  _invalidLineStartIndex s.

Definition _invalidateLine (lineIndex : Z) (s : TokenizationStateStore) : TokenizationStateStore :=
  let s1 :=
    if lineIndex <? _len s
    then mkStore (_beginState s) (arr_set false (_valid s) lineIndex false)
                 (_len s) (_invalidLineStartIndex s)
    else s in
  if lineIndex <? _invalidLineStartIndex s1
  then set_invalidLineStartIndex lineIndex s1
  else s1.

(** An [undefined] read is falsy where the result is tested. *)
Definition _isValid (s : TokenizationStateStore) (lineIndex : Z) : bool :=
  if lineIndex <? _len s
  then default false (arr_get (_valid s) lineIndex)
  else false.

(** [None] is [null].  In a store that the public methods produce, an index
    from [0] to [_len - 1] is an element of both arrays
    ([reachable_entries_agree] below), so that no read of the class gives
    [undefined] there. *)
Definition getBeginState (s : TokenizationStateStore) (lineIndex : Z) : option IState :=
  if lineIndex <? _len s
  then mjoin (arr_get (_beginState s) lineIndex)
  else None.

(** One round of the [while] of [_ensureLine]. *)
Definition _ensureLine_body (s : TokenizationStateStore) : TokenizationStateStore :=
  mkStore (arr_set None (_beginState s) (_len s) None)
          (arr_set false (_valid s) (_len s) false)
          (_len s + 1)
          (_invalidLineStartIndex s).

Fixpoint _ensureLine_loop (fuel : nat) (lineIndex : Z) (s : TokenizationStateStore)
  : TokenizationStateStore :=
  match fuel with
  | O => s
  | S fuel' =>
      if lineIndex >=? _len s
      then _ensureLine_loop fuel' lineIndex (_ensureLine_body s)
      else s
  end.

(** [_len] grows by one per round, so [lineIndex + 1 - _len] rounds end the
    loop ([_ensureLine_exit] below). *)
Definition _ensureLine (lineIndex : Z) (s : TokenizationStateStore) : TokenizationStateStore :=
  _ensureLine_loop (Z.to_nat (lineIndex + 1 - _len s)) lineIndex s.

Definition _deleteLines (start deleteCount : Z) (s : TokenizationStateStore)
  : TokenizationStateStore :=
  if deleteCount =? 0 then s
  else
    let deleteCount :=
      if start + deleteCount >? _len s then _len s - start else deleteCount in
    mkStore (splice (_beginState s) start deleteCount)
            (splice (_valid s) start deleteCount)
            (_len s - deleteCount)
            (_invalidLineStartIndex s).

Definition _insertLines (insertIndex insertCount : Z) (s : TokenizationStateStore)
  : TokenizationStateStore :=
  if insertCount =? 0 then s
  else
    let beginState : list (option IState) := replicate (Z.to_nat insertCount) None in
    let valid : list bool := replicate (Z.to_nat insertCount) false in
    mkStore (arrayInsert (_beginState s) insertIndex beginState)
            (arrayInsert (_valid s) insertIndex valid)
            (_len s + insertCount)
            (_invalidLineStartIndex s).

Definition _setValid (lineIndex : Z) (valid : bool) (s : TokenizationStateStore)
  : TokenizationStateStore :=
  let s1 := _ensureLine lineIndex s in
  mkStore (_beginState s1) (arr_set false (_valid s1) lineIndex valid)
          (_len s1) (_invalidLineStartIndex s1).

Definition _setBeginState (lineIndex : Z) (beginState : option IState)
  (s : TokenizationStateStore) : TokenizationStateStore :=
  let s1 := _ensureLine lineIndex s in
  mkStore (arr_set None (_beginState s1) lineIndex beginState) (_valid s1)
          (_len s1) (_invalidLineStartIndex s1).

Definition _reset (initialState : option IState) : TokenizationStateStore :=
  match initialState with
  | Some st => _setBeginState 0 (Some st) newStore
  | None => newStore
  end.

(** [flush] forgets the store it is called on. *)
Definition flush (initialState : option IState) (s : TokenizationStateStore)
  : TokenizationStateStore :=
  _reset initialState.

(** The skip-ahead [while] of [setEndState]: [i] goes up while it is below
    [linesLength] and its entry is valid.  [linesLength - i] rounds are
    enough, as [i] grows by one per round ([skipValid_exit] below). *)
Fixpoint skipValid_loop (fuel : nat) (s : TokenizationStateStore) (linesLength i : Z) : Z :=
  match fuel with
  | O => i
  | S fuel' =>
      if i <? linesLength
      then if negb (_isValid s i) then i
           else skipValid_loop fuel' s linesLength (i + 1)
      else i
  end.

Definition skipValid (s : TokenizationStateStore) (linesLength i : Z) : Z :=
  skipValid_loop (Z.to_nat (linesLength - i)) s linesLength i.

Definition setEndState (linesLength lineIndex : Z) (endState : IState)
  (s : TokenizationStateStore) : TokenizationStateStore :=
  let s := _setValid lineIndex true s in
  let s := set_invalidLineStartIndex (lineIndex + 1) s in
  (* Check if this was the last line *)
  if lineIndex =? linesLength - 1 then s
  else
    (* Check if the end state has changed *)
    let changed (_ : unit) :=
      _invalidateLine (lineIndex + 1)
        (_setBeginState (lineIndex + 1) (Some endState) s) in
    match getBeginState s (lineIndex + 1) with
    | None => changed tt
    | Some previousEndState =>
        if negb (equals endState previousEndState) then changed tt
        else
          (* Perhaps we can skip tokenizing some lines... *)
          set_invalidLineStartIndex (skipValid s linesLength (lineIndex + 1)) s
    end.

(** Two stages of [setEndState], named for the proofs: the store once line
    [lineIndex] is marked valid and the frontier put behind it, and the
    result of the branch that adopts a new begin state for the next line. *)
Definition setEndState_marked (lineIndex : Z) (s : TokenizationStateStore)
  : TokenizationStateStore :=
  set_invalidLineStartIndex (lineIndex + 1) (_setValid lineIndex true s).

Definition setEndState_changed (lineIndex : Z) (endState : IState)
  (s : TokenizationStateStore) : TokenizationStateStore :=
  _invalidateLine (lineIndex + 1)
    (_setBeginState (lineIndex + 1) (Some endState) (setEndState_marked lineIndex s)).

Definition setFakeTokens (lineIndex : Z) (s : TokenizationStateStore)
  : TokenizationStateStore :=
  _setValid lineIndex false s.

(** The [for (j = editingLinesCnt; j >= 0; j--)] of [applyEdits], told by
    the number [n] of rounds left: round [n = S m] runs with [j = m]. *)
Fixpoint invalidateEdited (n : nat) (startLine : Z) (s : TokenizationStateStore)
  : TokenizationStateStore :=
  match n with
  | O => s
  | S m => invalidateEdited m startLine (_invalidateLine (startLine + Z.of_nat m - 1) s)
  end.

Definition _acceptDeleteRange (range : IRange) (s : TokenizationStateStore)
  : TokenizationStateStore :=
  let firstLineIndex := startLineNumber range - 1 in
  if firstLineIndex >=? _len s then s
  else _deleteLines (startLineNumber range) (endLineNumber range - startLineNumber range) s.

Definition _acceptInsertText (position : Position) (eolCount : Z)
  (s : TokenizationStateStore) : TokenizationStateStore :=
  let lineIndex := lineNumber position - 1 in
  if lineIndex >=? _len s then s
  else _insertLines (lineNumber position) eolCount s.

Definition editingLinesCnt (range : IRange) (eolCount : Z) : Z :=
  let deletingLinesCnt := endLineNumber range - startLineNumber range in
  let insertingLinesCnt := eolCount in
  Z.min deletingLinesCnt insertingLinesCnt.

(** The first phase of [applyEdits]: the touched lines are invalidated. *)
Definition applyEdits_invalidate (range : IRange) (eolCount : Z)
  (s : TokenizationStateStore) : TokenizationStateStore :=
  invalidateEdited (Z.to_nat (editingLinesCnt range eolCount + 1)) (startLineNumber range) s.

Definition applyEdits (range : IRange) (eolCount : Z) (s : TokenizationStateStore)
  : TokenizationStateStore :=
  let s := applyEdits_invalidate range eolCount s in
  let s := _acceptDeleteRange range s in
  _acceptInsertText (mkPosition (startLineNumber range) (startColumn range)) eolCount s.


(** *** The edit protocol in the words of the specification

    For [j = k] down to [0] the specification invalidates the entry at
    [range.startLine - 1 + j - 1], guarding the lower bound; the splices
    follow as in the code. *)
Fixpoint invalidateEdited_asSpecified (n : nat) (startLine : Z) (s : TokenizationStateStore)
  : TokenizationStateStore :=
  match n with
  | O => s
  | S m =>
      let index := startLine - 1 + Z.of_nat m - 1 in
      invalidateEdited_asSpecified m startLine
        (if 0 <=? index then _invalidateLine index s else s)
  end.

Definition applyEdits_asSpecified (range : IRange) (eolCount : Z)
  (s : TokenizationStateStore) : TokenizationStateStore :=
  let s := invalidateEdited_asSpecified
             (Z.to_nat (editingLinesCnt range eolCount + 1)) (startLineNumber range) s in
  let s := _acceptDeleteRange range s in
  _acceptInsertText (mkPosition (startLineNumber range) (startColumn range)) eolCount s.

(** *** The bounded-frontier invariant and the states the class can be in *)

Definition frontier_bounded (s : TokenizationStateStore) : Prop :=
  0 <= _invalidLineStartIndex s <= _len s.

(** [_len] counts the entries that the two arrays hold. *)
Definition entries_agree (s : TokenizationStateStore) : Prop :=
  _len s = Z.of_nat (length (_valid s))
  /\ _len s = Z.of_nat (length (_beginState s)).

(** A line index is an index into the buffer, a range has its lines in order
    and starts at line 1 or later, and an edit inserts no negative number of
    line breaks. *)
Definition range_ok (range : IRange) : Prop :=
  1 <= startLineNumber range <= endLineNumber range.

(** The stores that the constructor and the public methods produce.
    [getBeginState] and the [invalidLineStartIndex] getter only read. *)
Inductive reachable : TokenizationStateStore -> Prop :=
| reachable_new : reachable newStore
| reachable_flush initialState s :
    reachable s -> reachable (flush initialState s)
| reachable_setEndState linesLength lineIndex endState s :
    reachable s -> 0 <= lineIndex ->
    reachable (setEndState linesLength lineIndex endState s)
| reachable_setFakeTokens lineIndex s :
    reachable s -> 0 <= lineIndex -> reachable (setFakeTokens lineIndex s)
| reachable_applyEdits range eolCount s :
    reachable s -> range_ok range -> 0 <= eolCount ->
    reachable (applyEdits range eolCount s).

End StateStore.

(** ** Tokens, the tokenizer and the text model *)

Module StandardTokenType.
Inductive t : Type := Other | Comment | String | RegEx.
End StandardTokenType.

(** The token array of a line, two numbers per token: an offset and the
    encoded attributes. *)
Definition Tokens : Type := list (Z * Z).

(** The builder of a batch of line tokens, kept as the sequence of what its
    [add] received; [finalize] hands this sequence to [setTokens]. *)
Definition TokensBuilder : Type := list (Z * Tokens).

Definition builder_add (builder : TokensBuilder) (lineNumber : Z) (tokens : Tokens)
  : TokensBuilder :=
  builder ++ [(lineNumber, tokens)].

(** What the engine reads from the text model. *)
Record TextModel : Type := mkTextModel {
  getLanguageId : string;
  getLineCount : Z;
  getLineContent : Z -> string;
  getLineLength : Z -> Z;
  getLineFirstNonWhitespaceColumn : Z -> Z
}.

Record ILanguageIdCodec : Type := mkCodec {
  encodeLanguageId : string -> Z
}.

(** [s.substring(0, e)] and [s.substring(b)]; an argument below zero counts
    as zero, one beyond the end as the end. *)
Definition substring_to (s : string) (e : Z) : string :=
  String.substring 0 (Z.to_nat e) s.

Definition substring_from (s : string) (b : Z) : string :=
  String.substring (Z.to_nat b) (String.length s - Z.to_nat b) s.

Definition CHEAP_TOKENIZATION_LENGTH_LIMIT : Z := 2048.

(** [setEndState] when the end state it is given is [null].  The next line
    is read as in [setEndState]; without a cached begin state there, the
    test [previousEndState === null] settles the branch and [null] is
    stored; with one, [endState.equals] is called on [null] and throws:
    [None]. *)
Definition setEndState_null {IState : Type} (linesLength lineIndex : Z)
  (s : @TokenizationStateStore IState) : option (@TokenizationStateStore IState) :=
  let s := _setValid lineIndex true s in
  let s := set_invalidLineStartIndex (lineIndex + 1) s in
  if lineIndex =? linesLength - 1 then Some s
  else
    match getBeginState s (lineIndex + 1) with
    | None => Some (_invalidateLine (lineIndex + 1) (_setBeginState (lineIndex + 1) None s))
    | Some _ => None
    end.

(** [setEndState] for an end state that may be [null]. *)
Definition setEndState_nullable {IState : Type} (equals : IState -> IState -> bool)
  (linesLength lineIndex : Z) (endState : option IState)
  (s : @TokenizationStateStore IState) : option (@TokenizationStateStore IState) :=
  match endState with
  | Some endState => Some (setEndState equals linesLength lineIndex endState s)
  | None => setEndState_null linesLength lineIndex s
  end.

Section Engine.

Context {IState Error : Type}.

Variable equals : IState -> IState -> bool.
(** [state.clone()]. *)
Variable clone : IState -> IState.

Record EncodedTokenizationResult : Type := mkResult {
  tokens : Tokens;
  endState : IState
}.

(** A tokenizer.  [tokenizeEncoded] returns a result ([inr]) or throws
    ([inl]).  [getInitialState] has returned once when a tokenizer is
    installed ([initializeTokenization] drops a tokenizer whose initial
    state cannot be had), and is a value here. *)
Record ITokenizationSupport : Type := mkSupport {
  getInitialState : IState;
  tokenizeEncoded : string -> bool -> IState -> Error + EncodedTokenizationResult
}.

(** The attributes of the one token of a null tokenization, by encoded
    language id (the metadata layout lies outside these sources). *)
Variable defaultAttributes : Z -> Z.

(** Modelled from the spec: [nullTokenizeEncoded]
    ([vs/editor/common/languages/nullMode] is not part of the sources at
    hand).  The spec has it give a single token covering the entire line
    with default attributes, and the state it is given as end state. *)
Definition nullTokenizeEncoded (languageId : Z) (state : IState) : EncodedTokenizationResult :=
  mkResult [(0, defaultAttributes languageId)] state.

(** Modelled from the spec: [LineTokens.convertToEndOffset]
    ([vs/editor/common/model/tokens/lineTokens] is not part of the sources
    at hand).  The tokenizer gives each token by the offset it starts at;
    the spec has the engine keep end offsets, the last one [text.length]. *)
Fixpoint convertToEndOffset (tokens : Tokens) (lineTextLength : Z) : Tokens :=
  match tokens with
  | [] => []
  | (_, attributes) :: rest =>
      (match rest with
       | [] => lineTextLength
       | (nextStart, _) :: _ => nextStart
       end, attributes) :: convertToEndOffset rest lineTextLength
  end.

(** The line tokens object made from a token array and the text, with the
    three readings the engine takes of it (class [LineTokens], outside
    these sources). *)
Record LineTokens : Type := mkLineTokens {
  lineTokens_tokens : Tokens;
  lineTokens_text : string
}.

Variable getCount : LineTokens -> Z.
Variable findTokenIndexAtOffset : LineTokens -> Z -> Z.
Variable getStandardTokenType : LineTokens -> Z -> StandardTokenType.t.

(** *** [safeTokenize]

    The second component of the result lists what was handed to
    [onUnexpectedError] during the call. *)
Definition safeTokenize (languageIdCodec : ILanguageIdCodec) (languageId : string)
  (tokenizationSupport : option ITokenizationSupport) (text : string) (hasEOL : bool)
  (state : IState) : EncodedTokenizationResult * list Error :=
  let '(r, reported) :=
    match tokenizationSupport with
    | Some support =>
        match tokenizeEncoded support text hasEOL (clone state) with
        | inr r => (Some r, [])
        | inl e => (None, [e])
        end
    | None => (None, [])
    end in
  let r :=
    match r with
    | Some r => r
    | None => nullTokenizeEncoded (encodeLanguageId languageIdCodec languageId) state
    end in
  (mkResult (convertToEndOffset (tokens r) (Z.of_nat (String.length text))) (endState r),
   reported).

(** *** TextModelTokenization

    The engine with the two sinks it writes to: the errors handed to
    [onUnexpectedError] and the calls of [_textModel.setTokens], oldest
    first. *)
Record TextModelTokenization : Type := mkEngine {
  _tokenizationStateStore : @TokenizationStateStore IState;
  _tokenizationSupport : option ITokenizationSupport;
  unexpectedErrors : list Error;
  setTokensCalls : list (TokensBuilder * bool)
}.

Variable _textModel : TextModel.
Variable _languageIdCodec : ILanguageIdCodec.

Definition with_store (store : @TokenizationStateStore IState) (e : TextModelTokenization)
  : TextModelTokenization :=
  mkEngine store (_tokenizationSupport e) (unexpectedErrors e) (setTokensCalls e).

Definition onUnexpectedError (reported : list Error) (e : TextModelTokenization)
  : TextModelTokenization :=
  mkEngine (_tokenizationStateStore e) (_tokenizationSupport e)
           (unexpectedErrors e ++ reported) (setTokensCalls e).

Definition _hasLinesToTokenize (e : TextModelTokenization) : bool :=
  match _tokenizationSupport e with
  | None => false
  | Some _ => invalidLineStartIndex (_tokenizationStateStore e) <? getLineCount _textModel
  end.

Definition setTokens (builder : TokensBuilder) (e : TextModelTokenization)
  : TextModelTokenization :=
  mkEngine (_tokenizationStateStore e) (_tokenizationSupport e) (unexpectedErrors e)
           (setTokensCalls e ++ [(builder, negb (_hasLinesToTokenize e))]).

(** The error that [null.clone()] throws. *)
Variable nullCloneError : Error.

(** Modelled from the spec: the end state that [nullTokenizeEncoded]
    ([vs/editor/common/languages/nullMode], not in these sources) gives for
    a state that is [null].  The spec has it hand on the state it is given,
    which is [null] here ([None]); an implementation may put a state of its
    own in its place ([Some]). *)
Variable nullEndState : option IState.

(** [safeTokenize] when the state it is given is [null]: the tokens and the
    end state of the result, and what was handed to [onUnexpectedError].
    With a tokenizer, [state.clone()] throws inside the [try] before the
    tokenizer is called; the null tokenization follows, whose tokens do not
    depend on the state. *)
Definition safeTokenize_noState (languageIdCodec : ILanguageIdCodec) (languageId : string)
  (tokenizationSupport : option ITokenizationSupport) (text : string) (hasEOL : bool)
  : (Tokens * option IState) * list Error :=
  let reported :=
    match tokenizationSupport with
    | Some _ => [nullCloneError]
    | None => []
    end in
  ((convertToEndOffset
      [(0, defaultAttributes (encodeLanguageId languageIdCodec languageId))]
      (Z.of_nat (String.length text)),
    nullEndState),
   reported).

(** The loop of [_updateTokensUntilLine].  Its index is reset from the
    frontier at the end of each round, so a round starts with [lineIndex]
    at the frontier left by the round before.  The begin state of the line
    is asserted to be there ([lineStartState!]), which stops nothing: when
    it is [null], [safeTokenize] reports the error of [null.clone()] and
    gives the null tokenization, and the round goes on with its end state.
    [None] is a run that an exception leaves: [endState.equals] called on
    an end state that is [null].  Each round moves the frontier up, so
    [endLineIndex + 1 - lineIndex] rounds are enough
    ([_updateTokensUntilLine_exit] below). *)
Fixpoint _updateTokensUntilLine_loop (fuel : nat) (support : ITokenizationSupport)
  (languageId : string) (linesLength endLineIndex lineIndex : Z)
  (builder : TokensBuilder) (e : TextModelTokenization)
  : option (TokensBuilder * TextModelTokenization) :=
  match fuel with
  | O => Some (builder, e)
  | S fuel' =>
      if lineIndex <=? endLineIndex then
        let text := getLineContent _textModel (lineIndex + 1) in
        match getBeginState (_tokenizationStateStore e) lineIndex with
        | None =>
            let '((tokens, endState), reported) :=
              safeTokenize_noState _languageIdCodec languageId (Some support) text true in
            let e := onUnexpectedError reported e in
            let builder := builder_add builder (lineIndex + 1) tokens in
            match setEndState_nullable equals linesLength lineIndex endState
                    (_tokenizationStateStore e) with
            | None => None
            | Some store =>
                let e := with_store store e in
                let lineIndex := invalidLineStartIndex (_tokenizationStateStore e) - 1 in
                _updateTokensUntilLine_loop fuel' support languageId linesLength
                  endLineIndex (lineIndex + 1) builder e
            end
        | Some lineStartState =>
            let '(r, reported) :=
              safeTokenize _languageIdCodec languageId (Some support) text true lineStartState in
            let e := onUnexpectedError reported e in
            let builder := builder_add builder (lineIndex + 1) (tokens r) in
            let e := with_store (setEndState equals linesLength lineIndex (endState r)
                                   (_tokenizationStateStore e)) e in
            let lineIndex := invalidLineStartIndex (_tokenizationStateStore e) - 1 in
            _updateTokensUntilLine_loop fuel' support languageId linesLength endLineIndex
              (lineIndex + 1) builder e
        end
      else Some (builder, e)
  end.

Definition _updateTokensUntilLine (builder : TokensBuilder) (lineNumber : Z)
  (e : TextModelTokenization) : option (TokensBuilder * TextModelTokenization) :=
  match _tokenizationSupport e with
  | None => Some (builder, e)
  | Some support =>
      let languageId := getLanguageId _textModel in
      let linesLength := getLineCount _textModel in
      let endLineIndex := lineNumber - 1 in
      let lineIndex := invalidLineStartIndex (_tokenizationStateStore e) in
      _updateTokensUntilLine_loop (Z.to_nat (endLineIndex + 1 - lineIndex)) support
        languageId linesLength endLineIndex lineIndex builder e
  end.

Definition forceTokenization (lineNumber : Z) (e : TextModelTokenization)
  : option TextModelTokenization :=
  match _updateTokensUntilLine [] lineNumber e with
  | Some (builder, e) => Some (setTokens builder e)
  | None => None
  end.

Definition getTokenTypeIfInsertingCharacter (position : Position) (character : string)
  (e : TextModelTokenization) : option (StandardTokenType.t * TextModelTokenization) :=
  match _tokenizationSupport e with
  | None => Some (StandardTokenType.Other, e)
  | Some _ =>
      match forceTokenization (lineNumber position) e with
      | None => None
      | Some e =>
          match getBeginState (_tokenizationStateStore e) (lineNumber position - 1) with
          | None => Some (StandardTokenType.Other, e)
          | Some lineStartState =>
              let languageId := getLanguageId _textModel in
              let lineContent := getLineContent _textModel (lineNumber position) in
              (* Create the text as if `character` was inserted *)
              let text :=
                (substring_to lineContent (column position - 1)
                 ++ character
                 ++ substring_from lineContent (column position - 1))%string in
              let '(r, reported) :=
                safeTokenize _languageIdCodec languageId (_tokenizationSupport e) text true
                  lineStartState in
              let e := onUnexpectedError reported e in
              let lineTokens := mkLineTokens (tokens r) text in
              if getCount lineTokens =? 0 then Some (StandardTokenType.Other, e)
              else
                let tokenIndex := findTokenIndexAtOffset lineTokens (column position - 1) in
                Some (getStandardTokenType lineTokens tokenIndex, e)
          end
      end
  end.

Definition isCheapToTokenize (lineNumber : Z) (e : TextModelTokenization) : bool :=
  match _tokenizationSupport e with
  | None => true
  | Some _ =>
      let firstInvalidLineNumber := invalidLineStartIndex (_tokenizationStateStore e) + 1 in
      if lineNumber >? firstInvalidLineNumber then false
      else if lineNumber <? firstInvalidLineNumber then true
      else if getLineLength _textModel lineNumber <? CHEAP_TOKENIZATION_LENGTH_LIMIT then true
      else false
  end.

(** The first loop of [_tokenizeViewport], walking [i] down from
    [startLineNumber - 1] to [1]; [n] is [i] as a natural number, so the
    test [i >= 1] is the test that [n] is a successor.  The result is the
    lines collected and the begin state the walk ended on, if any. *)
Fixpoint viewportPrefix_loop (n : nat) (store : @TokenizationStateStore IState)
  (nonWhitespaceColumn : Z) (fakeLines : list string) : list string * option IState :=
  match n with
  | O => (fakeLines, None)
  | S m =>
      let i := Z.of_nat (S m) in
      if nonWhitespaceColumn >? 1 then
        let newNonWhitespaceIndex := getLineFirstNonWhitespaceColumn _textModel i in
        if newNonWhitespaceIndex =? 0 then
          viewportPrefix_loop m store nonWhitespaceColumn fakeLines
        else if newNonWhitespaceIndex <? nonWhitespaceColumn then
          match getBeginState store (i - 1) with
          | Some initialState => (fakeLines, Some initialState)
          | None =>
              viewportPrefix_loop m store newNonWhitespaceIndex
                (fakeLines ++ [getLineContent _textModel i])
          end
        else viewportPrefix_loop m store nonWhitespaceColumn fakeLines
      else (fakeLines, None)
  end.

(** The second loop: the collected lines, last collected first, are run
    through the tokenizer for their end state only.  [lines] is the list in
    the order of the run. *)
Fixpoint viewportFakeLines_loop (lines : list string) (support : ITokenizationSupport)
  (languageId : string) (state : IState) (reported : list Error) : IState * list Error :=
  match lines with
  | [] => (state, reported)
  | line :: lines' =>
      let '(r, reported') :=
        safeTokenize _languageIdCodec languageId (Some support) line false state in
      viewportFakeLines_loop lines' support languageId (endState r) (reported ++ reported')
  end.

(** The third loop, over the [n] lines from [lineNumber] on. *)
Fixpoint viewportLines_loop (n : nat) (support : ITokenizationSupport)
  (languageId : string) (lineNumber : Z) (state : IState)
  (builder : TokensBuilder) (e : TextModelTokenization)
  : TokensBuilder * TextModelTokenization :=
  match n with
  | O => (builder, e)
  | S m =>
      let text := getLineContent _textModel lineNumber in
      let '(r, reported) :=
        safeTokenize _languageIdCodec languageId (Some support) text true state in
      let e := onUnexpectedError reported e in
      let builder := builder_add builder lineNumber (tokens r) in
      let e := with_store (setFakeTokens (lineNumber - 1) (_tokenizationStateStore e)) e in
      viewportLines_loop m support languageId (lineNumber + 1) (endState r) builder e
  end.

Definition _tokenizeViewport (builder : TokensBuilder) (startLineNumber endLineNumber : Z)
  (e : TextModelTokenization) : option (TokensBuilder * TextModelTokenization) :=
  match _tokenizationSupport e with
  | None => Some (builder, e)
  | Some support =>
      if endLineNumber <=? invalidLineStartIndex (_tokenizationStateStore e) then
        Some (builder, e)
      else if startLineNumber <=? invalidLineStartIndex (_tokenizationStateStore e) then
        (* tokenization has reached the viewport start... *)
        _updateTokensUntilLine builder endLineNumber e
      else
        let nonWhitespaceColumn :=
          getLineFirstNonWhitespaceColumn _textModel startLineNumber in
        let '(fakeLines, initialState) :=
          viewportPrefix_loop (Z.to_nat (startLineNumber - 1)) (_tokenizationStateStore e)
            nonWhitespaceColumn [] in
        let initialState :=
          match initialState with
          | Some st => st
          | None => getInitialState support
          end in
        let languageId := getLanguageId _textModel in
        let '(state, reported) :=
          viewportFakeLines_loop (rev fakeLines) support languageId initialState [] in
        let e := onUnexpectedError reported e in
        Some (viewportLines_loop (Z.to_nat (endLineNumber - startLineNumber + 1)) support
                languageId startLineNumber state builder e)
  end.

Definition tokenizeViewport (startLineNumber endLineNumber : Z) (e : TextModelTokenization)
  : option TextModelTokenization :=
  match _tokenizeViewport [] startLineNumber endLineNumber e with
  | Some (builder, e) => Some (setTokens builder e)
  | None => None
  end.

(** *** The probe in the words of the specification

    The token type at the caret once [character] is spliced into the line:
    the synthetic line is tokenized from the cached begin state of the
    line, and the type of the token at the offset of the caret is read off.
    There is the default type when no begin state is cached or no token
    comes back. *)
Definition probedTokenType (store : @TokenizationStateStore IState)
  (tokenizationSupport : option ITokenizationSupport) (position : Position)
  (character : string) : StandardTokenType.t :=
  match getBeginState store (lineNumber position - 1) with
  | None => StandardTokenType.Other
  | Some lineStartState =>
      let lineContent := getLineContent _textModel (lineNumber position) in
      let text :=
        (substring_to lineContent (column position - 1)
         ++ character
         ++ substring_from lineContent (column position - 1))%string in
      let r := fst (safeTokenize _languageIdCodec (getLanguageId _textModel)
                      tokenizationSupport text true lineStartState) in
      let lineTokens := mkLineTokens (tokens r) text in
      if getCount lineTokens =? 0 then StandardTokenType.Other
      else getStandardTokenType lineTokens
             (findTokenIndexAtOffset lineTokens (column position - 1))
  end.

(** *** [isCheapToTokenize] in the words of the specification *)
Definition cheap_asSpecified (lineNumber : Z) (e : TextModelTokenization) : Prop :=
  let invalidFrontier := invalidLineStartIndex (_tokenizationStateStore e) in
  lineNumber < invalidFrontier + 1
  \/ (lineNumber = invalidFrontier + 1
      /\ getLineLength _textModel lineNumber < 2048).

End Engine.

(** ** Concrete stores and engines

    The tokenizer states of the examples are integers compared by [Z.eqb]. *)

Module Examples.

(** Four lines, all tokenized from state [0]. *)
Definition store_tokenized : @TokenizationStateStore Z :=
  mkStore [Some 0; Some 0; Some 0; Some 0] [true; true; true; true] 4 4.

(** The same after line 2 was edited in place: its entry is invalid and the
    frontier is on it. *)
Definition store_line2_edited : @TokenizationStateStore Z :=
  mkStore [Some 0; Some 0; Some 0; Some 0] [true; false; true; true] 4 1.

(** Three tokenized lines. *)
Definition store_three : @TokenizationStateStore Z :=
  mkStore [Some 0; Some 0; Some 0] [true; true; true] 3 3.

(** An edit inside line 2: no line removed, no line break inserted. *)
Definition edit_in_line2 : IRange := mkRange 2 1 2 1.

(** A store built through the public methods only. *)
Definition store_built : @TokenizationStateStore Z :=
  applyEdits edit_in_line2 1
    (setFakeTokens 5 (setEndState Z.eqb 4 0 7 (flush (Some 0) newStore))).


(** *** An engine over a four-line buffer *)

Definition lines : list string := ["a"; "  b"; "    c"; "    d"]%string.

Definition model : TextModel :=
  mkTextModel "plaintext"
    (Z.of_nat (length lines))
    (fun n => default ""%string (lines !! Z.to_nat (n - 1)))
    (fun n => Z.of_nat (String.length (default ""%string (lines !! Z.to_nat (n - 1)))))
    (fun n => default 0 ([1; 3; 5; 5] !! Z.to_nat (n - 1))).

Definition codec : ILanguageIdCodec := mkCodec (fun _ => 1).

(** What [null.clone()] throws, and a null tokenization that hands on the
    [null] it is given. *)
Definition nullCloneError : string := "TypeError"%string.
Definition nullEndState : option Z := None.

(** A tokenizer with a single state and one token per line. *)
Definition tokenizer : @ITokenizationSupport Z string :=
  mkSupport 0 (fun _ _ state => inr (mkResult [(0, 7)] state)).

(** A tokenizer that throws on every line. *)
Definition tokenizer_throwing : @ITokenizationSupport Z string :=
  mkSupport 0 (fun _ _ _ => inl "boom"%string).

Definition clone (state : Z) : Z := state.
Definition defaultAttributes (languageId : Z) : Z := languageId.

Definition getCount (lineTokens : LineTokens) : Z :=
  Z.of_nat (length (lineTokens_tokens lineTokens)).
Definition findTokenIndexAtOffset (lineTokens : LineTokens) (offset : Z) : Z :=
  Z.of_nat (length (filter (fun t => fst t <=? offset) (lineTokens_tokens lineTokens))).
Definition getStandardTokenType (lineTokens : LineTokens) (tokenIndex : Z)
  : StandardTokenType.t :=
  match lineTokens_tokens lineTokens !! Z.to_nat tokenIndex with
  | Some (_, 7) => StandardTokenType.Comment
  | _ => StandardTokenType.Other
  end.

(** The engine as it is after a reset, nothing tokenized yet. *)
Definition engine_fresh : @TextModelTokenization Z string :=
  mkEngine (flush (Some 0) newStore) (Some tokenizer) [] [].

(** The engine once line 1 is tokenized: the frontier is 1. *)
Definition engine_line1 : @TextModelTokenization Z string :=
  mkEngine (setEndState Z.eqb 4 0 0 (flush (Some 0) newStore)) (Some tokenizer) [] [].

(** An engine without a tokenizer. *)
Definition engine_no_tokenizer : @TextModelTokenization Z string :=
  mkEngine newStore None [] [].


(** The entry points of the engine over this buffer. *)
Definition probe : Position -> string -> @TextModelTokenization Z string ->
  option (StandardTokenType.t * @TextModelTokenization Z string) :=
  getTokenTypeIfInsertingCharacter Z.eqb clone defaultAttributes getCount
    findTokenIndexAtOffset getStandardTokenType model codec nullCloneError nullEndState.

Definition viewport : Z -> Z -> @TextModelTokenization Z string ->
  option (@TextModelTokenization Z string) :=
  tokenizeViewport Z.eqb clone defaultAttributes model codec nullCloneError nullEndState.

End Examples.

(** ** The store as the engine drives it

    The engine calls [setEndState] from the loop of
    [_updateTokensUntilLine] only, for the line at the frontier and with
    the line count of the buffer; it calls [setFakeTokens] from the
    viewport mode only, for lines at or behind the frontier; and it calls
    [applyEdits] for the changes of the buffer, whose ranges lie in the
    buffer as it was and whose inserted line breaks make up its new line
    count.  A buffer has one line at least. *)

Section Tracking.

Context {IState : Type}.
Variable equals : IState -> IState -> bool.

(** All entries below the frontier are valid. *)
Definition below_frontier_valid (s : @TokenizationStateStore IState) : Prop :=
  forall j, 0 <= j < _invalidLineStartIndex s -> _isValid s j = true.

(** The begin states that the next rounds of tokenization read are cached:
    those of the lines up to the frontier, and that of the line after each
    valid line, as far as these are lines of a buffer of [linesLength]
    lines. *)
Definition begin_states_ready (linesLength : Z) (s : @TokenizationStateStore IState) : Prop :=
  (forall j, 0 <= j <= _invalidLineStartIndex s -> j < linesLength ->
     is_Some (getBeginState s j))
  /\ (forall j, 0 <= j -> _isValid s j = true -> j + 1 < linesLength ->
        is_Some (getBeginState s (j + 1))).

(** [tracking linesLength s]: [s] is the store of an engine with a tokenizer
    over a buffer of [linesLength] lines. *)
Inductive tracking : Z -> @TokenizationStateStore IState -> Prop :=
| tracking_reset linesLength initialState s :
    1 <= linesLength ->
    tracking linesLength (flush (Some initialState) s)
| tracking_tokenized linesLength s lineStartState endState :
    tracking linesLength s ->
    _invalidLineStartIndex s < linesLength ->
    getBeginState s (_invalidLineStartIndex s) = Some lineStartState ->
    tracking linesLength
      (setEndState equals linesLength (_invalidLineStartIndex s) endState s)
| tracking_fake linesLength s lineIndex :
    tracking linesLength s ->
    _invalidLineStartIndex s <= lineIndex ->
    tracking linesLength (setFakeTokens lineIndex s)
| tracking_edit linesLength s range eolCount :
    tracking linesLength s ->
    range_ok range -> endLineNumber range <= linesLength -> 0 <= eolCount ->
    tracking (linesLength - (endLineNumber range - startLineNumber range) + eolCount)
      (applyEdits range eolCount s).

(** What holds of every store that the engine passes through
    ([tracking_invariant] below). *)
Definition tracked_ok (linesLength : Z) (s : @TokenizationStateStore IState) : Prop :=
  1 <= linesLength
  /\ frontier_bounded s
  /\ _invalidLineStartIndex s <= linesLength
  /\ entries_agree s
  /\ below_frontier_valid s
  /\ begin_states_ready linesLength s.

End Tracking.

(** ** More of the engine: one line at a time, a background slice, reset *)

Section EngineMore.

Context {IState Error : Type}.

Variable equals : IState -> IState -> bool.
Variable clone : IState -> IState.
Variable defaultAttributes : Z -> Z.
Variable _textModel : TextModel.
Variable _languageIdCodec : ILanguageIdCodec.
Variable nullCloneError : Error.
Variable nullEndState : option IState.

(** [_tokenizeOneInvalidLine]: the line number it returns, with the builder
    and the engine it leaves. *)
Definition _tokenizeOneInvalidLine (builder : TokensBuilder)
  (e : @TextModelTokenization IState Error)
  : option (Z * (TokensBuilder * @TextModelTokenization IState Error)) :=
  if negb (_hasLinesToTokenize _textModel e) then
    Some (getLineCount _textModel + 1, (builder, e))
  else
    let lineNumber := invalidLineStartIndex (_tokenizationStateStore e) + 1 in
    match _updateTokensUntilLine equals clone defaultAttributes _textModel
            _languageIdCodec nullCloneError nullEndState builder lineNumber e with
    | Some r => Some (lineNumber, r)
    | None => None
    end.

(** The stop watch of a slice is read once per round; [expired k] tells
    whether reading number [k] (from 0) is above one millisecond. *)
Variable expired : nat -> bool.

(** The [do ... while] of [_backgroundTokenizeForAtLeast1ms], at its round
    number [k].  Each round but the last moves the frontier up, so the
    rounds granted by [_backgroundTokenizeForAtLeast1ms] are enough
    ([slice_loop_exit] below). *)
Fixpoint slice_loop (fuel k : nat) (lineCount : Z) (builder : TokensBuilder)
  (e : @TextModelTokenization IState Error)
  : option (TokensBuilder * @TextModelTokenization IState Error) :=
  match fuel with
  | O => Some (builder, e)
  | S fuel' =>
      if expired k then Some (builder, e)
      else
        match _tokenizeOneInvalidLine builder e with
        | None => None
        | Some (tokenizedLineNumber, (builder, e)) =>
            if tokenizedLineNumber >=? lineCount then Some (builder, e)
            else if _hasLinesToTokenize _textModel e
                 then slice_loop fuel' (S k) lineCount builder e
                 else Some (builder, e)
        end
  end.

Definition _backgroundTokenizeForAtLeast1ms (e : @TextModelTokenization IState Error)
  : option (@TextModelTokenization IState Error) :=
  let lineCount := getLineCount _textModel in
  let builder : TokensBuilder := [] in
  match slice_loop
          (S (Z.to_nat (lineCount - invalidLineStartIndex (_tokenizationStateStore e))))
          0 lineCount builder e with
  | Some (builder, e) => Some (setTokens _textModel builder e)
  | None => None
  end.

(** A tokenizer as the registry holds it: its [getInitialState] may throw
    ([inl]).  Once it has returned, the tokenizer is installed with the
    state it gave. *)
Record RegisteredSupport : Type := mkRegistered {
  registered_getInitialState : Error + IState;
  registered_tokenizeEncoded :
    string -> bool -> IState -> Error + @EncodedTokenizationResult IState
}.

Definition installed (support : RegisteredSupport) (initialState : IState)
  : @ITokenizationSupport IState Error :=
  mkSupport initialState (registered_tokenizeEncoded support).

(** [initializeTokenization], given what the text model says of its size
    and what the registry holds for its language.  The last component
    lists what was handed to [onUnexpectedError]. *)
Definition initializeTokenization (isTooLargeForTokenization : bool)
  (registryGet : option RegisteredSupport)
  : (option (@ITokenizationSupport IState Error) * option IState) * list Error :=
  let tokenizationSupport :=
    if isTooLargeForTokenization then None else registryGet in
  match tokenizationSupport with
  | Some support =>
      match registered_getInitialState support with
      | inr initialState => ((Some (installed support initialState), Some initialState), [])
      | inl e => ((None, None), [e])
      end
  | None => ((None, None), [])
  end.

(** [_resetTokenizationState], up to its last statement, the request for
    background tokenization, which is the business of the host. *)
Definition _resetTokenizationState (isTooLargeForTokenization : bool)
  (registryGet : option RegisteredSupport) (e : @TextModelTokenization IState Error)
  : @TextModelTokenization IState Error :=
  let '((tokenizationSupport, initialState), reported) :=
    initializeTokenization isTooLargeForTokenization registryGet in
  mkEngine (flush initialState (_tokenizationStateStore e)) tokenizationSupport
           (unexpectedErrors e ++ reported) (setTokensCalls e).

(** The loop of the handler of a content change that is no flush: the
    changes are applied to the store in their order.  A change is its range
    and the number of line breaks of its text.  (The handler then asks the
    host for background tokenization.) *)
Fixpoint applyChanges (changes : list (IRange * Z)) (e : @TextModelTokenization IState Error)
  : @TextModelTokenization IState Error :=
  match changes with
  | [] => e
  | (range, eolCount) :: changes' =>
      applyChanges changes'
        (with_store (applyEdits range eolCount (_tokenizationStateStore e)) e)
  end.

(** The line count of the buffer after a list of changes, and what makes
    the list fit a buffer of [linesLength] lines: each range lies in the
    buffer as the changes before it have left it. *)
Fixpoint lineCountAfter (changes : list (IRange * Z)) (linesLength : Z) : Z :=
  match changes with
  | [] => linesLength
  | (range, eolCount) :: changes' =>
      lineCountAfter changes'
        (linesLength - (endLineNumber range - startLineNumber range) + eolCount)
  end.

Fixpoint changes_ok (changes : list (IRange * Z)) (linesLength : Z) : Prop :=
  match changes with
  | [] => True
  | (range, eolCount) :: changes' =>
      range_ok range /\ endLineNumber range <= linesLength /\ 0 <= eolCount
      /\ changes_ok changes'
           (linesLength - (endLineNumber range - startLineNumber range) + eolCount)
  end.

End EngineMore.

(** ** The command tracker of the terminal: working directories

    The part of [CognisantCommandTrackerAddon] that keeps the working
    directories: the fields [_terminal], [_cwds], [_cwd] and [_initialCwd],
    the event [onCwdChanged], the [CurrentDir] case of
    [handleIntegratedShellChange] (the only case that writes these fields)
    and the getter [cwds]. *)

Module CommandTracker.

(** A [Map<string, number>], as its entries in the order of insertion. *)
Definition CwdMap : Type := list (string * Z).

Fixpoint map_get (m : CwdMap) (key : string) : option Z :=
  match m with
  | [] => None
  | (k, v) :: m' => if String.eqb k key then Some v else map_get m' key
  end.

(** [m.set(key, value)]: a key that is there keeps its place. *)
Fixpoint map_set (m : CwdMap) (key : string) (value : Z) : CwdMap :=
  match m with
  | [] => [(key, value)]
  | (k, v) :: m' =>
      if String.eqb k key then (k, value) :: m' else (k, v) :: map_set m' key value
  end.

(** [new Map(entries)]. *)
Definition map_of_entries (entries : list (string * Z)) : CwdMap :=
  fold_left (fun m entry => map_set m (fst entry) (snd entry)) entries [].

(** [entries.sort((a, b) => a[1] - b[1])]: the sort of an array is stable,
    and the stable arrangement by rising count is one list only; it is
    built here by insertion from the right. *)
Fixpoint insert_by_count (entry : string * Z) (sorted : list (string * Z))
  : list (string * Z) :=
  match sorted with
  | [] => [entry]
  | entry' :: sorted' =>
      if snd entry <=? snd entry' then entry :: entry' :: sorted'
      else entry' :: insert_by_count entry sorted'
  end.

Definition sort_by_count (entries : list (string * Z)) : list (string * Z) :=
  foldr insert_by_count [] entries.

Inductive EventType : Type :=
| CurrentDir | PromptStart | CommandStart | CommandExecuted | CommandFinished | OtherEvent.

Record Tracker : Type := mkTracker {
  (** whether [activate] has given a terminal *)
  _terminal : bool;
  _cwds : CwdMap;
  _cwd : option string;
  _initialCwd : option string;
  (** what [_onCwdChanged] has fired, oldest first *)
  onCwdChanged : list string
}.

Definition newTracker : Tracker := mkTracker false [] None None [].

Definition activate (t : Tracker) : Tracker :=
  mkTracker true (_cwds t) (_cwd t) (_initialCwd t) (onCwdChanged t).

(** [!s] for a string that may be undefined: the empty string is falsy. *)
Definition not_string (s : option string) : bool :=
  match s with
  | None => true
  | Some s => String.eqb s ""
  end.

(** [n || 0] for a number that may be undefined. *)
Definition or_zero (n : option Z) : Z :=
  match n with
  | None => 0
  | Some n => if n =? 0 then 0 else n
  end.

(** [handleIntegratedShellChange], as far as the fields above go: the cases
    other than [CurrentDir] write the command being tracked and the list of
    commands, and none of these fields. *)
Definition handleIntegratedShellChange (type : EventType) (value : string) (t : Tracker)
  : Tracker :=
  if negb (_terminal t) then t
  else
    match type with
    | CurrentDir =>
        let initialCwd :=
          if not_string (_initialCwd t) then Some value else _initialCwd t in
        let cwd := value in
        let freq := or_zero (map_get (_cwds t) cwd) in
        mkTracker (_terminal t) (map_set (_cwds t) cwd (freq + 1)) (Some cwd) initialCwd
                  (onCwdChanged t ++ [cwd])
    | _ => t
    end.

(** The getter [cwds]. *)
Definition cwds (t : Tracker) : list string :=
  map fst (map_of_entries (sort_by_count (_cwds t))).

(** A run of events. *)
Fixpoint handleAll (events : list (EventType * string)) (t : Tracker) : Tracker :=
  match events with
  | [] => t
  | (type, value) :: events' => handleAll events' (handleIntegratedShellChange type value t)
  end.

(** The directories that a run of events reports, in order, and how often
    it reports one of them. *)
Definition reported (events : list (EventType * string)) : list string :=
  omap (fun ev => match fst ev with CurrentDir => Some (snd ev) | _ => None end) events.

Definition visits (dir : string) (events : list (EventType * string)) : Z :=
  Z.of_nat (length (List.filter (String.eqb dir) (reported events))).

(** The count that the tracker holds for a directory. *)
Definition count_of (t : Tracker) (dir : string) : Z :=
  or_zero (map_get (_cwds t) dir).

End CommandTracker.

(** ** More concrete inputs *)

Module MoreExamples.

(** The store of [Examples.engine_line1], and the proof that the engine
    tracks it, are built from a reset and one line tokenized. *)
Definition store_reset : @TokenizationStateStore Z := flush (Some 0) newStore.

(** Six cached lines, all tokenized. *)
Definition store_six : @TokenizationStateStore Z :=
  mkStore [Some 0; Some 1; Some 2; Some 3; Some 4; Some 5]
          [true; true; true; true; true; true] 6 6.

(** Lines 2 to 4 are replaced by a text with one line break: two lines go,
    one comes. *)
Definition edit_lines_2_4 : IRange := mkRange 2 1 4 1.

(** An edit that starts at line 9. *)
Definition edit_line9 : IRange := mkRange 9 1 9 3.

(** The tokenizer of [Examples], as the registry holds it. *)
Definition registered : @RegisteredSupport Z string :=
  mkRegistered (inr 0) (fun _ _ state => inr (mkResult [(0, 7)] state)).

(** An engine whose tokenizer throws on every line. *)
Definition engine_throwing : @TextModelTokenization Z string :=
  mkEngine (flush (Some 0) newStore) (Some Examples.tokenizer_throwing) [] [].

(** A stop watch that is never above one millisecond, and one that is from
    its third reading on. *)
Definition never_expired (k : nat) : bool := false.
Definition expired_from_2 (k : nat) : bool := (2 <=? k)%nat.

Definition force : Z -> @TextModelTokenization Z string ->
  option (@TextModelTokenization Z string) :=
  forceTokenization Z.eqb Examples.clone Examples.defaultAttributes Examples.model
    Examples.codec Examples.nullCloneError Examples.nullEndState.

Definition slice (expired : nat -> bool) : @TextModelTokenization Z string ->
  option (@TextModelTokenization Z string) :=
  _backgroundTokenizeForAtLeast1ms Z.eqb Examples.clone Examples.defaultAttributes
    Examples.model Examples.codec Examples.nullCloneError Examples.nullEndState expired.

(** A shell that changes directory three times between prompts. *)
Definition shell_events : list (CommandTracker.EventType * string) :=
  [(CommandTracker.CurrentDir, "/a"); (CommandTracker.PromptStart, "");
   (CommandTracker.CurrentDir, "/b"); (CommandTracker.CommandFinished, "0");
   (CommandTracker.CurrentDir, "/a")]%string.

End MoreExamples.
(** ** What the private operations of the store do to its readings

    The store is observed through [_isValid], [getBeginState], [_len] and
    the frontier; each lemma says what one operation does to them. *)

Section ArrayFacts.

Context {A : Type}.

Lemma arr_get_set (hole : A) (l : list A) (i : Z) (v : A) (j : Z) :
  arr_get (arr_set hole l i v) j =
    if i <? 0 then arr_get l j
    else if j =? i then Some v
    else if (Z.of_nat (length l) <=? j) && (j <? i) then Some hole
    else arr_get l j.
Proof.
  unfold arr_set.
  destruct (Z.ltb_spec i 0) as [Hi|Hi]; [reflexivity|].
  unfold arr_get.
  destruct (Z.ltb_spec i (Z.of_nat (length l))) as [Hl|Hl].
  - destruct (Z.eqb_spec j i) as [->|Hne].
    + destruct (Z.ltb_spec i 0); [lia|].
      apply list_lookup_insert_eq. lia.
    + destruct (Z.ltb_spec j 0) as [Hj|Hj].
      * destruct (Z.leb_spec (Z.of_nat (length l)) j); [lia|]. reflexivity.
      * rewrite list_lookup_insert_ne by lia.
        destruct (Z.leb_spec (Z.of_nat (length l)) j) as [Hlj|Hlj];
          destruct (Z.ltb_spec j i); simpl; try reflexivity. lia.
  - destruct (Z.ltb_spec j 0) as [Hj|Hj].
    + destruct (Z.eqb_spec j i); [lia|].
      destruct (Z.leb_spec (Z.of_nat (length l)) j); [lia|]. reflexivity.
    + destruct (Z.eqb_spec j i) as [->|Hne].
      * rewrite lookup_app_r by lia.
        rewrite lookup_app_r by (rewrite length_replicate; lia).
        rewrite length_replicate.
        replace (Z.to_nat i - length l - (Z.to_nat i - length l))%nat with 0%nat by lia.
        reflexivity.
      * destruct (Z.leb_spec (Z.of_nat (length l)) j) as [Hlj|Hlj]; simpl.
        -- rewrite lookup_app_r by lia.
           destruct (Z.ltb_spec j i) as [Hji|Hji].
           ++ rewrite lookup_app_l by (rewrite length_replicate; lia).
              apply lookup_replicate_2. lia.
           ++ rewrite lookup_app_r by (rewrite length_replicate; lia).
              rewrite length_replicate.
              rewrite (lookup_ge_None_2 l) by lia.
              apply lookup_ge_None_2. simpl. lia.
        -- rewrite lookup_app_l by lia. reflexivity.
Qed.

Lemma length_arr_set_inside (hole : A) (l : list A) (i : Z) (v : A) :
  i < Z.of_nat (length l) -> length (arr_set hole l i v) = length l.
Proof.
  intros Hi. unfold arr_set.
  destruct (Z.ltb_spec i 0); [reflexivity|].
  destruct (Z.ltb_spec i (Z.of_nat (length l))); [|lia].
  apply length_insert.
Qed.

Lemma length_arr_set_push (hole : A) (l : list A) (v : A) :
  length (arr_set hole l (Z.of_nat (length l)) v) = S (length l).
Proof.
  unfold arr_set.
  destruct (Z.ltb_spec (Z.of_nat (length l)) 0); [lia|].
  destruct (Z.ltb_spec (Z.of_nat (length l)) (Z.of_nat (length l))); [lia|].
  rewrite !length_app, length_replicate. simpl. lia.
Qed.

End ArrayFacts.

(** Case analysis on every integer comparison of the goal. *)
Ltac zcases :=
  repeat match goal with
  | |- context [Z.ltb ?a ?b] => destruct (Z.ltb_spec a b)
  | |- context [Z.leb ?a ?b] => destruct (Z.leb_spec a b)
  | |- context [Z.eqb ?a ?b] => destruct (Z.eqb_spec a b)
  | |- context [Z.geb ?a ?b] => destruct (Z.geb_spec a b)
  | |- context [Z.gtb ?a ?b] => destruct (Z.gtb_spec a b)
  end; simpl; subst; try lia; try reflexivity.

Section StoreFacts.

Context {IState : Type}.
Variable equals : IState -> IState -> bool.

Implicit Types (s : @TokenizationStateStore IState) (i j lineIndex linesLength : Z).

(** Reading past the elements of an array gives [undefined]. *)
Lemma arr_get_ge {A : Type} (l : list A) j :
  Z.of_nat (length l) <= j -> arr_get l j = None.
Proof.
  intros H. unfold arr_get. zcases. apply lookup_ge_None_2. lia.
Qed.

Lemma arr_get_neg {A : Type} (l : list A) j : j < 0 -> arr_get l j = None.
Proof. intros H. unfold arr_get. zcases. Qed.

(** *** [_ensureLine] *)

Lemma _isValid_ensureLine_body s j :
  _isValid (_ensureLine_body s) j = _isValid s j.
Proof.
  unfold _isValid, _ensureLine_body; simpl.
  rewrite arr_get_set. zcases.
  all: first [rewrite arr_get_neg by lia | rewrite arr_get_ge by lia]; reflexivity.
Qed.

Lemma getBeginState_ensureLine_body s j :
  getBeginState (_ensureLine_body s) j = getBeginState s j.
Proof.
  unfold getBeginState, _ensureLine_body; simpl.
  rewrite arr_get_set. zcases.
  all: first [rewrite arr_get_neg by lia | rewrite arr_get_ge by lia]; reflexivity.
Qed.

Lemma _ensureLine_loop_spec fuel lineIndex s :
  (Z.to_nat (lineIndex + 1 - _len s) <= fuel)%nat ->
  let s' := _ensureLine_loop fuel lineIndex s in
  _len s' = Z.max (_len s) (lineIndex + 1)
  /\ _invalidLineStartIndex s' = _invalidLineStartIndex s
  /\ (forall j, _isValid s' j = _isValid s j)
  /\ (forall j, getBeginState s' j = getBeginState s j).
Proof.
  revert s. induction fuel as [|fuel IH]; intros s Hfuel; simpl.
  - repeat split; try reflexivity. lia.
  - destruct (Z.geb_spec lineIndex (_len s)) as [Hge|Hlt].
    + destruct (IH (_ensureLine_body s)) as (Hl & Hf & Hv & Hb).
      { simpl. lia. }
      repeat split.
      * rewrite Hl. simpl. lia.
      * rewrite Hf. reflexivity.
      * intros j. rewrite Hv. apply _isValid_ensureLine_body.
      * intros j. rewrite Hb. apply getBeginState_ensureLine_body.
    + repeat split; try reflexivity. lia.
Qed.

Lemma _ensureLine_spec lineIndex s :
  let s' := _ensureLine lineIndex s in
  _len s' = Z.max (_len s) (lineIndex + 1)
  /\ _invalidLineStartIndex s' = _invalidLineStartIndex s
  /\ (forall j, _isValid s' j = _isValid s j)
  /\ (forall j, getBeginState s' j = getBeginState s j).
Proof. apply _ensureLine_loop_spec. lia. Qed.

(** The loop of [_ensureLine] is left through its condition: the rounds
    granted are enough. *)
Lemma _ensureLine_exit lineIndex s :
  lineIndex < _len (_ensureLine lineIndex s).
Proof. destruct (_ensureLine_spec lineIndex s) as (Hl & _). lia. Qed.

(** *** [_setValid] and [_setBeginState] *)

Lemma _setValid_spec lineIndex b s :
  let s' := _setValid lineIndex b s in
  _len s' = Z.max (_len s) (lineIndex + 1)
  /\ _invalidLineStartIndex s' = _invalidLineStartIndex s
  /\ (0 <= lineIndex ->
      forall j, _isValid s' j = if j =? lineIndex then b else _isValid s j)
  /\ (forall j, getBeginState s' j = getBeginState s j).
Proof.
  destruct (_ensureLine_spec lineIndex s) as (Hl & Hf & Hv & Hb).
  unfold _setValid. simpl. split; [exact Hl|]. split; [exact Hf|]. split.
  - intros Hi j. specialize (Hv j). rewrite <- Hv.
    unfold _isValid. simpl. rewrite arr_get_set. zcases.
    rewrite arr_get_ge by lia. reflexivity.
  - exact Hb.
Qed.

Lemma _setBeginState_spec lineIndex b s :
  let s' := _setBeginState lineIndex b s in
  _len s' = Z.max (_len s) (lineIndex + 1)
  /\ _invalidLineStartIndex s' = _invalidLineStartIndex s
  /\ (forall j, _isValid s' j = _isValid s j)
  /\ (0 <= lineIndex ->
      forall j, getBeginState s' j = if j =? lineIndex then b else getBeginState s j).
Proof.
  destruct (_ensureLine_spec lineIndex s) as (Hl & Hf & Hv & Hb).
  unfold _setBeginState. simpl. split; [exact Hl|]. split; [exact Hf|]. split.
  - exact Hv.
  - intros Hi j. specialize (Hb j). rewrite <- Hb.
    unfold getBeginState. simpl. rewrite arr_get_set. zcases.
    rewrite arr_get_ge by lia. reflexivity.
Qed.

(** *** [_invalidateLine] *)

Lemma _invalidateLine_spec lineIndex s :
  let s' := _invalidateLine lineIndex s in
  _len s' = _len s
  /\ _invalidLineStartIndex s' = Z.min (_invalidLineStartIndex s) lineIndex
  /\ (forall j, _isValid s' j = if j =? lineIndex then false else _isValid s j)
  /\ (forall j, getBeginState s' j = getBeginState s j).
Proof.
  unfold _invalidateLine.
  destruct (Z.ltb_spec lineIndex (_len s)) as [Hl|Hl]; simpl;
    destruct (Z.ltb_spec lineIndex (_invalidLineStartIndex s)); simpl;
    (split; [reflexivity|]; split; [lia|]; split; [|reflexivity]); intros j;
    unfold _isValid; simpl; rewrite ?arr_get_set; zcases;
    first [rewrite arr_get_neg by lia | rewrite arr_get_ge by lia]; reflexivity.
Qed.

End StoreFacts.

(** ** [setEndState]: the propagation protocol *)

Section SetEndState.

Context {IState : Type}.
Variable equals : IState -> IState -> bool.

Implicit Types (s : @TokenizationStateStore IState) (i j lineIndex linesLength : Z).

Lemma _isValid_lt_len s j : _isValid s j = true -> j < _len s.
Proof.
  unfold _isValid. destruct (Z.ltb_spec j (_len s)); [trivial|discriminate].
Qed.

Lemma getBeginState_lt_len s j st : getBeginState s j = Some st -> j < _len s.
Proof.
  unfold getBeginState. destruct (Z.ltb_spec j (_len s)); [trivial|discriminate].
Qed.

Lemma _isValid_set_frontier s i j :
  _isValid (set_invalidLineStartIndex i s) j = _isValid s j.
Proof. reflexivity. Qed.

(** The skip-ahead loop stops at the first index from [i] on that is out of
    the buffer or not valid; it is left through one of its two exits. *)
Lemma skipValid_loop_spec fuel s linesLength i :
  (Z.to_nat (linesLength - i) <= fuel)%nat ->
  let f := skipValid_loop fuel s linesLength i in
  i <= f
  /\ (forall j, i <= j < f -> j < linesLength /\ _isValid s j = true)
  /\ (linesLength <= f \/ _isValid s f = false).
Proof.
  revert i. induction fuel as [|fuel IH]; intros i Hfuel; simpl.
  - split; [lia|]. split; [intros j Hj; lia|]. left. lia.
  - destruct (Z.ltb_spec i linesLength) as [Hlt|Hge].
    + destruct (_isValid s i) eqn:Hv; simpl.
      * destruct (IH (i + 1)) as (H1 & H2 & H3); [lia|].
        split; [lia|]. split; [|exact H3].
        intros j Hj. destruct (Z.eq_dec j i) as [->|Hne]; [auto|].
        apply H2. lia.
      * split; [lia|]. split; [intros j Hj; lia|]. right. exact Hv.
    + split; [lia|]. split; [intros j Hj; lia|]. left. lia.
Qed.

Lemma skipValid_spec s linesLength i :
  let f := skipValid s linesLength i in
  i <= f
  /\ (forall j, i <= j < f -> j < linesLength /\ _isValid s j = true)
  /\ (linesLength <= f \/ _isValid s f = false).
Proof. apply skipValid_loop_spec. lia. Qed.

Lemma skipValid_exit s linesLength i :
  let f := skipValid s linesLength i in
  (f <? linesLength) && _isValid s f = false.
Proof.
  destruct (skipValid_spec s linesLength i) as (_ & _ & [H|H]); simpl.
  - zcases.
  - rewrite H. apply andb_false_r.
Qed.

Lemma skipValid_le_len s linesLength i :
  i <= _len s -> skipValid s linesLength i <= _len s.
Proof.
  intros Hi. destruct (skipValid_spec s linesLength i) as (H1 & H2 & _).
  destruct (Z.eq_dec (skipValid s linesLength i) i) as [->|Hne]; [exact Hi|].
  destruct (H2 (skipValid s linesLength i - 1)) as [_ Hv]; [lia|].
  apply _isValid_lt_len in Hv. lia.
Qed.

Lemma setEndState_marked_spec lineIndex s :
  let s' := setEndState_marked lineIndex s in
  _len s' = Z.max (_len s) (lineIndex + 1)
  /\ _invalidLineStartIndex s' = lineIndex + 1
  /\ (0 <= lineIndex ->
      forall j, _isValid s' j = if j =? lineIndex then true else _isValid s j)
  /\ (forall j, getBeginState s' j = getBeginState s j).
Proof.
  destruct (_setValid_spec lineIndex true s) as (Hl & Hf & Hv & Hb).
  unfold setEndState_marked. split; [exact Hl|]. split; [reflexivity|].
  split; [exact Hv|exact Hb].
Qed.

Lemma setEndState_changed_spec lineIndex endState s :
  let s' := setEndState_changed lineIndex endState s in
  _len s' = Z.max (_len s) (lineIndex + 2)
  /\ _invalidLineStartIndex s' = lineIndex + 1.
Proof.
  unfold setEndState_changed.
  destruct (setEndState_marked_spec lineIndex s) as (Hl & Hf & _).
  destruct (_setBeginState_spec (lineIndex + 1) (Some endState)
              (setEndState_marked lineIndex s)) as (Hl2 & Hf2 & _).
  destruct (_invalidateLine_spec (lineIndex + 1)
              (_setBeginState (lineIndex + 1) (Some endState)
                 (setEndState_marked lineIndex s))) as (Hl3 & Hf3 & _).
  cbv zeta in *. lia.
Qed.

(** [setEndState] ends in one of three ways. *)
Lemma setEndState_cases linesLength lineIndex endState s :
  let s' := setEndState equals linesLength lineIndex endState s in
  let m := setEndState_marked lineIndex s in
  (lineIndex = linesLength - 1 /\ s' = m)
  \/ (lineIndex <> linesLength - 1
      /\ (getBeginState s (lineIndex + 1) = None
          \/ exists p, getBeginState s (lineIndex + 1) = Some p /\ equals endState p = false)
      /\ s' = setEndState_changed lineIndex endState s)
  \/ (lineIndex <> linesLength - 1
      /\ (exists p, getBeginState s (lineIndex + 1) = Some p /\ equals endState p = true)
      /\ s' = set_invalidLineStartIndex (skipValid m linesLength (lineIndex + 1)) m).
Proof.
  simpl. unfold setEndState. fold (setEndState_marked lineIndex s).
  destruct (setEndState_marked_spec lineIndex s) as (_ & _ & _ & Hb).
  destruct (Z.eqb_spec lineIndex (linesLength - 1)) as [He|Hne]; [left; auto|].
  right. rewrite Hb.
  destruct (getBeginState s (lineIndex + 1)) as [p|] eqn:Hp.
  - destruct (equals endState p) eqn:Heq; simpl.
    + right. split; [exact Hne|]. split; [exists p; auto|reflexivity].
    + left. split; [exact Hne|]. split; [right; exists p; auto|reflexivity].
  - left. split; [exact Hne|]. split; [left; reflexivity|reflexivity].
Qed.

End SetEndState.

(** ** [applyEdits]: the edit protocol *)

Section ApplyEdits.

Context {IState : Type}.

Implicit Types (s : @TokenizationStateStore IState) (i j : Z) (range : IRange).

(** [n] rounds of the invalidation loop clear the valid bits of the [n]
    entries from index [startLine - 1] on, and pull the frontier down to
    [startLine - 1], the lowest of them. *)
Lemma invalidateEdited_spec n startLine s :
  let s' := invalidateEdited n startLine s in
  _len s' = _len s
  /\ _invalidLineStartIndex s' =
       (if Nat.eqb n 0 then _invalidLineStartIndex s
        else Z.min (_invalidLineStartIndex s) (startLine - 1))
  /\ (forall j, _isValid s' j =
        if (startLine - 1 <=? j) && (j <? startLine - 1 + Z.of_nat n)
        then false else _isValid s j)
  /\ (forall j, getBeginState s' j = getBeginState s j).
Proof.
  revert s. induction n as [|m IH]; intros s; simpl.
  - split; [reflexivity|]. split; [reflexivity|]. split; [|reflexivity].
    intros j. zcases.
  - destruct (IH (_invalidateLine (startLine + Z.of_nat m - 1) s)) as (Hl & Hf & Hv & Hb).
    destruct (_invalidateLine_spec (startLine + Z.of_nat m - 1) s) as (Hl' & Hf' & Hv' & Hb').
    cbv zeta in *.
    split; [congruence|]. split.
    + rewrite Hf, Hf'. destruct m; simpl; lia.
    + split.
      * intros j. rewrite Hv, Hv'. zcases.
      * intros j. rewrite Hb. apply Hb'.
Qed.

Lemma applyEdits_invalidate_spec range eolCount s :
  let k := editingLinesCnt range eolCount in
  let s' := applyEdits_invalidate range eolCount s in
  _len s' = _len s
  /\ _invalidLineStartIndex s' =
       (if 0 <=? k then Z.min (_invalidLineStartIndex s) (startLineNumber range - 1)
        else _invalidLineStartIndex s)
  /\ (forall j, _isValid s' j =
        if (startLineNumber range - 1 <=? j) && (j <=? startLineNumber range - 1 + k)
        then false else _isValid s j)
  /\ (forall j, getBeginState s' j = getBeginState s j).
Proof.
  cbv zeta. unfold applyEdits_invalidate.
  destruct (invalidateEdited_spec (Z.to_nat (editingLinesCnt range eolCount + 1))
              (startLineNumber range) s) as (Hl & Hf & Hv & Hb).
  cbv zeta in *.
  split; [exact Hl|]. split.
  - rewrite Hf. destruct (Z.leb_spec 0 (editingLinesCnt range eolCount)) as [Hk|Hk].
    + replace (Z.to_nat (editingLinesCnt range eolCount + 1))
        with (S (Z.to_nat (editingLinesCnt range eolCount))) by lia.
      reflexivity.
    + replace (Z.to_nat (editingLinesCnt range eolCount + 1)) with 0%nat by lia.
      reflexivity.
  - split; [|exact Hb].
    intros j. rewrite Hv. zcases.
Qed.

Lemma _acceptDeleteRange_frontier range s :
  _invalidLineStartIndex (_acceptDeleteRange range s) = _invalidLineStartIndex s.
Proof. unfold _acceptDeleteRange, _deleteLines. zcases. Qed.

Lemma _acceptInsertText_frontier position eolCount s :
  _invalidLineStartIndex (_acceptInsertText position eolCount s) = _invalidLineStartIndex s.
Proof. unfold _acceptInsertText, _insertLines. zcases. Qed.

(** A deletion never cuts into the entries up to and including the first
    line of the range. *)
Lemma _acceptDeleteRange_len range s :
  startLineNumber range <= endLineNumber range ->
  let s' := _acceptDeleteRange range s in
  _len s' <= _len s
  /\ (startLineNumber range - 1 < _len s -> startLineNumber range <= _len s').
Proof. intros H. unfold _acceptDeleteRange, _deleteLines. zcases. Qed.

Lemma _acceptInsertText_len position eolCount s :
  0 <= eolCount ->
  _len s <= _len (_acceptInsertText position eolCount s).
Proof. intros H. unfold _acceptInsertText, _insertLines. zcases. Qed.

Lemma applyEdits_frontier range eolCount s :
  _invalidLineStartIndex (applyEdits range eolCount s) =
    if 0 <=? editingLinesCnt range eolCount
    then Z.min (_invalidLineStartIndex s) (startLineNumber range - 1)
    else _invalidLineStartIndex s.
Proof.
  unfold applyEdits.
  rewrite _acceptInsertText_frontier, _acceptDeleteRange_frontier.
  apply applyEdits_invalidate_spec.
Qed.

End ApplyEdits.

(** ** The counter [_len] and the two arrays

    In every store that the public methods produce, [_len] is the length of
    both arrays: no write of the class lands beyond the end of an array,
    and the frontier bound of the invariant is a bound by the number of
    stored entries. *)

Section Representation.

Context {IState : Type}.
Variable equals : IState -> IState -> bool.

Implicit Types (s : @TokenizationStateStore IState) (i j : Z).

Lemma length_arr_set_neg {A : Type} (hole : A) (l : list A) i (v : A) :
  i < 0 -> arr_set hole l i v = l.
Proof. intros H. unfold arr_set. zcases. Qed.

Lemma length_arr_set_below {A : Type} (hole : A) (l : list A) i (v : A) :
  i < Z.of_nat (length l) -> length (arr_set hole l i v) = length l.
Proof.
  intros H. destruct (Z.lt_ge_cases i 0).
  - rewrite length_arr_set_neg by assumption. reflexivity.
  - apply length_arr_set_inside. exact H.
Qed.

Lemma length_splice {A : Type} (l : list A) start deleteCount :
  0 <= start -> 0 <= deleteCount -> start + deleteCount <= Z.of_nat (length l) ->
  Z.of_nat (length (splice l start deleteCount)) = Z.of_nat (length l) - deleteCount.
Proof.
  intros Hs Hd Hl. unfold splice.
  destruct (Z.ltb_spec start 0); [lia|].
  rewrite length_app, length_take, length_drop. lia.
Qed.

Lemma length_arrayInsert {A : Type} (target : list A) insertIndex (insertArr : list A) :
  length (arrayInsert target insertIndex insertArr)
  = (length target + length insertArr)%nat.
Proof.
  unfold arrayInsert. rewrite !length_app, length_take, length_drop. lia.
Qed.

Lemma entries_agree_set_frontier i s :
  entries_agree s -> entries_agree (set_invalidLineStartIndex i s).
Proof. intros H. exact H. Qed.

Lemma entries_agree_ensureLine_loop fuel i s :
  entries_agree s -> entries_agree (_ensureLine_loop fuel i s).
Proof.
  revert s. induction fuel as [|fuel IH]; intros s H; simpl; [exact H|].
  destruct (i >=? _len s); [|exact H].
  apply IH. destruct H as [Hv Hb]. unfold entries_agree, _ensureLine_body. simpl.
  pose proof (length_arr_set_push false (_valid s) false) as Pv.
  pose proof (length_arr_set_push None (_beginState s) None) as Pb.
  rewrite <- Hv in Pv. rewrite <- Hb in Pb. rewrite Pv, Pb. lia.
Qed.

Lemma entries_agree_setValid i b s :
  entries_agree s -> entries_agree (_setValid i b s).
Proof.
  intros H. pose proof (_ensureLine_exit i s) as Hexit.
  apply (entries_agree_ensureLine_loop (Z.to_nat (i + 1 - _len s)) i) in H.
  fold (_ensureLine i s) in H. destruct H as [Hv Hb].
  unfold entries_agree, _setValid. simpl.
  rewrite length_arr_set_below by lia. auto.
Qed.

Lemma entries_agree_setBeginState i b s :
  entries_agree s -> entries_agree (_setBeginState i b s).
Proof.
  intros H. pose proof (_ensureLine_exit i s) as Hexit.
  apply (entries_agree_ensureLine_loop (Z.to_nat (i + 1 - _len s)) i) in H.
  fold (_ensureLine i s) in H. destruct H as [Hv Hb].
  unfold entries_agree, _setBeginState. simpl.
  rewrite length_arr_set_below by lia. auto.
Qed.

Lemma entries_agree_invalidateLine i s :
  entries_agree s -> entries_agree (_invalidateLine i s).
Proof.
  intros [Hv Hb]. unfold _invalidateLine.
  destruct (Z.ltb_spec i (_len s)); simpl;
    destruct (Z.ltb_spec i (_invalidLineStartIndex s)); unfold entries_agree; simpl;
    rewrite ?length_arr_set_below by lia; auto.
Qed.

Lemma entries_agree_setEndState linesLength i (endState : IState) s :
  entries_agree s -> entries_agree (setEndState equals linesLength i endState s).
Proof.
  intros H.
  assert (Hm : entries_agree (setEndState_marked i s)).
  { apply entries_agree_set_frontier, entries_agree_setValid, H. }
  destruct (setEndState_cases equals linesLength i endState s)
    as [[_ ->]|[(_ & _ & ->)|(_ & _ & ->)]].
  - exact Hm.
  - apply entries_agree_invalidateLine, entries_agree_setBeginState, Hm.
  - apply entries_agree_set_frontier, Hm.
Qed.

Lemma entries_agree_invalidateEdited n startLine s :
  entries_agree s -> entries_agree (invalidateEdited n startLine s).
Proof.
  revert s. induction n as [|m IH]; intros s H; simpl; [exact H|].
  apply IH, entries_agree_invalidateLine, H.
Qed.

Lemma entries_agree_acceptDeleteRange (range : IRange) s :
  range_ok range ->
  entries_agree s -> entries_agree (_acceptDeleteRange range s).
Proof.
  unfold range_ok. intros Hr [Hv Hb]. unfold _acceptDeleteRange, _deleteLines.
  destruct (Z.geb_spec (startLineNumber range - 1) (_len s)); [split; assumption|].
  destruct (Z.eqb_spec (endLineNumber range - startLineNumber range) 0);
    [split; assumption|].
  unfold entries_agree. simpl.
  destruct (Z.gtb_spec (startLineNumber range
                        + (endLineNumber range - startLineNumber range)) (_len s));
    rewrite !length_splice by lia; lia.
Qed.

Lemma entries_agree_acceptInsertText (position : Position) eolCount s :
  0 <= eolCount ->
  entries_agree s -> entries_agree (_acceptInsertText position eolCount s).
Proof.
  intros He [Hv Hb]. unfold _acceptInsertText, _insertLines.
  destruct (Z.geb_spec (lineNumber position - 1) (_len s)); [split; assumption|].
  destruct (Z.eqb_spec eolCount 0); [split; assumption|].
  unfold entries_agree. simpl.
  rewrite !length_arrayInsert, !length_replicate. lia.
Qed.

Lemma reachable_entries_agree s : reachable equals s -> entries_agree s.
Proof.
  intros H. induction H.
  - split; reflexivity.
  - unfold flush, _reset. destruct initialState.
    + apply entries_agree_setBeginState. split; reflexivity.
    + split; reflexivity.
  - apply entries_agree_setEndState. assumption.
  - apply entries_agree_setValid. assumption.
  - unfold applyEdits.
    apply entries_agree_acceptInsertText; [assumption|].
    apply entries_agree_acceptDeleteRange; [assumption|].
    apply entries_agree_invalidateEdited. assumption.
Qed.

End Representation.

(** ** The laws of the state store *)

Section StoreLaws.

Context {IState : Type}.
Variable equals : IState -> IState -> bool.

Implicit Types (s : @TokenizationStateStore IState) (i j lineIndex linesLength : Z).

(** C1 (skip-ahead correctness).  Let line [i] be a line of a buffer of
    [linesLength] lines.  If [setEndState linesLength i endState] runs on a
    store whose cached begin state of line [i + 1] equals [endState], then
    every entry from [i + 1] on that was valid before the call is valid
    after it, and the frontier [f] after the call is the first index from
    [i + 1] on whose entry was not valid before the call, or [linesLength]
    when there is none below it: all entries in [i + 1 .. f - 1] were
    valid, [f] is at most [linesLength], and the entry at [f] was not valid
    when [f] is below [linesLength]. *)
Theorem setEndState_skip_ahead linesLength i (endState p : IState) s :
  0 <= i < linesLength ->
  getBeginState s (i + 1) = Some p ->
  equals endState p = true ->
  let s' := setEndState equals linesLength i endState s in
  let f := _invalidLineStartIndex s' in
  (forall j, i + 1 <= j -> _isValid s j = true -> _isValid s' j = true)
  /\ i + 1 <= f <= linesLength
  /\ (forall j, i + 1 <= j < f -> _isValid s j = true)
  /\ (f < linesLength -> _isValid s f = false).
Proof.
  intros Hi Hp Heq. cbv zeta.
  destruct (setEndState_marked_spec i s) as (Hl & Hf & Hv & Hb).
  specialize (Hv ltac:(lia)). cbv zeta in *.
  assert (Hsame : forall j, i + 1 <= j ->
            _isValid (setEndState_marked i s) j = _isValid s j).
  { intros j Hj. rewrite Hv. destruct (Z.eqb_spec j i); [lia|reflexivity]. }
  destruct (setEndState_cases equals linesLength i endState s)
    as [[Hlast ->]|[(Hne & Hprev & _)|(Hne & _ & ->)]].
  - rewrite Hf. split.
    + intros j Hj Hvj. rewrite Hsame by lia. exact Hvj.
    + split; [lia|]. split; [intros j Hj; lia|]. intros Hlt. lia.
  - exfalso. destruct Hprev as [Hnone|(q & Hq & Hneq)]; [congruence|].
    rewrite Hp in Hq. injection Hq as <-. congruence.
  - destruct (skipValid_spec (setEndState_marked i s) linesLength (i + 1))
      as (H1 & H2 & H3).
    cbv zeta in *.
    change (_invalidLineStartIndex
              (set_invalidLineStartIndex
                 (skipValid (setEndState_marked i s) linesLength (i + 1))
                 (setEndState_marked i s)))
      with (skipValid (setEndState_marked i s) linesLength (i + 1)).
    set (f := skipValid (setEndState_marked i s) linesLength (i + 1)) in *.
    split.
    + intros j Hj Hvj. rewrite _isValid_set_frontier, Hsame by lia. exact Hvj.
    + split.
      * split; [exact H1|].
        destruct (Z.eq_dec f (i + 1)) as [->|Hnf]; [lia|].
        destruct (H2 (f - 1)) as [Hb' _]; lia.
      * split.
        -- intros j Hj. rewrite <- Hsame by lia. apply H2. exact Hj.
        -- intros Hlt. destruct H3 as [H3|H3]; [lia|].
           rewrite <- Hsame by lia. exact H3.
Qed.

(** After [setEndState] the frontier is behind line [i]. *)
Lemma setEndState_frontier_lower_bound linesLength i (endState : IState) s :
  i + 1 <= _invalidLineStartIndex (setEndState equals linesLength i endState s).
Proof.
  destruct (setEndState_marked_spec i s) as (_ & Hf & _).
  destruct (setEndState_changed_spec i endState s) as (_ & Hc).
  destruct (setEndState_cases equals linesLength i endState s)
    as [[_ ->]|[(_ & _ & ->)|(_ & _ & ->)]]; cbv zeta in *.
  - lia.
  - lia.
  - change (i + 1 <= skipValid (setEndState_marked i s) linesLength (i + 1)).
    apply skipValid_spec.
Qed.

(** C3 (frontier monotone on success).  After any call
    [setEndState bufCount i endState] the frontier is at least [i + 1]. *)
Theorem setEndState_frontier_ge linesLength i (endState : IState) s :
  _invalidLineStartIndex (setEndState equals linesLength i endState s) >= i + 1.
Proof.
  pose proof (setEndState_frontier_lower_bound linesLength i endState s). lia.
Qed.

(** The frontier and the length after [setEndState], for the invariant. *)
Lemma setEndState_frontier_le_len linesLength i (endState : IState) s :
  _invalidLineStartIndex (setEndState equals linesLength i endState s)
    <= _len (setEndState equals linesLength i endState s).
Proof.
  destruct (setEndState_marked_spec i s) as (Hl & Hf & _ & Hb).
  destruct (setEndState_changed_spec i endState s) as (Hcl & Hc).
  destruct (setEndState_cases equals linesLength i endState s)
    as [[_ ->]|[(_ & _ & ->)|(_ & (p & Hp & _) & ->)]]; cbv zeta in *.
  - lia.
  - lia.
  - change (skipValid (setEndState_marked i s) linesLength (i + 1)
            <= _len (setEndState_marked i s)).
    apply skipValid_le_len.
    rewrite <- Hb in Hp. apply getBeginState_lt_len in Hp. lia.
Qed.

(** C4 (frontier regress on edit).  For a range with its lines in order and
    a count of inserted line breaks that is not negative: after
    [applyEdits range insertedLineCount] on a store whose frontier is above
    [range.startLine - 1], the frontier is at most [range.startLine - 1]. *)
Theorem applyEdits_frontier_regress (range : IRange) (eolCount : Z) s :
  startLineNumber range <= endLineNumber range ->
  0 <= eolCount ->
  startLineNumber range - 1 < _invalidLineStartIndex s ->
  _invalidLineStartIndex (applyEdits range eolCount s) <= startLineNumber range - 1.
Proof.
  intros Hr He Hlt. rewrite applyEdits_frontier.
  unfold editingLinesCnt. zcases.
Qed.

(** *** Preservation of the bounded frontier, method by method *)

Lemma frontier_bounded_new : frontier_bounded (@newStore IState).
Proof. unfold frontier_bounded. simpl. lia. Qed.

Lemma frontier_bounded_flush initialState s : frontier_bounded (flush initialState s).
Proof.
  unfold flush, _reset. destruct initialState as [st|]; [|apply frontier_bounded_new].
  destruct (_setBeginState_spec 0 (Some st) (@newStore IState)) as (Hl & Hf & _).
  unfold frontier_bounded. cbv zeta in *. rewrite Hl, Hf. simpl. lia.
Qed.

Lemma frontier_bounded_setEndState linesLength i (endState : IState) s :
  0 <= i ->
  frontier_bounded (setEndState equals linesLength i endState s).
Proof.
  intros Hi. unfold frontier_bounded. split.
  - pose proof (setEndState_frontier_lower_bound linesLength i endState s). lia.
  - apply setEndState_frontier_le_len.
Qed.

Lemma frontier_bounded_setFakeTokens i s :
  frontier_bounded s -> frontier_bounded (setFakeTokens i s).
Proof.
  unfold frontier_bounded, setFakeTokens. intros H.
  destruct (_setValid_spec i false s) as (Hl & Hf & _). cbv zeta in *.
  rewrite Hl, Hf. lia.
Qed.

Lemma frontier_bounded_applyEdits (range : IRange) (eolCount : Z) s :
  range_ok range -> 0 <= eolCount ->
  frontier_bounded s -> frontier_bounded (applyEdits range eolCount s).
Proof.
  unfold frontier_bounded, range_ok. intros Hr He Hs.
  pose proof (applyEdits_frontier range eolCount s) as Hf.
  assert (Hk : 0 <= editingLinesCnt range eolCount) by (unfold editingLinesCnt; lia).
  destruct (Z.leb_spec 0 (editingLinesCnt range eolCount)); [|lia].
  rewrite Hf. split; [lia|].
  unfold applyEdits.
  destruct (applyEdits_invalidate_spec range eolCount s) as (Hl & _).
  cbv zeta in Hl.
  pose proof (_acceptDeleteRange_len range (applyEdits_invalidate range eolCount s)
                ltac:(lia)) as (Hd1 & Hd2).
  pose proof (_acceptInsertText_len
                (mkPosition (startLineNumber range) (startColumn range)) eolCount
                (_acceptDeleteRange range (applyEdits_invalidate range eolCount s)) He)
    as Hi.
  rewrite Hl in *.
  destruct (Z.lt_ge_cases (startLineNumber range - 1) (_len s)) as [Hlt|Hge].
  - specialize (Hd2 Hlt). lia.
  - assert (_acceptDeleteRange range (applyEdits_invalidate range eolCount s)
            = applyEdits_invalidate range eolCount s) as Heq.
    { unfold _acceptDeleteRange. rewrite Hl.
      destruct (Z.geb_spec (startLineNumber range - 1) (_len s)); [reflexivity|lia]. }
    rewrite Heq in *. lia.
Qed.

(** C2 (bounded frontier).  In every store that the constructor and the
    public methods produce, [0 <= invalidFrontier <= len], where [len] is
    the number of entries that the store holds; and each public method
    keeps the bound: [flush] and [setEndState] establish it from any store,
    [setFakeTokens] and [applyEdits] carry it over, and [getBeginState]
    only reads.  The line index given to [setEndState] is not negative, the
    range given to [applyEdits] starts at line 1 or later with its lines in
    order, and the count of inserted line breaks is not negative. *)
Theorem frontier_bounded_invariant :
  (forall s, reachable equals s -> frontier_bounded s /\ entries_agree s)
  /\ (forall initialState s, frontier_bounded (flush initialState s))
  /\ (forall linesLength i endState s,
        0 <= i -> frontier_bounded (setEndState equals linesLength i endState s))
  /\ (forall i s, frontier_bounded s -> frontier_bounded (setFakeTokens i s))
  /\ (forall range eolCount s,
        range_ok range -> 0 <= eolCount ->
        frontier_bounded s -> frontier_bounded (applyEdits range eolCount s)).
Proof.
  split; [|split; [|split; [|split]]].
  - intros s H. split; [|apply (reachable_entries_agree equals), H].
    induction H.
    + apply frontier_bounded_new.
    + apply frontier_bounded_flush.
    + apply frontier_bounded_setEndState. assumption.
    + apply frontier_bounded_setFakeTokens. assumption.
    + apply frontier_bounded_applyEdits; assumption.
  - apply frontier_bounded_flush.
  - intros. apply frontier_bounded_setEndState. assumption.
  - apply frontier_bounded_setFakeTokens.
  - apply frontier_bounded_applyEdits.
Qed.

(** C5, as the code has it (edit invalidation indices).  With
    [k = min(deletedLineCount, insertedLineCount)], [applyEdits] first
    invalidates exactly the entries at index [range.startLine - 1 + j] for
    [j = k] down to [0], and then runs the delete and the insert splices on
    the result.  After the invalidation the entries at these indices are
    not valid and all others are as before; the frontier is the lower of
    its old value and [range.startLine - 1] when [k] is not negative, and
    is untouched otherwise; the length and the begin states are as
    before. *)
Theorem applyEdits_invalidation_indices (range : IRange) (eolCount : Z) s :
  let k := Z.min (endLineNumber range - startLineNumber range) eolCount in
  let invalidated := applyEdits_invalidate range eolCount s in
  applyEdits range eolCount s =
    _acceptInsertText (mkPosition (startLineNumber range) (startColumn range)) eolCount
      (_acceptDeleteRange range invalidated)
  /\ (forall j, _isValid invalidated j =
        if (startLineNumber range - 1 <=? j) && (j <=? startLineNumber range - 1 + k)
        then false else _isValid s j)
  /\ _invalidLineStartIndex invalidated =
       (if 0 <=? k then Z.min (_invalidLineStartIndex s) (startLineNumber range - 1)
        else _invalidLineStartIndex s)
  /\ _len invalidated = _len s
  /\ (forall j, getBeginState invalidated j = getBeginState s j).
Proof.
  cbv zeta. split; [reflexivity|].
  destruct (applyEdits_invalidate_spec range eolCount s) as (Hl & Hf & Hv & Hb).
  cbv zeta in *. unfold editingLinesCnt in *. auto.
Qed.

End StoreLaws.

(** ** The store laws on concrete stores *)

(** Scenario: line 2 of four tokenized lines was edited and is tokenized
    again to the same end state; the frontier jumps to 4, not to 2. *)
Example skip_ahead_jumps :
  _invalidLineStartIndex (setEndState Z.eqb 4 1 0 Examples.store_line2_edited) = 4.
Proof. reflexivity. Qed.

(** A changed end state is adopted by the next line, which is invalidated
    and is the next one to tokenize. *)
Example changed_state_propagates :
  let s' := setEndState Z.eqb 4 1 9 Examples.store_line2_edited in
  _invalidLineStartIndex s' = 2 /\ getBeginState s' 2 = Some 9 /\ _isValid s' 2 = false.
Proof. repeat split. Qed.

Lemma setEndState_skip_ahead_witness :
  let s := Examples.store_line2_edited in
  let s' := setEndState Z.eqb 4 1 0 s in
  let f := _invalidLineStartIndex s' in
  (forall j, 1 + 1 <= j -> _isValid s j = true -> _isValid s' j = true)
  /\ 1 + 1 <= f <= 4
  /\ (forall j, 1 + 1 <= j < f -> _isValid s j = true)
  /\ (f < 4 -> _isValid s f = false).
Proof.
  apply (setEndState_skip_ahead Z.eqb 4 1 0 0 Examples.store_line2_edited).
  - lia.
  - reflexivity.
  - reflexivity.
Defined.

Lemma applyEdits_frontier_regress_witness :
  _invalidLineStartIndex (applyEdits Examples.edit_in_line2 0 Examples.store_tokenized)
    <= startLineNumber Examples.edit_in_line2 - 1.
Proof.
  apply (applyEdits_frontier_regress Examples.edit_in_line2 0 Examples.store_tokenized).
  - simpl. lia.
  - lia.
  - simpl. lia.
Defined.

Lemma reachable_store_built : reachable Z.eqb Examples.store_built.
Proof.
  unfold Examples.store_built.
  apply reachable_applyEdits.
  - apply reachable_setFakeTokens.
    + apply reachable_setEndState.
      * apply reachable_flush. apply reachable_new.
      * lia.
    + lia.
  - unfold range_ok. simpl. lia.
  - lia.
Defined.

Lemma frontier_bounded_invariant_witness :
  (frontier_bounded Examples.store_built /\ entries_agree Examples.store_built)
  /\ frontier_bounded (setEndState Z.eqb 4 1 0 Examples.store_line2_edited)
  /\ frontier_bounded (applyEdits Examples.edit_in_line2 0 Examples.store_tokenized).
Proof.
  destruct (frontier_bounded_invariant Z.eqb) as (Hreach & _ & Hset & _ & Hedit).
  split; [|split].
  - apply Hreach. exact reachable_store_built.
  - apply Hset. lia.
  - apply Hedit.
    + unfold range_ok. simpl. lia.
    + lia.
    + unfold frontier_bounded. simpl. lia.
Defined.

(** The edit of the example touches line 2 only: its entry, at index 1, is
    invalidated, and the frontier comes down to 1. *)
Example applyEdits_in_line2 :
  applyEdits Examples.edit_in_line2 0 Examples.store_three
  = mkStore [Some 0; Some 0; Some 0] [true; false; true] 3 1.
Proof. reflexivity. Qed.

(** C5 as stated fails.  For an edit inside line 2 ([k = 0]) the claim has
    the entry at index [range.startLine - 1 + 0 - 1 = 0] invalidated and
    the frontier lowered to it.  The code leaves that entry valid,
    invalidates the entry at index 1 and puts the frontier there; the
    protocol in the words of the specification gives another store. *)
Lemma applyEdits_indices_counterexample :
  let range := Examples.edit_in_line2 in
  let s' := applyEdits range 0 Examples.store_three in
  editingLinesCnt range 0 = 0
  /\ _isValid s' (startLineNumber range - 1 + 0 - 1) = true
  /\ _isValid s' (startLineNumber range - 1 + 0) = false
  /\ _invalidLineStartIndex s' = 1
  /\ _invalidLineStartIndex (applyEdits_asSpecified range 0 Examples.store_three) = 0
  /\ s' <> applyEdits_asSpecified range 0 Examples.store_three.
Proof.
  cbv zeta. repeat split. discriminate.
Qed.

(** ** The engine: what its loops do *)

Section EngineFacts.

Context {IState Error : Type}.
Variable equals : IState -> IState -> bool.
Variable clone : IState -> IState.
Variable defaultAttributes : Z -> Z.
Variable getCount : LineTokens -> Z.
Variable findTokenIndexAtOffset : LineTokens -> Z -> Z.
Variable getStandardTokenType : LineTokens -> Z -> StandardTokenType.t.
Variable _textModel : TextModel.
Variable _languageIdCodec : ILanguageIdCodec.
Variable nullCloneError : Error.
Variable nullEndState : option IState.

Implicit Types (e : @TextModelTokenization IState Error)
  (support : @ITokenizationSupport IState Error) (builder : TokensBuilder).

(** The third loop of the viewport mode emits one token array per line,
    clears the valid bit of each of the lines, and leaves the frontier, the
    begin states and the published batches alone. *)
Lemma viewportLines_loop_spec n support languageId ln state builder e :
  let r := viewportLines_loop clone defaultAttributes _textModel _languageIdCodec
             n support languageId ln state builder e in
  _tokenizationSupport (snd r) = _tokenizationSupport e
  /\ setTokensCalls (snd r) = setTokensCalls e
  /\ _invalidLineStartIndex (_tokenizationStateStore (snd r))
     = _invalidLineStartIndex (_tokenizationStateStore e)
  /\ map fst (fst r) = map fst builder ++ seqZ ln (Z.of_nat n)
  /\ (1 <= ln -> forall j,
        _isValid (_tokenizationStateStore (snd r)) j =
          if (ln - 1 <=? j) && (j <? ln - 1 + Z.of_nat n) then false
          else _isValid (_tokenizationStateStore e) j)
  /\ (forall j, getBeginState (_tokenizationStateStore (snd r)) j
                = getBeginState (_tokenizationStateStore e) j).
Proof.
  revert ln state builder e. induction n as [|m IH]; intros ln state builder e.
  - simpl. repeat split; try reflexivity.
    + rewrite app_nil_r. reflexivity.
    + intros _ j. zcases.
  - cbn [viewportLines_loop].
    destruct (safeTokenize clone defaultAttributes _languageIdCodec languageId
                (Some support) (getLineContent _textModel ln) true state)
      as [r reported].
    set (e1 := with_store _ _).
    set (b1 := builder_add _ _ _).
    destruct (IH (ln + 1) (endState r) b1 e1) as (Hs & Hc & Hf & Hb & Hv & Hg).
    cbv zeta in *.
    destruct (_setValid_spec (ln - 1) false
                (_tokenizationStateStore (onUnexpectedError reported e)))
      as (_ & Hf1 & Hv1 & Hg1).
    cbv zeta in *.
    split; [rewrite Hs; reflexivity|].
    split; [rewrite Hc; reflexivity|].
    split; [rewrite Hf; exact Hf1|].
    split.
    + rewrite Hb. unfold b1, builder_add. rewrite map_app. simpl.
      rewrite <- app_assoc. simpl.
      rewrite (seqZ_cons ln (Z.of_nat (S m))) by lia.
      replace (Z.pred (Z.of_nat (S m))) with (Z.of_nat m) by lia.
      replace (Z.succ ln) with (ln + 1) by lia.
      reflexivity.
    + split.
      * intros Hln j. rewrite Hv by lia.
        change (_tokenizationStateStore e1)
          with (setFakeTokens (ln - 1)
                  (_tokenizationStateStore (onUnexpectedError reported e))).
        unfold setFakeTokens. rewrite Hv1 by lia.
        change (_tokenizationStateStore (onUnexpectedError reported e))
          with (_tokenizationStateStore e).
        zcases.
      * intros j. rewrite Hg. apply Hg1.
Qed.

(** The tokens that the third loop of the viewport mode emits: the entry
    of each line is what [safeTokenize] gives for the content of the line,
    with its line break, from the state in which the loop comes to the
    line; that state is the one the loop is entered with for the first
    line, and the end state of the line before for the others. *)
Lemma viewportLines_loop_tokens n support languageId ln (state : IState) builder e :
  exists (added : TokensBuilder) (stateAt : Z -> IState),
    fst (viewportLines_loop clone defaultAttributes _textModel _languageIdCodec
           n support languageId ln state builder e) = builder ++ added
    /\ length added = n
    /\ stateAt ln = state
    /\ forall lineNumber, ln <= lineNumber < ln + Z.of_nat n ->
         let r := fst (safeTokenize clone defaultAttributes _languageIdCodec languageId
                         (Some support) (getLineContent _textModel lineNumber) true
                         (stateAt lineNumber)) in
         added !! Z.to_nat (lineNumber - ln) = Some (lineNumber, tokens r)
         /\ stateAt (lineNumber + 1) = endState r.
Proof.
  revert ln state builder e. induction n as [|m IH]; intros ln state builder e.
  - exists [], (fun _ => state). simpl. rewrite app_nil_r.
    split; [reflexivity|]. split; [reflexivity|]. split; [reflexivity|].
    intros lineNumber Hl. lia.
  - cbn [viewportLines_loop].
    destruct (safeTokenize clone defaultAttributes _languageIdCodec languageId
                (Some support) (getLineContent _textModel ln) true state)
      as [r0 reported] eqn:Hr0.
    set (e1 := with_store _ _).
    destruct (IH (ln + 1) (endState r0) (builder_add builder ln (tokens r0)) e1)
      as (added & stateAt & Hb & Hlen & Hentry & Hlines).
    exists ((ln, tokens r0) :: added),
      (fun lineNumber => if lineNumber =? ln then state else stateAt lineNumber).
    split; [rewrite Hb; unfold builder_add; rewrite <- app_assoc; reflexivity|].
    split; [simpl; rewrite Hlen; reflexivity|].
    split; [rewrite Z.eqb_refl; reflexivity|].
    intros lineNumber Hl. cbv zeta.
    destruct (Z.eqb_spec lineNumber ln) as [->|Hne].
    + rewrite Hr0. replace (Z.to_nat (ln - ln)) with 0%nat by lia.
      split; [reflexivity|].
      destruct (Z.eqb_spec (ln + 1) ln) as [Habs|_]; [lia|exact Hentry].
    + destruct (Hlines lineNumber) as [Hat Hnext]; [lia|].
      replace (Z.to_nat (lineNumber - ln)) with (S (Z.to_nat (lineNumber - (ln + 1))))
        by lia.
      split; [exact Hat|].
      destruct (Z.eqb_spec (lineNumber + 1) ln) as [Habs|_]; [lia|exact Hnext].
Qed.

(** When the frontier is already behind [lineNumber], the loop of
    [_updateTokensUntilLine] has nothing to do. *)
Lemma _updateTokensUntilLine_tokenized builder lineNumber e :
  lineNumber <= invalidLineStartIndex (_tokenizationStateStore e) ->
  _updateTokensUntilLine equals clone defaultAttributes _textModel
    _languageIdCodec nullCloneError nullEndState
    builder lineNumber e = Some (builder, e).
Proof.
  intros H. unfold _updateTokensUntilLine.
  destruct (_tokenizationSupport e); [|reflexivity].
  replace (Z.to_nat _) with 0%nat by lia. reflexivity.
Qed.

(** [setEndState] with an end state that may be [null], when no exception
    leaves it, puts the frontier behind line [i] as [setEndState] does. *)
Lemma setEndState_nullable_frontier linesLength i (endState : option IState) s s' :
  setEndState_nullable equals linesLength i endState s = Some s' ->
  i + 1 <= _invalidLineStartIndex s'.
Proof.
  destruct endState as [endState|]; simpl.
  - intros [= <-]. apply setEndState_frontier_lower_bound.
  - unfold setEndState_null. fold (setEndState_marked i s).
    destruct (setEndState_marked_spec i s) as (_ & Hf & _).
    destruct (i =? linesLength - 1).
    + intros [= <-]. cbv zeta in Hf. lia.
    + destruct (getBeginState (setEndState_marked i s) (i + 1)); [discriminate|].
      intros [= <-].
      destruct (_setBeginState_spec (i + 1) None (setEndState_marked i s))
        as (_ & Hf2 & _).
      destruct (_invalidateLine_spec (i + 1)
                  (_setBeginState (i + 1) None (setEndState_marked i s)))
        as (_ & Hf3 & _).
      cbv zeta in *. lia.
Qed.

(** The loop of [_updateTokensUntilLine] is left through its condition:
    whenever it ends, the frontier is behind [endLineIndex]. *)
Lemma _updateTokensUntilLine_loop_exit fuel support languageId linesLength endLineIndex
  builder e builder' e' :
  (Z.to_nat (endLineIndex + 1 - invalidLineStartIndex (_tokenizationStateStore e))
     <= fuel)%nat ->
  _updateTokensUntilLine_loop equals clone defaultAttributes _textModel
    _languageIdCodec nullCloneError nullEndState
    fuel support languageId linesLength endLineIndex
    (invalidLineStartIndex (_tokenizationStateStore e)) builder e = Some (builder', e') ->
  endLineIndex < invalidLineStartIndex (_tokenizationStateStore e').
Proof.
  revert builder e. induction fuel as [|fuel IH]; intros builder e Hfuel Hrun.
  - simpl in Hrun. injection Hrun as <- <-. lia.
  - cbn [_updateTokensUntilLine_loop] in Hrun.
    destruct (Z.leb_spec (invalidLineStartIndex (_tokenizationStateStore e)) endLineIndex)
      as [Hle|Hgt].
    + destruct (getBeginState (_tokenizationStateStore e)
                  (invalidLineStartIndex (_tokenizationStateStore e)))
        as [lineStartState|].
      * destruct (safeTokenize clone defaultAttributes _languageIdCodec languageId
                    (Some support) _ true lineStartState) as [r reported].
        set (e1 := with_store _ _) in Hrun.
        replace (invalidLineStartIndex (_tokenizationStateStore e1) - 1 + 1)
          with (invalidLineStartIndex (_tokenizationStateStore e1)) in Hrun by lia.
        apply IH in Hrun; [exact Hrun|].
        pose proof (setEndState_frontier_lower_bound equals linesLength
                      (invalidLineStartIndex (_tokenizationStateStore e)) (endState r)
                      (_tokenizationStateStore (onUnexpectedError reported e))) as Hup.
        change (_invalidLineStartIndex (setEndState equals linesLength
                  (invalidLineStartIndex (_tokenizationStateStore e)) (endState r)
                  (_tokenizationStateStore (onUnexpectedError reported e))))
          with (invalidLineStartIndex (_tokenizationStateStore e1)) in Hup.
        lia.
      * unfold safeTokenize_noState in Hrun. cbv beta iota in Hrun.
        destruct (setEndState_nullable equals linesLength _ nullEndState _)
          as [store|] eqn:Hset; [|discriminate].
        apply setEndState_nullable_frontier in Hset.
        set (e1 := with_store store _) in Hrun.
        replace (invalidLineStartIndex (_tokenizationStateStore e1) - 1 + 1)
          with (invalidLineStartIndex (_tokenizationStateStore e1)) in Hrun by lia.
        apply IH in Hrun; [exact Hrun|].
        change (invalidLineStartIndex (_tokenizationStateStore e1))
          with (_invalidLineStartIndex store).
        change (_tokenizationStateStore (onUnexpectedError [nullCloneError] e))
          with (_tokenizationStateStore e) in Hset.
        unfold invalidLineStartIndex in *. lia.
    + injection Hrun as <- <-. lia.
Qed.

Lemma _updateTokensUntilLine_exit builder lineNumber e support builder' e' :
  _tokenizationSupport e = Some support ->
  _updateTokensUntilLine equals clone defaultAttributes _textModel
    _languageIdCodec nullCloneError nullEndState
    builder lineNumber e = Some (builder', e') ->
  lineNumber <= invalidLineStartIndex (_tokenizationStateStore e').
Proof.
  intros Hs Hrun. unfold _updateTokensUntilLine in Hrun. rewrite Hs in Hrun.
  apply _updateTokensUntilLine_loop_exit in Hrun; lia.
Qed.

End EngineFacts.

(** ** The laws of the engine *)

Section EngineLaws.

Context {IState Error : Type}.
Variable equals : IState -> IState -> bool.
Variable clone : IState -> IState.
Variable defaultAttributes : Z -> Z.
Variable getCount : LineTokens -> Z.
Variable findTokenIndexAtOffset : LineTokens -> Z -> Z.
Variable getStandardTokenType : LineTokens -> Z -> StandardTokenType.t.
Variable _textModel : TextModel.
Variable _languageIdCodec : ILanguageIdCodec.
Variable nullCloneError : Error.
Variable nullEndState : option IState.

Implicit Types (e : @TextModelTokenization IState Error)
  (support : @ITokenizationSupport IState Error).

(** C6 (tokenizer-failure containment).  If the tokenizer throws on the
    clone of [state] it is given, [safeTokenize] hands the error to the
    sink and returns: the result is the null tokenization of the line, a
    single token that ends at [text.length] and carries the default
    attributes, and its end state is [state], the state of the caller. *)
Theorem safeTokenize_failure_contained languageId support text hasEOL
  (state : IState) (err : Error) :
  tokenizeEncoded support text hasEOL (clone state) = inl err ->
  safeTokenize clone defaultAttributes _languageIdCodec languageId (Some support)
    text hasEOL state
  = (mkResult [(Z.of_nat (String.length text),
                defaultAttributes (encodeLanguageId _languageIdCodec languageId))]
       state,
     [err]).
Proof.
  intros Hthrow. unfold safeTokenize. rewrite Hthrow. reflexivity.
Qed.

(** C7, as the code has it ([isCheapToTokenize]).  When a tokenizer is
    installed, [isCheapToTokenize lineNumber] is true if and only if the
    line is below [invalidFrontier + 1], or it is line
    [invalidFrontier + 1] and its length is below 2048. *)
Theorem isCheapToTokenize_characterisation lineNumber e support :
  _tokenizationSupport e = Some support ->
  isCheapToTokenize _textModel lineNumber e = true
  <-> cheap_asSpecified _textModel lineNumber e.
Proof.
  intros Hs. unfold isCheapToTokenize, cheap_asSpecified,
    CHEAP_TOKENIZATION_LENGTH_LIMIT. rewrite Hs. cbv zeta.
  destruct (Z.gtb_spec lineNumber
              (invalidLineStartIndex (_tokenizationStateStore e) + 1)).
  - split; [discriminate|lia].
  - destruct (Z.ltb_spec lineNumber
                (invalidLineStartIndex (_tokenizationStateStore e) + 1)).
    + split; [lia|reflexivity].
    + destruct (Z.ltb_spec (getLineLength _textModel lineNumber) 2048).
      * split; [lia|reflexivity].
      * split; [discriminate|lia].
Qed.

(** C10 (no tokenizer).  When no tokenizer is installed,
    [isCheapToTokenize] is true for every line number, whatever the
    frontier and the length of the line. *)
Theorem isCheapToTokenize_no_tokenizer lineNumber e :
  _tokenizationSupport e = None ->
  isCheapToTokenize _textModel lineNumber e = true.
Proof. intros Hs. unfold isCheapToTokenize. rewrite Hs. reflexivity. Qed.

(** C8 (viewport tokenization).  With a tokenizer installed and
    [invalidFrontier < startLine <= endLine] (the frontier, as always, not
    negative), [tokenizeViewport startLine endLine] returns; it leaves the
    frontier where it was, publishes one batch that holds tokens for the
    lines [startLine .. endLine] in order, and leaves the cache entry of
    each of these lines not valid.  The tokens of each line are those that
    [safeTokenize] gives for the content of the line, with its line break,
    from the state [stateAt lineNumber] in which the line is entered: for
    [startLine], the begin state cached at the anchor (the initial state of
    the tokenizer when there is none) run through the lines collected
    above the viewport, last collected first; for each line after it, the
    end state of the line before. *)
Theorem tokenizeViewport_marks_fake startLine endLine e support :
  _tokenizationSupport e = Some support ->
  0 <= invalidLineStartIndex (_tokenizationStateStore e) ->
  invalidLineStartIndex (_tokenizationStateStore e) < startLine <= endLine ->
  exists e' batch completed (stateAt : Z -> IState),
    tokenizeViewport equals clone defaultAttributes _textModel _languageIdCodec
      nullCloneError nullEndState startLine endLine e = Some e'
    /\ invalidLineStartIndex (_tokenizationStateStore e')
       = invalidLineStartIndex (_tokenizationStateStore e)
    /\ setTokensCalls e' = setTokensCalls e ++ [(batch, completed)]
    /\ map fst batch = seqZ startLine (endLine - startLine + 1)
    /\ (forall lineNumber, startLine <= lineNumber <= endLine ->
          _isValid (_tokenizationStateStore e') (lineNumber - 1) = false)
    /\ (let '(fakeLines, anchor) :=
          viewportPrefix_loop _textModel (Z.to_nat (startLine - 1))
            (_tokenizationStateStore e)
            (getLineFirstNonWhitespaceColumn _textModel startLine) [] in
        stateAt startLine
        = fst (viewportFakeLines_loop clone defaultAttributes _languageIdCodec
                 (rev fakeLines) support (getLanguageId _textModel)
                 match anchor with
                 | Some st => st
                 | None => getInitialState support
                 end []))
    /\ (forall lineNumber, startLine <= lineNumber <= endLine ->
          let r := fst (safeTokenize clone defaultAttributes _languageIdCodec
                          (getLanguageId _textModel) (Some support)
                          (getLineContent _textModel lineNumber) true
                          (stateAt lineNumber)) in
          batch !! Z.to_nat (lineNumber - startLine) = Some (lineNumber, tokens r)
          /\ stateAt (lineNumber + 1) = endState r).
Proof.
  intros Hs H0 Hlines.
  unfold tokenizeViewport, _tokenizeViewport. rewrite Hs.
  destruct (Z.leb_spec endLine (invalidLineStartIndex (_tokenizationStateStore e)));
    [lia|].
  destruct (Z.leb_spec startLine (invalidLineStartIndex (_tokenizationStateStore e)));
    [lia|].
  destruct (viewportPrefix_loop _ _ _ _ _) as [fakeLines initialState].
  destruct (viewportFakeLines_loop _ _ _ _ _ _ _ _) as [state reported].
  pose proof (viewportLines_loop_spec clone defaultAttributes _textModel _languageIdCodec
                (Z.to_nat (endLine - startLine + 1)) support (getLanguageId _textModel)
                startLine state [] (onUnexpectedError reported e))
    as (_ & Hc & Hf & Hb & Hv & _).
  destruct (viewportLines_loop_tokens clone defaultAttributes _textModel _languageIdCodec
              (Z.to_nat (endLine - startLine + 1)) support (getLanguageId _textModel)
              startLine state [] (onUnexpectedError reported e))
    as (added & stateAt & Hadded & _ & Hentry & Htokens).
  cbv zeta in *.
  destruct (viewportLines_loop _ _ _ _ _ _ _ _ _ _ _) as [batch e1].
  simpl fst in *. simpl snd in *. rewrite app_nil_l in Hadded. subst batch.
  exists (setTokens _textModel added e1), added,
    (negb (_hasLinesToTokenize _textModel e1)), stateAt.
  split; [reflexivity|].
  split; [exact Hf|].
  split; [unfold setTokens; simpl; rewrite Hc; reflexivity|].
  split; [rewrite Hb; simpl; f_equal; lia|].
  split.
  - intros lineNumber Hl.
    change (_tokenizationStateStore (setTokens _textModel added e1))
      with (_tokenizationStateStore e1).
    rewrite Hv by lia. zcases.
  - split; [exact Hentry|].
    intros lineNumber Hl. apply Htokens. lia.
Qed.

(** C9, as the code has it (character-insertion probe).  With a tokenizer
    installed, [getTokenTypeIfInsertingCharacter position character] first
    forces tokenization up to the probed line.  From the engine [e1] that
    this leaves, it tokenizes the line with [character] spliced in at the
    caret, from the cached begin state of that line, and returns the token
    type at the offset of the caret.  Nothing of the probe is written back:
    the store and the published tokens after the call are those of [e1].
    When the probed line is already tokenized
    ([position.lineNumber <= invalidFrontier]), the call returns, the store
    after it is the store before it, and the one batch that is published
    holds no line. *)
Theorem probe_writes_nothing_back (position : Position) (character : string) e support :
  _tokenizationSupport e = Some support ->
  (forall e1,
     forceTokenization equals clone defaultAttributes _textModel
       _languageIdCodec nullCloneError nullEndState
       (lineNumber position) e = Some e1 ->
     exists e2,
       getTokenTypeIfInsertingCharacter equals clone defaultAttributes getCount
         findTokenIndexAtOffset getStandardTokenType _textModel
           _languageIdCodec nullCloneError nullEndState
         position character e
       = Some (probedTokenType clone defaultAttributes getCount findTokenIndexAtOffset
                 getStandardTokenType _textModel _languageIdCodec
                 (_tokenizationStateStore e1) (_tokenizationSupport e1)
                 position character,
               e2)
       /\ _tokenizationStateStore e2 = _tokenizationStateStore e1
       /\ setTokensCalls e2 = setTokensCalls e1)
  /\ (lineNumber position <= invalidLineStartIndex (_tokenizationStateStore e) ->
      exists e2 completed,
        getTokenTypeIfInsertingCharacter equals clone defaultAttributes getCount
          findTokenIndexAtOffset getStandardTokenType _textModel
            _languageIdCodec nullCloneError nullEndState
          position character e
        = Some (probedTokenType clone defaultAttributes getCount findTokenIndexAtOffset
                  getStandardTokenType _textModel _languageIdCodec
                  (_tokenizationStateStore e) (_tokenizationSupport e)
                  position character,
                e2)
        /\ _tokenizationStateStore e2 = _tokenizationStateStore e
        /\ setTokensCalls e2 = setTokensCalls e ++ [([], completed)]).
Proof.
  intros Hs.
  assert (Hfirst : forall e1,
     forceTokenization equals clone defaultAttributes _textModel
       _languageIdCodec nullCloneError nullEndState
       (lineNumber position) e = Some e1 ->
     exists e2,
       getTokenTypeIfInsertingCharacter equals clone defaultAttributes getCount
         findTokenIndexAtOffset getStandardTokenType _textModel
           _languageIdCodec nullCloneError nullEndState
         position character e
       = Some (probedTokenType clone defaultAttributes getCount findTokenIndexAtOffset
                 getStandardTokenType _textModel _languageIdCodec
                 (_tokenizationStateStore e1) (_tokenizationSupport e1)
                 position character,
               e2)
       /\ _tokenizationStateStore e2 = _tokenizationStateStore e1
       /\ setTokensCalls e2 = setTokensCalls e1).
  { intros e1 Hforce.
    unfold getTokenTypeIfInsertingCharacter, probedTokenType. rewrite Hs, Hforce.
    destruct (getBeginState (_tokenizationStateStore e1) (lineNumber position - 1))
      as [lineStartState|]; [|exists e1; auto].
    cbv zeta.
    destruct (safeTokenize clone defaultAttributes _languageIdCodec _ _ _ true lineStartState)
      as [r reported].
    simpl fst.
    exists (onUnexpectedError reported e1).
    destruct (getCount _ =? 0); auto. }
  split; [exact Hfirst|].
  intros Hdone.
  assert (Hforce : forceTokenization equals clone defaultAttributes _textModel
                     _languageIdCodec nullCloneError nullEndState (lineNumber position) e
                   = Some (setTokens _textModel [] e)).
  { unfold forceTokenization.
    rewrite _updateTokensUntilLine_tokenized by exact Hdone. reflexivity. }
  destruct (Hfirst _ Hforce) as (e2 & Hrun & Hstore & Hcalls).
  exists e2, (negb (_hasLinesToTokenize _textModel e)).
  split; [exact Hrun|]. split; [exact Hstore|]. exact Hcalls.
Qed.

End EngineLaws.

(** ** The engine laws on a concrete engine *)

Lemma safeTokenize_failure_contained_witness :
  safeTokenize Examples.clone Examples.defaultAttributes Examples.codec "plaintext"
    (Some Examples.tokenizer_throwing) "hello" true 3
  = (mkResult [(5, 1)] 3, ["boom"%string]).
Proof.
  apply (safeTokenize_failure_contained Examples.clone Examples.defaultAttributes
           Examples.codec "plaintext" Examples.tokenizer_throwing "hello" true 3
           "boom"%string).
  reflexivity.
Defined.

(** A tokenizer that returns is passed through, with end offsets. *)
Example safeTokenize_passes_result :
  safeTokenize Examples.clone Examples.defaultAttributes Examples.codec "plaintext"
    (Some Examples.tokenizer) "hello" true 3
  = (mkResult [(5, 7)] 3, @nil string).
Proof. reflexivity. Qed.

(** C7 as stated fails: without a tokenizer line 5 is cheap, though the
    frontier is 0 and line 5 is neither below line 1 nor line 1 itself. *)
Lemma isCheapToTokenize_counterexample :
  ~ (isCheapToTokenize Examples.model 5 Examples.engine_no_tokenizer = true
     <-> cheap_asSpecified Examples.model 5 Examples.engine_no_tokenizer).
Proof.
  intros [H _]. specialize (H eq_refl).
  unfold cheap_asSpecified in H. simpl in H. lia.
Qed.

Lemma isCheapToTokenize_characterisation_witness :
  isCheapToTokenize Examples.model 1 Examples.engine_fresh = true
  <-> cheap_asSpecified Examples.model 1 Examples.engine_fresh.
Proof.
  apply (isCheapToTokenize_characterisation Examples.model 1 Examples.engine_fresh
           Examples.tokenizer).
  reflexivity.
Defined.

(** With a tokenizer and nothing tokenized, line 1 is cheap and line 2 is
    not. *)
Example isCheapToTokenize_next_line_only :
  isCheapToTokenize Examples.model 1 Examples.engine_fresh = true
  /\ isCheapToTokenize Examples.model 2 Examples.engine_fresh = false.
Proof. split; reflexivity. Qed.

Lemma isCheapToTokenize_no_tokenizer_witness :
  isCheapToTokenize Examples.model 5 Examples.engine_no_tokenizer = true.
Proof.
  apply (isCheapToTokenize_no_tokenizer Examples.model 5 Examples.engine_no_tokenizer).
  reflexivity.
Defined.

(** The viewport of lines 3 and 4 with the frontier at 1: both lines get
    tokens, their entries are there and not valid, the frontier stays. *)
Example viewport_lines_3_4 :
  Examples.viewport 3 4 Examples.engine_line1
  = Some (mkEngine
            (mkStore [Some 0; Some 0; None; None] [true; false; false; false] 4 1)
            (Some Examples.tokenizer) []
            [([(3, [(5, 7)]); (4, [(5, 7)])], false)]).
Proof. reflexivity. Qed.

Lemma tokenizeViewport_marks_fake_witness :
  exists e' batch completed (stateAt : Z -> Z),
    Examples.viewport 3 4 Examples.engine_line1 = Some e'
    /\ invalidLineStartIndex (_tokenizationStateStore e')
       = invalidLineStartIndex (_tokenizationStateStore Examples.engine_line1)
    /\ setTokensCalls e' = setTokensCalls Examples.engine_line1 ++ [(batch, completed)]
    /\ map fst batch = seqZ 3 (4 - 3 + 1)
    /\ (forall lineNumber, 3 <= lineNumber <= 4 ->
          _isValid (_tokenizationStateStore e') (lineNumber - 1) = false)
    /\ stateAt 3 = 0
    /\ (forall lineNumber, 3 <= lineNumber <= 4 ->
          let r := fst (safeTokenize Examples.clone Examples.defaultAttributes
                          Examples.codec (getLanguageId Examples.model)
                          (Some Examples.tokenizer)
                          (getLineContent Examples.model lineNumber) true
                          (stateAt lineNumber)) in
          batch !! Z.to_nat (lineNumber - 3) = Some (lineNumber, tokens r)
          /\ stateAt (lineNumber + 1) = endState r).
Proof.
  apply (tokenizeViewport_marks_fake Z.eqb Examples.clone Examples.defaultAttributes
           Examples.model Examples.codec Examples.nullCloneError Examples.nullEndState
           3 4 Examples.engine_line1 Examples.tokenizer).
  - reflexivity.
  - simpl. lia.
  - simpl. lia.
Defined.

(** The anchor of that viewport: line 2 is indented less than line 3 and
    its begin state is cached, so no line is collected and line 3 is
    entered in that state. *)
Example viewport_lines_3_4_anchor :
  viewportPrefix_loop Examples.model (Z.to_nat (3 - 1))
    (_tokenizationStateStore Examples.engine_line1)
    (getLineFirstNonWhitespaceColumn Examples.model 3) []
  = ([], Some 0).
Proof. reflexivity. Qed.

(** The text of the probe: the character goes in at the caret. *)
Example probe_text :
  (substring_to "hello" (3 - 1) ++ "/" ++ substring_from "hello" (3 - 1))%string
  = "he/llo"%string.
Proof. reflexivity. Qed.

(** C9 as stated fails.  On an engine with nothing tokenized yet, a probe
    on line 2 forces the tokenization of lines 1 and 2: the cached begin
    state of the probed line is absent before the call and present after
    it, and tokens for the line are published. *)
Lemma probe_counterexample :
  exists ty e',
    Examples.probe (mkPosition 2 1) "/" Examples.engine_fresh = Some (ty, e')
    /\ getBeginState (_tokenizationStateStore Examples.engine_fresh) (2 - 1) = None
    /\ getBeginState (_tokenizationStateStore e') (2 - 1) = Some 0
    /\ setTokensCalls Examples.engine_fresh = []
    /\ setTokensCalls e' = [([(1, [(1, 7)]); (2, [(3, 7)])], false)].
Proof.
  eexists. eexists. split; [reflexivity|]. repeat split.
Qed.

Lemma probe_writes_nothing_back_witness :
  (forall e1,
     forceTokenization Z.eqb Examples.clone Examples.defaultAttributes Examples.model
       Examples.codec
       Examples.nullCloneError Examples.nullEndState (lineNumber (mkPosition 1 1)) Examples.engine_line1
       = Some e1 ->
     exists e2,
       Examples.probe (mkPosition 1 1) "/" Examples.engine_line1
       = Some (probedTokenType Examples.clone Examples.defaultAttributes Examples.getCount
                 Examples.findTokenIndexAtOffset Examples.getStandardTokenType
                 Examples.model Examples.codec
                 (_tokenizationStateStore e1) (_tokenizationSupport e1)
                 (mkPosition 1 1) "/",
               e2)
       /\ _tokenizationStateStore e2 = _tokenizationStateStore e1
       /\ setTokensCalls e2 = setTokensCalls e1)
  /\ (lineNumber (mkPosition 1 1)
        <= invalidLineStartIndex (_tokenizationStateStore Examples.engine_line1) ->
      exists e2 completed,
        Examples.probe (mkPosition 1 1) "/" Examples.engine_line1
        = Some (probedTokenType Examples.clone Examples.defaultAttributes Examples.getCount
                  Examples.findTokenIndexAtOffset Examples.getStandardTokenType
                  Examples.model Examples.codec
                  (_tokenizationStateStore Examples.engine_line1)
                  (_tokenizationSupport Examples.engine_line1)
                  (mkPosition 1 1) "/",
                e2)
        /\ _tokenizationStateStore e2 = _tokenizationStateStore Examples.engine_line1
        /\ setTokensCalls e2 = setTokensCalls Examples.engine_line1 ++ [([], completed)]).
Proof.
  apply (probe_writes_nothing_back Z.eqb Examples.clone Examples.defaultAttributes
           Examples.getCount Examples.findTokenIndexAtOffset Examples.getStandardTokenType
           Examples.model Examples.codec
           Examples.nullCloneError Examples.nullEndState (mkPosition 1 1) "/" Examples.engine_line1
           Examples.tokenizer).
  reflexivity.
Defined.

(** The probe on the tokenized line 1 of the example: the token at the
    caret is of the type the tokenizer gives, and the store is untouched. *)
Example probe_line1 :
  Examples.probe (mkPosition 1 1) "/" Examples.engine_line1
  = Some (StandardTokenType.Comment,
          mkEngine (_tokenizationStateStore Examples.engine_line1)
            (Some Examples.tokenizer) [] [([], false)]).
Proof. reflexivity. Qed.

(** ** More on the state store *)

Section SpliceFacts.

Context {A : Type}.

Lemma arr_get_splice (l : list A) (start deleteCount j : Z) :
  0 <= start -> 0 <= deleteCount -> start + deleteCount <= Z.of_nat (length l) ->
  arr_get (splice l start deleteCount) j =
    if j <? start then arr_get l j else arr_get l (j + deleteCount).
Proof.
  intros Hs Hd Hl. unfold splice, arr_get.
  destruct (Z.ltb_spec start 0); [lia|].
  replace (Z.min start (Z.of_nat (length l))) with start by lia.
  replace (Z.min (Z.max deleteCount 0) (Z.of_nat (length l) - start))
    with deleteCount by lia.
  destruct (Z.ltb_spec j 0) as [Hj|Hj].
  - destruct (Z.ltb_spec j start); [reflexivity|lia].
  - destruct (Z.ltb_spec j start) as [Hjs|Hjs].
    + rewrite lookup_app_l by (rewrite length_take; lia).
      apply lookup_take_lt. lia.
    + destruct (Z.ltb_spec (j + deleteCount) 0); [lia|].
      rewrite lookup_app_r by (rewrite length_take; lia).
      rewrite length_take, lookup_drop. f_equal. lia.
Qed.

Lemma arr_get_arrayInsert (target : list A) (insertIndex : Z) (insertArr : list A) (j : Z) :
  0 <= insertIndex <= Z.of_nat (length target) ->
  arr_get (arrayInsert target insertIndex insertArr) j =
    if j <? insertIndex then arr_get target j
    else if j <? insertIndex + Z.of_nat (length insertArr)
         then arr_get insertArr (j - insertIndex)
         else arr_get target (j - Z.of_nat (length insertArr)).
Proof.
  intros Hi. unfold arrayInsert, arr_get.
  destruct (Z.ltb_spec j 0) as [Hj|Hj].
  - destruct (Z.ltb_spec j insertIndex); [reflexivity|lia].
  - destruct (Z.ltb_spec j insertIndex) as [Hji|Hji].
    + rewrite lookup_app_l by (rewrite length_take; lia).
      apply lookup_take_lt. lia.
    + rewrite lookup_app_r by (rewrite length_take; lia).
      rewrite length_take.
      destruct (Z.ltb_spec j (insertIndex + Z.of_nat (length insertArr))) as [Hin|Hin].
      * destruct (Z.ltb_spec (j - insertIndex) 0); [lia|].
        rewrite lookup_app_l by lia. f_equal. lia.
      * destruct (Z.ltb_spec (j - Z.of_nat (length insertArr)) 0); [lia|].
        rewrite lookup_app_r by lia. rewrite lookup_drop. f_equal. lia.
Qed.

End SpliceFacts.

Section EditReadings.

Context {IState : Type}.

Implicit Types (s : @TokenizationStateStore IState) (i j : Z) (range : IRange).

(** What is read from the store once the deleted lines are spliced out:
    the entries from [startLine] on move down by the number [d] of entries
    that were there to delete. *)
Lemma _acceptDeleteRange_readings range s :
  entries_agree s -> range_ok range -> startLineNumber range - 1 < _len s ->
  let d := Z.min (endLineNumber range - startLineNumber range)
                 (_len s - startLineNumber range) in
  let s' := _acceptDeleteRange range s in
  _len s' = _len s - d
  /\ (forall j, _isValid s' j =
        if j <? startLineNumber range then _isValid s j else _isValid s (j + d))
  /\ (forall j, getBeginState s' j =
        if j <? startLineNumber range then getBeginState s j else getBeginState s (j + d)).
Proof.
  intros [Hv Hb] Hr Hin. unfold range_ok in Hr. cbv zeta.
  unfold _acceptDeleteRange.
  destruct (Z.geb_spec (startLineNumber range - 1) (_len s)); [lia|].
  unfold _deleteLines.
  destruct (Z.eqb_spec (endLineNumber range - startLineNumber range) 0) as [H0|H0].
  - rewrite H0. replace (Z.min 0 (_len s - startLineNumber range)) with 0 by lia.
    split; [lia|]. split; intros j; rewrite Z.add_0_r; destruct (j <? _); reflexivity.
  - set (dc := if _ >? _ then _ else _).
    assert (Hdc : dc = Z.min (endLineNumber range - startLineNumber range)
                          (_len s - startLineNumber range)).
    { unfold dc. destruct (Z.gtb_spec (startLineNumber range
                 + (endLineNumber range - startLineNumber range)) (_len s)); lia. }
    rewrite <- Hdc. clearbody dc.
    split; [reflexivity|].
    split; intros j; unfold _isValid, getBeginState; simpl;
      rewrite arr_get_splice by lia;
      destruct (Z.ltb_spec j (startLineNumber range));
      destruct (Z.ltb_spec j (_len s - dc));
      destruct (Z.ltb_spec j (_len s));
      destruct (Z.ltb_spec (j + dc) (_len s)); try lia; reflexivity.
Qed.

(** What is read once the new lines are spliced in: [eolCount] entries
    without begin state and not valid sit at [lineNumber], and the entries
    that were there and after move up. *)
Lemma _acceptInsertText_readings (position : Position) eolCount s :
  entries_agree s -> 1 <= lineNumber position -> 0 <= eolCount ->
  lineNumber position - 1 < _len s ->
  let s' := _acceptInsertText position eolCount s in
  _len s' = _len s + eolCount
  /\ (forall j, _isValid s' j =
        if j <? lineNumber position then _isValid s j
        else if j <? lineNumber position + eolCount then false
        else _isValid s (j - eolCount))
  /\ (forall j, getBeginState s' j =
        if j <? lineNumber position then getBeginState s j
        else if j <? lineNumber position + eolCount then None
        else getBeginState s (j - eolCount)).
Proof.
  intros [Hv Hb] Hl He Hin. cbv zeta.
  unfold _acceptInsertText.
  destruct (Z.geb_spec (lineNumber position - 1) (_len s)); [lia|].
  unfold _insertLines.
  destruct (Z.eqb_spec eolCount 0) as [H0|H0].
  - subst eolCount. split; [lia|].
    split; intros j; rewrite Z.add_0_r, Z.sub_0_r;
      destruct (j <? lineNumber position); reflexivity.
  - split; [reflexivity|].
    split; intros j; unfold _isValid, getBeginState; simpl;
      rewrite arr_get_arrayInsert by lia; rewrite length_replicate;
      rewrite Z2Nat.id by lia;
      destruct (Z.ltb_spec j (lineNumber position));
      destruct (Z.ltb_spec j (lineNumber position + eolCount));
      destruct (Z.ltb_spec j (_len s + eolCount));
      destruct (Z.ltb_spec j (_len s));
      destruct (Z.ltb_spec (j - eolCount) (_len s)); try lia; try reflexivity;
      unfold arr_get; (destruct (Z.ltb_spec (j - lineNumber position) 0); [lia|]);
      rewrite lookup_replicate_2 by lia; reflexivity.
Qed.

End EditReadings.

Section StoreExtras.

Context {IState : Type}.
Variable equals : IState -> IState -> bool.

Implicit Types (s : @TokenizationStateStore IState) (i j lineIndex linesLength : Z)
  (range : IRange).

(** The readings of the store in the branch of [setEndState] that adopts a
    new begin state. *)
Lemma setEndState_changed_readings i (endState : IState) s :
  0 <= i ->
  let s' := setEndState_changed i endState s in
  (forall j, _isValid s' j =
     if j =? i + 1 then false else if j =? i then true else _isValid s j)
  /\ (forall j, getBeginState s' j =
        if j =? i + 1 then Some endState else getBeginState s j).
Proof.
  intros Hi. cbv zeta. unfold setEndState_changed.
  destruct (setEndState_marked_spec i s) as (_ & _ & Hv & Hb).
  destruct (_setBeginState_spec (i + 1) (Some endState) (setEndState_marked i s))
    as (_ & _ & Hv2 & Hb2).
  destruct (_invalidateLine_spec (i + 1)
              (_setBeginState (i + 1) (Some endState) (setEndState_marked i s)))
    as (_ & _ & Hv3 & Hb3).
  cbv zeta in *. split; intros j.
  - rewrite Hv3, Hv2, Hv by lia. reflexivity.
  - rewrite Hb3, Hb2, Hb by lia. reflexivity.
Qed.

(** The readings of the store after [flush]. *)
Lemma flush_spec (initialState : option IState) s :
  let s' := flush initialState s in
  _invalidLineStartIndex s' = 0
  /\ _len s' = match initialState with Some _ => 1 | None => 0 end
  /\ (forall j, _isValid s' j = false)
  /\ (forall j, getBeginState s' j = if j =? 0 then initialState else None).
Proof.
  cbv zeta. unfold flush, _reset. destruct initialState as [st|].
  - destruct (_setBeginState_spec 0 (Some st) (@newStore IState)) as (Hl & Hf & Hv & Hb).
    cbv zeta in *. specialize (Hb ltac:(lia)).
    split; [rewrite Hf; reflexivity|]. split; [rewrite Hl; reflexivity|].
    split.
    + intros j. rewrite Hv. unfold _isValid. simpl. destruct (j <? 0); [|reflexivity].
      unfold arr_get. destruct (j <? 0); [reflexivity|]. rewrite lookup_nil. reflexivity.
    + intros j. rewrite Hb. destruct (j =? 0); [reflexivity|].
      unfold getBeginState. simpl. destruct (j <? 0); [|reflexivity].
      unfold arr_get. destruct (j <? 0); [reflexivity|]. rewrite lookup_nil. reflexivity.
  - split; [reflexivity|]. split; [reflexivity|].
    split; intros j.
    + unfold _isValid. simpl. destruct (j <? 0); [|reflexivity].
      unfold arr_get. destruct (j <? 0); [reflexivity|]. rewrite lookup_nil. reflexivity.
    + unfold getBeginState. simpl.
      destruct (j <? 0); [|destruct (j =? 0); reflexivity].
      unfold arr_get. destruct (j <? 0); [destruct (j =? 0); reflexivity|].
      rewrite lookup_nil. destruct (j =? 0); reflexivity.
Qed.

(** X1.  [flush] drops every entry: afterwards the frontier is 0, no line is
    valid, and the only begin state cached is the initial state given, for
    line 1; without one the store is empty. *)
Theorem flush_readings (initialState : option IState) s :
  let s' := flush initialState s in
  _invalidLineStartIndex s' = 0
  /\ _len s' = match initialState with Some _ => 1 | None => 0 end
  /\ (forall j, _isValid s' j = false)
  /\ (forall j, getBeginState s' j = if j =? 0 then initialState else None).
Proof. apply flush_spec. Qed.

(** X2.  [setEndState] marks line [i] valid; and unless [i] is the last
    line, the next line has a begin state afterwards: the end state given,
    or the cached one when the end state equals it. *)
Theorem setEndState_marks_and_adopts linesLength i (endState : IState) s :
  0 <= i ->
  let s' := setEndState equals linesLength i endState s in
  _isValid s' i = true
  /\ (i <> linesLength - 1 ->
      getBeginState s' (i + 1) = Some endState
      \/ exists p, getBeginState s (i + 1) = Some p /\ equals endState p = true
                   /\ getBeginState s' (i + 1) = Some p).
Proof.
  intros Hi. cbv zeta.
  destruct (setEndState_marked_spec i s) as (_ & _ & Hv & Hb).
  specialize (Hv Hi).
  destruct (setEndState_changed_readings i endState s Hi) as (Hcv & Hcb).
  cbv zeta in *.
  destruct (setEndState_cases equals linesLength i endState s)
    as [[Hlast ->]|[(Hne & _ & ->)|(Hne & (p & Hp & Heq) & ->)]].
  - split; [rewrite Hv, Z.eqb_refl; reflexivity|]. intros; lia.
  - split.
    + rewrite Hcv, Z.eqb_refl. destruct (Z.eqb_spec i (i + 1)); [lia|reflexivity].
    + intros _. left. rewrite Hcb, Z.eqb_refl. reflexivity.
  - split.
    + rewrite _isValid_set_frontier, Hv, Z.eqb_refl. reflexivity.
    + intros _. right. exists p. split; [exact Hp|]. split; [exact Heq|].
      change (getBeginState (setEndState_marked i s) (i + 1) = Some p).
      rewrite Hb. exact Hp.
Qed.

(** X3.  [setEndState] for line [i] touches the entries of lines [i] and
    [i + 1] only: every other valid bit and every begin state but that of
    line [i + 1] is as before, and no entry is dropped. *)
Theorem setEndState_frame linesLength i (endState : IState) s :
  0 <= i ->
  let s' := setEndState equals linesLength i endState s in
  (forall j, j <> i + 1 -> getBeginState s' j = getBeginState s j)
  /\ (forall j, j <> i -> j <> i + 1 -> _isValid s' j = _isValid s j)
  /\ _len s <= _len s'.
Proof.
  intros Hi. cbv zeta.
  destruct (setEndState_marked_spec i s) as (Hl & _ & Hv & Hb).
  specialize (Hv Hi).
  destruct (setEndState_changed_readings i endState s Hi) as (Hcv & Hcb).
  destruct (setEndState_changed_spec i endState s) as (Hcl & _).
  cbv zeta in *.
  destruct (setEndState_cases equals linesLength i endState s)
    as [[_ ->]|[(_ & _ & ->)|(_ & _ & ->)]].
  - split; [intros j _; apply Hb|]. split; [|lia].
    intros j H1 _. rewrite Hv. destruct (Z.eqb_spec j i); [lia|reflexivity].
  - split.
    + intros j H1. rewrite Hcb. destruct (Z.eqb_spec j (i + 1)); [lia|reflexivity].
    + split; [|lia]. intros j H1 H2. rewrite Hcv.
      destruct (Z.eqb_spec j (i + 1)); [lia|].
      destruct (Z.eqb_spec j i); [lia|reflexivity].
  - split; [intros j _; apply Hb|]. split.
    + intros j H1 _. rewrite _isValid_set_frontier, Hv.
      destruct (Z.eqb_spec j i); [lia|reflexivity].
    + change (_len s <= _len (setEndState_marked i s)). lia.
Qed.

(** X4.  When the next line has no cached begin state, or one that the end
    state does not equal, [setEndState] does not skip ahead: the frontier
    is [i + 1], and line [i + 1] is not valid and begins in the end state
    given. *)
Theorem setEndState_state_changed linesLength i (endState : IState) s :
  0 <= i -> i <> linesLength - 1 ->
  (getBeginState s (i + 1) = None
   \/ exists p, getBeginState s (i + 1) = Some p /\ equals endState p = false) ->
  let s' := setEndState equals linesLength i endState s in
  _invalidLineStartIndex s' = i + 1
  /\ _isValid s' (i + 1) = false
  /\ getBeginState s' (i + 1) = Some endState.
Proof.
  intros Hi Hne Hprev. cbv zeta.
  destruct (setEndState_changed_readings i endState s Hi) as (Hcv & Hcb).
  destruct (setEndState_changed_spec i endState s) as (_ & Hcf).
  cbv zeta in *.
  destruct (setEndState_cases equals linesLength i endState s)
    as [[Hlast _]|[(_ & _ & ->)|(_ & (p & Hp & Heq) & _)]].
  - lia.
  - split; [exact Hcf|].
    rewrite Hcv, Hcb, Z.eqb_refl. split; reflexivity.
  - exfalso. destruct Hprev as [Hn|(q & Hq & Hneq)]; [congruence|].
    rewrite Hp in Hq. injection Hq as <-. congruence.
Qed.

(** The frontier after [setEndState] for a line of the buffer is in the
    buffer or right behind it. *)
Lemma setEndState_frontier_upper_bound linesLength i (endState : IState) s :
  i < linesLength ->
  _invalidLineStartIndex (setEndState equals linesLength i endState s) <= linesLength.
Proof.
  intros Hi.
  destruct (setEndState_marked_spec i s) as (_ & Hf & _).
  destruct (setEndState_changed_spec i endState s) as (_ & Hcf).
  cbv zeta in *.
  destruct (setEndState_cases equals linesLength i endState s)
    as [[_ ->]|[(_ & _ & ->)|(_ & _ & ->)]].
  - lia.
  - lia.
  - change (skipValid (setEndState_marked i s) linesLength (i + 1) <= linesLength).
    destruct (skipValid_spec (setEndState_marked i s) linesLength (i + 1))
      as (H1 & H2 & _). cbv zeta in *.
    destruct (Z.eq_dec (skipValid (setEndState_marked i s) linesLength (i + 1)) (i + 1))
      as [->|Hn]; [lia|].
    destruct (H2 (skipValid (setEndState_marked i s) linesLength (i + 1) - 1)); lia.
Qed.

(** X5.  The frontier never passes the end of the buffer: after
    [setEndState] for a line [i] of a buffer of [linesLength] lines, it is
    at most [linesLength]. *)
Theorem setEndState_frontier_in_buffer linesLength i (endState : IState) s :
  i < linesLength ->
  _invalidLineStartIndex (setEndState equals linesLength i endState s) <= linesLength.
Proof. apply setEndState_frontier_upper_bound. Qed.

(** X6.  [setFakeTokens] clears the valid bit of its line and nothing else:
    the other valid bits, all begin states and the frontier are as before;
    the store grows as far as the line when it was shorter. *)
Theorem setFakeTokens_readings i s :
  0 <= i ->
  let s' := setFakeTokens i s in
  _invalidLineStartIndex s' = _invalidLineStartIndex s
  /\ _len s' = Z.max (_len s) (i + 1)
  /\ (forall j, _isValid s' j = if j =? i then false else _isValid s j)
  /\ (forall j, getBeginState s' j = getBeginState s j).
Proof.
  intros Hi. cbv zeta. unfold setFakeTokens.
  destruct (_setValid_spec i false s) as (Hl & Hf & Hv & Hb). cbv zeta in *.
  auto.
Qed.

Lemma invalidateEdited_beyond n startLine s :
  _invalidLineStartIndex s <= _len s -> _len s <= startLine - 1 ->
  invalidateEdited n startLine s = s.
Proof.
  intros Hf Hl. induction n as [|m IH]; simpl; [reflexivity|].
  assert (_invalidateLine (startLine + Z.of_nat m - 1) s = s) as ->; [|exact IH].
  unfold _invalidateLine.
  destruct (Z.ltb_spec (startLine + Z.of_nat m - 1) (_len s)); [lia|].
  destruct (Z.ltb_spec (startLine + Z.of_nat m - 1) (_invalidLineStartIndex s));
    [lia|reflexivity].
Qed.

Lemma applyEdits_beyond range eolCount s :
  _invalidLineStartIndex s <= _len s ->
  _len s <= startLineNumber range - 1 ->
  applyEdits range eolCount s = s.
Proof.
  intros Hf Hl. unfold applyEdits, applyEdits_invalidate.
  rewrite invalidateEdited_beyond by assumption.
  unfold _acceptDeleteRange.
  destruct (Z.geb_spec (startLineNumber range - 1) (_len s)); [|lia].
  unfold _acceptInsertText. simpl.
  destruct (Z.geb_spec (startLineNumber range - 1) (_len s)); [reflexivity|lia].
Qed.

(** X7.  An edit that starts behind the last cached entry changes nothing,
    in a store whose frontier is within its entries. *)
Theorem applyEdits_beyond_cache range eolCount s :
  _invalidLineStartIndex s <= _len s ->
  _len s <= startLineNumber range - 1 ->
  applyEdits range eolCount s = s.
Proof. apply applyEdits_beyond. Qed.

(** The readings of the store after an edit inside the cache. *)
Lemma applyEdits_readings range eolCount s :
  entries_agree s -> range_ok range -> 0 <= eolCount ->
  startLineNumber range - 1 < _len s ->
  let d := Z.min (endLineNumber range - startLineNumber range)
                 (_len s - startLineNumber range) in
  let s' := applyEdits range eolCount s in
  _len s' = _len s - d + eolCount
  /\ (forall j, _isValid s' j =
        if j <? startLineNumber range - 1 then _isValid s j
        else if j <? startLineNumber range + eolCount then false
        else _isValid s (j - eolCount + d))
  /\ (forall j, getBeginState s' j =
        if j <? startLineNumber range then getBeginState s j
        else if j <? startLineNumber range + eolCount then None
        else getBeginState s (j - eolCount + d)).
Proof.
  intros Hagree Hr He Hin. cbv zeta. unfold applyEdits.
  pose proof Hr as Hr'. unfold range_ok in Hr'.
  destruct (applyEdits_invalidate_spec range eolCount s) as (Hl1 & _ & Hv1 & Hb1).
  cbv zeta in *.
  assert (Hagree1 : entries_agree (applyEdits_invalidate range eolCount s)).
  { apply entries_agree_invalidateEdited, Hagree. }
  set (s1 := applyEdits_invalidate range eolCount s) in *.
  destruct (_acceptDeleteRange_readings range s1 Hagree1 Hr ltac:(lia))
    as (Hl2 & Hv2 & Hb2).
  cbv zeta in *.
  assert (Hagree2 : entries_agree (_acceptDeleteRange range s1)).
  { apply entries_agree_acceptDeleteRange; assumption. }
  set (s2 := _acceptDeleteRange range s1) in *.
  destruct (_acceptInsertText_readings
              (mkPosition (startLineNumber range) (startColumn range)) eolCount s2
              Hagree2 ltac:(simpl; lia) He ltac:(simpl; lia))
    as (Hl3 & Hv3 & Hb3).
  cbv zeta in *. simpl lineNumber in *.
  rewrite Hl1 in *.
  set (d := Z.min (endLineNumber range - startLineNumber range)
                  (_len s - startLineNumber range)) in *.
  split; [lia|]. split; intros j.
  - rewrite Hv3.
    destruct (Z.ltb_spec j (startLineNumber range)) as [Hj|Hj].
    + rewrite Hv2. destruct (Z.ltb_spec j (startLineNumber range)); [|lia].
      rewrite Hv1. unfold editingLinesCnt.
      destruct (Z.ltb_spec j (startLineNumber range - 1)).
      * destruct (Z.leb_spec (startLineNumber range - 1) j); [lia|reflexivity].
      * destruct (Z.leb_spec (startLineNumber range - 1) j); [|lia].
        destruct (Z.leb_spec j (startLineNumber range - 1
                     + Z.min (endLineNumber range - startLineNumber range) eolCount));
          [|lia].
        destruct (Z.ltb_spec j (startLineNumber range + eolCount)); [reflexivity|lia].
    + destruct (Z.ltb_spec j (startLineNumber range - 1)); [lia|].
      destruct (Z.ltb_spec j (startLineNumber range + eolCount)); [reflexivity|].
      rewrite Hv2. destruct (Z.ltb_spec (j - eolCount) (startLineNumber range)); [lia|].
      rewrite Hv1. unfold editingLinesCnt.
      replace (j - eolCount + d) with (j - eolCount + d) by reflexivity.
      destruct (Z.leb_spec (startLineNumber range - 1) (j - eolCount + d)); [|lia].
      destruct (Z.leb_spec (j - eolCount + d) (startLineNumber range - 1
                   + Z.min (endLineNumber range - startLineNumber range) eolCount))
        as [Hle|Hgt]; [|reflexivity].
      simpl. symmetry. unfold _isValid.
      destruct (Z.ltb_spec (j - eolCount + d) (_len s)); [|reflexivity]. lia.
  - rewrite Hb3.
    destruct (Z.ltb_spec j (startLineNumber range)) as [Hj|Hj].
    + rewrite Hb2. destruct (Z.ltb_spec j (startLineNumber range)); [|lia].
      apply Hb1.
    + destruct (Z.ltb_spec j (startLineNumber range + eolCount)); [reflexivity|].
      rewrite Hb2. destruct (Z.ltb_spec (j - eolCount) (startLineNumber range)); [lia|].
      apply Hb1.
Qed.

(** X8.  What an edit inside the cache does to the entries.  Let [d] be the
    number of cached entries among the lines that the range removes.  The
    entries above the first line of the range are as before; that line is
    not valid and keeps its begin state; [eolCount] entries follow that are
    not valid and have no begin state; and behind them come the entries
    that followed the range, as they were. *)
Theorem applyEdits_entries range eolCount s :
  entries_agree s -> range_ok range -> 0 <= eolCount ->
  startLineNumber range - 1 < _len s ->
  let d := Z.min (endLineNumber range - startLineNumber range)
                 (_len s - startLineNumber range) in
  let s' := applyEdits range eolCount s in
  _len s' = _len s - d + eolCount
  /\ (forall j, _isValid s' j =
        if j <? startLineNumber range - 1 then _isValid s j
        else if j <? startLineNumber range + eolCount then false
        else _isValid s (j - eolCount + d))
  /\ (forall j, getBeginState s' j =
        if j <? startLineNumber range then getBeginState s j
        else if j <? startLineNumber range + eolCount then None
        else getBeginState s (j - eolCount + d)).
Proof. apply applyEdits_readings. Qed.

End StoreExtras.

(** ** The invariants of the store under the engine *)

Section TrackingFacts.

Context {IState : Type}.
Variable equals : IState -> IState -> bool.

Implicit Types (s : @TokenizationStateStore IState) (i j linesLength : Z).

Lemma tracked_ok_reset linesLength (initialState : IState) s :
  1 <= linesLength -> tracked_ok linesLength (flush (Some initialState) s).
Proof.
  intros HL.
  destruct (_setBeginState_spec 0 (Some initialState) (@newStore IState))
    as (Hl & Hf & Hv & Hb).
  specialize (Hb ltac:(lia)). cbv zeta in *.
  assert (Hnv : forall j, _isValid (flush (Some initialState) s) j = false).
  { intros j. unfold flush, _reset. rewrite Hv. unfold _isValid. simpl.
    destruct (j <? 0); [|reflexivity].
    unfold arr_get. destruct (j <? 0); [reflexivity|]. rewrite lookup_nil. reflexivity. }
  split; [exact HL|]. split; [apply frontier_bounded_flush|].
  split; [unfold flush, _reset; rewrite Hf; simpl; lia|].
  split; [unfold flush, _reset; apply entries_agree_setBeginState; split; reflexivity|].
  split.
  - intros j Hj. unfold flush, _reset in Hj. rewrite Hf in Hj. simpl in Hj. lia.
  - split.
    + intros j Hj _. unfold flush, _reset in *. rewrite Hf in Hj. simpl in Hj.
      assert (j = 0) as -> by lia. rewrite Hb. simpl. eauto.
    + intros j _ Hvj. rewrite Hnv in Hvj. discriminate.
Qed.

Lemma tracked_ok_tokenized linesLength s (lineStartState endState : IState) :
  tracked_ok linesLength s ->
  _invalidLineStartIndex s < linesLength ->
  tracked_ok linesLength
    (setEndState equals linesLength (_invalidLineStartIndex s) endState s).
Proof.
  intros (HL & Hbd & HfL & Hagree & Hbelow & Hready_b & Hready_c) Hlt.
  set (i := _invalidLineStartIndex s) in *.
  assert (Hi : 0 <= i) by (unfold frontier_bounded in Hbd; lia).
  split; [exact HL|].
  split; [apply frontier_bounded_setEndState; exact Hi|].
  split; [apply setEndState_frontier_upper_bound; exact Hlt|].
  split; [apply entries_agree_setEndState; exact Hagree|].
  destruct (setEndState_marked_spec i s) as (_ & Hmf & Hmv & Hmb).
  specialize (Hmv Hi).
  destruct (setEndState_changed_readings i endState s Hi) as (Hcv & Hcb).
  destruct (setEndState_changed_spec i endState s) as (_ & Hcf).
  cbv zeta in *.
  assert (Hold : forall j, 0 <= j <= i -> _isValid (setEndState_marked i s) j = true).
  { intros j Hj. rewrite Hmv. destruct (Z.eqb_spec j i); [reflexivity|].
    apply Hbelow. fold i. lia. }
  destruct (setEndState_cases equals linesLength i endState s)
    as [[Hlast ->]|[(Hne & _ & ->)|(Hne & (p & Hp & _) & ->)]].
  - (* the last line *)
    split.
    + intros j Hj. rewrite Hmf in Hj. apply Hold. lia.
    + split.
      * intros j Hj HjL. rewrite Hmf in Hj. rewrite Hmb. apply Hready_b; fold i; lia.
      * intros j Hj Hvj HjL. rewrite Hmb. rewrite Hmv in Hvj.
        destruct (Z.eqb_spec j i); [lia|]. apply Hready_c; assumption.
  - (* a new begin state for the next line *)
    split.
    + intros j Hj. rewrite Hcf in Hj. rewrite Hcv.
      destruct (Z.eqb_spec j (i + 1)); [lia|]. rewrite <- Hmv. apply Hold. lia.
    + split.
      * intros j Hj HjL. rewrite Hcf in Hj. rewrite Hcb.
        destruct (Z.eqb_spec j (i + 1)); [eauto|]. apply Hready_b; fold i; lia.
      * intros j Hj Hvj HjL. rewrite Hcb. rewrite Hcv in Hvj.
        destruct (Z.eqb_spec (j + 1) (i + 1)); [eauto|].
        destruct (Z.eqb_spec j (i + 1)); [discriminate|].
        destruct (Z.eqb_spec j i); [lia|]. apply Hready_c; assumption.
  - (* skip-ahead *)
    destruct (skipValid_spec (setEndState_marked i s) linesLength (i + 1))
      as (H1 & H2 & _). cbv zeta in *.
    set (f := skipValid (setEndState_marked i s) linesLength (i + 1)) in *.
    assert (Hc' : forall j, 0 <= j -> _isValid (setEndState_marked i s) j = true ->
                    j + 1 < linesLength -> is_Some (getBeginState s (j + 1))).
    { intros j Hj Hvj HjL. rewrite Hmv in Hvj.
      destruct (Z.eqb_spec j i) as [->|]; [rewrite Hp; eauto|].
      apply Hready_c; assumption. }
    split.
    + intros j Hj. change (_invalidLineStartIndex (set_invalidLineStartIndex f _))
        with f in Hj. rewrite _isValid_set_frontier.
      destruct (Z.le_gt_cases j i); [apply Hold; lia|]. apply H2. lia.
    + split.
      * intros j Hj HjL. change (_invalidLineStartIndex (set_invalidLineStartIndex f _))
          with f in Hj.
        change (is_Some (getBeginState (setEndState_marked i s) j)). rewrite Hmb.
        destruct (Z.le_gt_cases j i); [apply Hready_b; fold i; lia|].
        replace j with (j - 1 + 1) by lia. apply Hc'; [lia| |lia].
        destruct (Z.eq_dec j (i + 1)) as [->|];
          [replace (i + 1 - 1) with i by lia; apply Hold; lia|].
        apply H2. lia.
      * intros j Hj Hvj HjL. rewrite _isValid_set_frontier in Hvj.
        change (is_Some (getBeginState (setEndState_marked i s) (j + 1))). rewrite Hmb.
        apply Hc'; assumption.
Qed.

Lemma tracked_ok_fake linesLength s lineIndex :
  tracked_ok linesLength s ->
  _invalidLineStartIndex s <= lineIndex ->
  tracked_ok linesLength (setFakeTokens lineIndex s).
Proof.
  intros (HL & Hbd & HfL & Hagree & Hbelow & Hready_b & Hready_c) Hle.
  assert (Hi : 0 <= lineIndex) by (unfold frontier_bounded in Hbd; lia).
  destruct (_setValid_spec lineIndex false s) as (Hl & Hf & Hv & Hb).
  specialize (Hv Hi). cbv zeta in *. unfold setFakeTokens.
  split; [exact HL|].
  split; [apply frontier_bounded_setFakeTokens; exact Hbd|].
  split; [rewrite Hf; exact HfL|].
  split; [apply entries_agree_setValid; exact Hagree|].
  split.
  - intros j Hj. rewrite Hf in Hj. rewrite Hv.
    destruct (Z.eqb_spec j lineIndex); [lia|]. apply Hbelow. exact Hj.
  - split.
    + intros j Hj HjL. rewrite Hf in Hj. rewrite Hb. apply Hready_b; assumption.
    + intros j Hj Hvj HjL. rewrite Hb. rewrite Hv in Hvj.
      destruct (Z.eqb_spec j lineIndex); [discriminate|]. apply Hready_c; assumption.
Qed.

Lemma tracked_ok_edit linesLength s (range : IRange) eolCount :
  tracked_ok linesLength s ->
  range_ok range -> endLineNumber range <= linesLength -> 0 <= eolCount ->
  tracked_ok (linesLength - (endLineNumber range - startLineNumber range) + eolCount)
    (applyEdits range eolCount s).
Proof.
  intros (HL & Hbd & HfL & Hagree & Hbelow & Hready_b & Hready_c) Hr Hend He.
  pose proof Hr as Hr'. unfold range_ok in Hr'.
  pose proof Hbd as Hbd'. unfold frontier_bounded in Hbd'.
  assert (Hfr : _invalidLineStartIndex (applyEdits range eolCount s)
                = Z.min (_invalidLineStartIndex s) (startLineNumber range - 1)).
  { rewrite applyEdits_frontier. unfold editingLinesCnt.
    destruct (Z.leb_spec 0 (Z.min (endLineNumber range - startLineNumber range) eolCount));
      [reflexivity|lia]. }
  split; [lia|].
  split; [apply frontier_bounded_applyEdits; assumption|].
  split; [rewrite Hfr; lia|].
  split.
  { unfold applyEdits.
    apply entries_agree_acceptInsertText; [assumption|].
    apply entries_agree_acceptDeleteRange; [assumption|].
    apply entries_agree_invalidateEdited. assumption. }
  destruct (Z.lt_ge_cases (startLineNumber range - 1) (_len s)) as [Hin|Hout].
  - destruct (applyEdits_readings range eolCount s Hagree Hr He Hin) as (_ & Hv & Hb).
    cbv zeta in *.
    set (d := Z.min (endLineNumber range - startLineNumber range)
                    (_len s - startLineNumber range)) in *.
    split.
    + intros j Hj. rewrite Hfr in Hj. rewrite Hv.
      destruct (Z.ltb_spec j (startLineNumber range - 1)); [|lia].
      apply Hbelow. lia.
    + split.
      * intros j Hj HjL. rewrite Hfr in Hj. rewrite Hb.
        destruct (Z.ltb_spec j (startLineNumber range)); [|lia].
        apply Hready_b; lia.
      * intros j Hj Hvj HjL. rewrite Hv in Hvj. rewrite Hb.
        destruct (Z.ltb_spec j (startLineNumber range - 1)) as [Hlow|Hhigh].
        -- destruct (Z.ltb_spec (j + 1) (startLineNumber range)); [|lia].
           apply Hready_c; [assumption..|lia].
        -- destruct (Z.ltb_spec j (startLineNumber range + eolCount)); [discriminate|].
           destruct (Z.ltb_spec (j + 1) (startLineNumber range)); [lia|].
           destruct (Z.ltb_spec (j + 1) (startLineNumber range + eolCount)); [lia|].
           replace (j + 1 - eolCount + d) with (j - eolCount + d + 1) by lia.
           apply Hready_c; [lia|assumption|lia].
  - rewrite applyEdits_beyond by lia.
    split; [exact Hbelow|]. split.
    + intros j Hj HjL. apply Hready_b; [assumption|lia].
    + intros j Hj Hvj HjL. apply Hready_c; [assumption..|].
      apply _isValid_lt_len in Hvj. lia.
Qed.

Lemma tracking_tracked_ok linesLength s :
  tracking equals linesLength s -> tracked_ok linesLength s.
Proof.
  intros H. induction H.
  - apply tracked_ok_reset. assumption.
  - apply (tracked_ok_tokenized _ _ lineStartState); assumption.
  - apply tracked_ok_fake; assumption.
  - apply tracked_ok_edit; assumption.
Qed.

(** X9.  In every store that the engine passes through over a buffer of
    [linesLength] lines, the frontier is between 0 and [linesLength], all
    entries below the frontier are valid, and the begin states that
    tokenization reads next are cached: those of the lines up to the
    frontier and of the line after each valid line, as far as the buffer
    reaches. *)
Theorem tracking_invariant linesLength s :
  tracking equals linesLength s ->
  0 <= _invalidLineStartIndex s <= linesLength
  /\ below_frontier_valid s
  /\ begin_states_ready linesLength s.
Proof.
  intros H. apply tracking_tracked_ok in H.
  destruct H as (_ & Hbd & HfL & _ & Hbelow & Hready).
  unfold frontier_bounded in Hbd. split; [lia|]. split; assumption.
Qed.

End TrackingFacts.

(** ** More on the engine *)

Section EngineExtras.

Context {IState Error : Type}.
Variable equals : IState -> IState -> bool.
Variable clone : IState -> IState.
Variable defaultAttributes : Z -> Z.
Variable getCount : LineTokens -> Z.
Variable findTokenIndexAtOffset : LineTokens -> Z -> Z.
Variable getStandardTokenType : LineTokens -> Z -> StandardTokenType.t.
Variable _textModel : TextModel.
Variable _languageIdCodec : ILanguageIdCodec.
Variable nullCloneError : Error.
Variable nullEndState : option IState.

Implicit Types (e : @TextModelTokenization IState Error)
  (support : @ITokenizationSupport IState Error) (builder : TokensBuilder).

(** Whenever the loop of [_updateTokensUntilLine] ends, it has left the
    tokenizer and the published batches alone, has not moved the frontier
    down, and has added to the builder lines in rising order, each behind
    the old frontier and none behind the line asked for. *)
Lemma _updateTokensUntilLine_loop_facts fuel support languageId linesLength endLineIndex
  builder e builder' e' :
  _updateTokensUntilLine_loop equals clone defaultAttributes _textModel
    _languageIdCodec nullCloneError nullEndState
    fuel support languageId linesLength endLineIndex
    (invalidLineStartIndex (_tokenizationStateStore e)) builder e = Some (builder', e') ->
  _tokenizationSupport e' = _tokenizationSupport e
  /\ setTokensCalls e' = setTokensCalls e
  /\ invalidLineStartIndex (_tokenizationStateStore e)
     <= invalidLineStartIndex (_tokenizationStateStore e')
  /\ exists lines,
       map fst builder' = map fst builder ++ lines
       /\ Forall (fun ln => invalidLineStartIndex (_tokenizationStateStore e) < ln
                            <= endLineIndex + 1) lines
       /\ Sorted Z.lt lines.
Proof.
  revert builder e. induction fuel as [|fuel IH]; intros builder e Hrun.
  - simpl in Hrun. injection Hrun as <- <-.
    split; [reflexivity|]. split; [reflexivity|]. split; [lia|].
    exists []. rewrite app_nil_r. repeat split; constructor.
  - cbn [_updateTokensUntilLine_loop] in Hrun.
    destruct (Z.leb_spec (invalidLineStartIndex (_tokenizationStateStore e)) endLineIndex)
      as [Hle|Hgt].
    + destruct (getBeginState (_tokenizationStateStore e)
                  (invalidLineStartIndex (_tokenizationStateStore e)))
        as [lineStartState|].
      * destruct (safeTokenize clone defaultAttributes _languageIdCodec languageId
                    (Some support) _ true lineStartState) as [r reported].
        set (e1 := with_store _ _) in Hrun.
        replace (invalidLineStartIndex (_tokenizationStateStore e1) - 1 + 1)
          with (invalidLineStartIndex (_tokenizationStateStore e1)) in Hrun by lia.
        apply IH in Hrun. destruct Hrun as (Hs & Hc & Hf & lines & Hb & Hall & Hsorted).
        pose proof (setEndState_frontier_lower_bound equals linesLength
                      (invalidLineStartIndex (_tokenizationStateStore e)) (endState r)
                      (_tokenizationStateStore (onUnexpectedError reported e))) as Hup.
        change (_invalidLineStartIndex (setEndState equals linesLength
                  (invalidLineStartIndex (_tokenizationStateStore e)) (endState r)
                  (_tokenizationStateStore (onUnexpectedError reported e))))
          with (invalidLineStartIndex (_tokenizationStateStore e1)) in Hup.
        split; [rewrite Hs; reflexivity|]. split; [rewrite Hc; reflexivity|].
        split; [lia|].
        exists ((invalidLineStartIndex (_tokenizationStateStore e) + 1) :: lines).
        split.
        -- rewrite Hb. unfold builder_add. rewrite map_app. simpl.
           rewrite <- app_assoc. reflexivity.
        -- split.
           ++ constructor; [lia|].
              eapply Forall_impl; [exact Hall|]. cbv beta. intros ln Hln. lia.
           ++ constructor; [exact Hsorted|].
              destruct lines as [|ln lines']; constructor.
              apply Forall_cons in Hall. destruct Hall as [Hln _]. lia.
      * unfold safeTokenize_noState in Hrun. cbv beta iota in Hrun.
        destruct (setEndState_nullable equals linesLength _ nullEndState _)
          as [store|] eqn:Hset; [|discriminate].
        apply setEndState_nullable_frontier in Hset.
        set (e1 := with_store store _) in Hrun.
        replace (invalidLineStartIndex (_tokenizationStateStore e1) - 1 + 1)
          with (invalidLineStartIndex (_tokenizationStateStore e1)) in Hrun by lia.
        apply IH in Hrun. destruct Hrun as (Hs & Hc & Hf & lines & Hb & Hall & Hsorted).
        change (invalidLineStartIndex (_tokenizationStateStore e1))
          with (_invalidLineStartIndex store) in *.
        split; [rewrite Hs; reflexivity|]. split; [rewrite Hc; reflexivity|].
        split; [lia|].
        exists ((invalidLineStartIndex (_tokenizationStateStore e) + 1) :: lines).
        split.
        -- rewrite Hb. unfold builder_add. rewrite map_app. simpl.
           rewrite <- app_assoc. reflexivity.
        -- split.
           ++ constructor; [lia|].
              eapply Forall_impl; [exact Hall|]. cbv beta. intros ln Hln. lia.
           ++ constructor; [exact Hsorted|].
              destruct lines as [|ln lines']; constructor.
              apply Forall_cons in Hall. destruct Hall as [Hln _]. lia.
    + injection Hrun as <- <-.
      split; [reflexivity|]. split; [reflexivity|]. split; [lia|].
      exists []. rewrite app_nil_r. repeat split; constructor.
Qed.

(** Over a store that the engine tracks, the loop returns: the begin state
    of each line it comes to is cached. *)
Lemma _updateTokensUntilLine_loop_returns fuel support languageId endLineIndex builder e :
  tracking equals (getLineCount _textModel) (_tokenizationStateStore e) ->
  endLineIndex < getLineCount _textModel ->
  exists builder' e',
    _updateTokensUntilLine_loop equals clone defaultAttributes _textModel
      _languageIdCodec nullCloneError nullEndState
      fuel support languageId (getLineCount _textModel) endLineIndex
      (invalidLineStartIndex (_tokenizationStateStore e)) builder e = Some (builder', e')
    /\ tracking equals (getLineCount _textModel) (_tokenizationStateStore e').
Proof.
  revert builder e. induction fuel as [|fuel IH]; intros builder e Htr Hend.
  - simpl. eauto.
  - cbn [_updateTokensUntilLine_loop].
    destruct (Z.leb_spec (invalidLineStartIndex (_tokenizationStateStore e)) endLineIndex)
      as [Hle|Hgt]; [|eauto].
    destruct (tracking_tracked_ok equals _ _ Htr)
      as (_ & Hbd & _ & _ & _ & Hready & _).
    unfold frontier_bounded in Hbd.
    destruct (Hready (invalidLineStartIndex (_tokenizationStateStore e)))
      as [lineStartState Hst]; [unfold invalidLineStartIndex in *; lia..|].
    rewrite Hst.
    destruct (safeTokenize clone defaultAttributes _languageIdCodec languageId
                (Some support) _ true lineStartState) as [r reported].
    set (e1 := with_store _ _).
    replace (invalidLineStartIndex (_tokenizationStateStore e1) - 1 + 1)
      with (invalidLineStartIndex (_tokenizationStateStore e1)) by lia.
    apply IH; [|exact Hend].
    change (_tokenizationStateStore e1)
      with (setEndState equals (getLineCount _textModel)
              (_invalidLineStartIndex (_tokenizationStateStore e)) (endState r)
              (_tokenizationStateStore e)).
    apply (tracking_tokenized equals _ _ lineStartState); [exact Htr| |exact Hst].
    unfold invalidLineStartIndex in *. lia.
Qed.

Lemma forceTokenization_tracked lineNumber e support :
  _tokenizationSupport e = Some support ->
  tracking equals (getLineCount _textModel) (_tokenizationStateStore e) ->
  lineNumber <= getLineCount _textModel ->
  exists builder e1,
    _updateTokensUntilLine equals clone defaultAttributes _textModel
      _languageIdCodec nullCloneError nullEndState
      [] lineNumber e = Some (builder, e1)
    /\ forceTokenization equals clone defaultAttributes _textModel
      _languageIdCodec nullCloneError nullEndState
         lineNumber e = Some (setTokens _textModel builder e1)
    /\ tracking equals (getLineCount _textModel) (_tokenizationStateStore e1)
    /\ lineNumber <= invalidLineStartIndex (_tokenizationStateStore e1).
Proof.
  intros Hs Htr Hn.
  destruct (_updateTokensUntilLine_loop_returns
              (Z.to_nat (lineNumber - 1 + 1
                         - invalidLineStartIndex (_tokenizationStateStore e)))
              support (getLanguageId _textModel) (lineNumber - 1) [] e Htr ltac:(lia))
    as (builder & e1 & Hrun & Htr1).
  assert (Hupd : _updateTokensUntilLine equals clone defaultAttributes _textModel
                   _languageIdCodec nullCloneError nullEndState [] lineNumber e
                   = Some (builder, e1)).
  { unfold _updateTokensUntilLine. rewrite Hs. exact Hrun. }
  exists builder, e1. split; [exact Hupd|].
  split; [unfold forceTokenization; rewrite Hupd; reflexivity|].
  split; [exact Htr1|].
  eapply _updateTokensUntilLine_exit; eassumption.
Qed.

(** X10.  With a tokenizer installed, over a store that the engine tracks,
    [forceTokenization lineNumber] returns for every line of the buffer (no
    begin state that it asserts to be there is missing); afterwards the
    frontier is at [lineNumber] or behind it, every line up to [lineNumber]
    is valid, and the store is tracked as before. *)
Theorem forceTokenization_reaches lineNumber e support :
  _tokenizationSupport e = Some support ->
  tracking equals (getLineCount _textModel) (_tokenizationStateStore e) ->
  lineNumber <= getLineCount _textModel ->
  exists e',
    forceTokenization equals clone defaultAttributes _textModel
      _languageIdCodec nullCloneError nullEndState
      lineNumber e = Some e'
    /\ lineNumber <= invalidLineStartIndex (_tokenizationStateStore e')
    /\ (forall n, 1 <= n <= lineNumber ->
          _isValid (_tokenizationStateStore e') (n - 1) = true)
    /\ tracking equals (getLineCount _textModel) (_tokenizationStateStore e').
Proof.
  intros Hs Htr Hn.
  destruct (forceTokenization_tracked lineNumber e support Hs Htr Hn)
    as (builder & e1 & _ & Hforce & Htr1 & Hreach).
  exists (setTokens _textModel builder e1).
  split; [exact Hforce|]. split; [exact Hreach|]. split; [|exact Htr1].
  intros n Hn1.
  destruct (tracking_tracked_ok equals _ _ Htr1) as (_ & _ & _ & _ & Hbelow & _).
  apply Hbelow. unfold invalidLineStartIndex in Hreach. simpl in *. lia.
Qed.

(** X11.  Whenever [forceTokenization lineNumber] returns, it has published
    one batch; the lines of the batch are in rising order, all of them
    behind the old frontier and none behind [lineNumber]; the frontier has
    not moved down. *)
Theorem forceTokenization_batch lineNumber e e' :
  forceTokenization equals clone defaultAttributes _textModel
    _languageIdCodec nullCloneError nullEndState
    lineNumber e = Some e' ->
  invalidLineStartIndex (_tokenizationStateStore e)
    <= invalidLineStartIndex (_tokenizationStateStore e')
  /\ exists batch completed,
       setTokensCalls e' = setTokensCalls e ++ [(batch, completed)]
       /\ Forall (fun ln => invalidLineStartIndex (_tokenizationStateStore e) < ln
                            <= lineNumber) (map fst batch)
       /\ Sorted Z.lt (map fst batch).
Proof.
  unfold forceTokenization, _updateTokensUntilLine. intros Hrun.
  destruct (_tokenizationSupport e) as [support|] eqn:Hs.
  - destruct (_updateTokensUntilLine_loop _ _ _ _ _ _ _ _ _ _ _ _ _ _ _)
      as [[builder e1]|] eqn:Hloop; [|discriminate].
    injection Hrun as <-.
    apply _updateTokensUntilLine_loop_facts in Hloop.
    destruct Hloop as (_ & Hc & Hf & lines & Hb & Hall & Hsorted).
    split; [exact Hf|].
    exists builder, (negb (_hasLinesToTokenize _textModel e1)).
    split; [unfold setTokens; simpl; rewrite Hc; reflexivity|].
    simpl in Hb. rewrite Hb. split; [|exact Hsorted].
    eapply Forall_impl; [exact Hall|]. cbv beta. intros ln Hln. lia.
  - injection Hrun as <-. split; [simpl; lia|].
    exists [], (negb (_hasLinesToTokenize _textModel e)).
    split; [reflexivity|]. split; constructor.
Qed.

(** X12.  [forceTokenization] twice is [forceTokenization] once: with a
    tokenizer installed, a second call for the same line returns, leaves
    the store as the first call left it, and publishes a batch without
    lines. *)
Theorem forceTokenization_idempotent lineNumber e e1 support :
  _tokenizationSupport e = Some support ->
  forceTokenization equals clone defaultAttributes _textModel
    _languageIdCodec nullCloneError nullEndState
    lineNumber e = Some e1 ->
  forceTokenization equals clone defaultAttributes _textModel
    _languageIdCodec nullCloneError nullEndState
    lineNumber e1 = Some (setTokens _textModel [] e1).
Proof.
  intros Hs Hrun. unfold forceTokenization in Hrun.
  destruct (_updateTokensUntilLine _ _ _ _ _ _ _ _ _ _) as [[builder e0]|] eqn:Hupd;
    [|discriminate].
  injection Hrun as <-.
  apply (_updateTokensUntilLine_exit _ _ _ _ _ _ _ _ _ _ support) in Hupd; [|exact Hs].
  unfold forceTokenization.
  rewrite _updateTokensUntilLine_tokenized; [reflexivity|exact Hupd].
Qed.

(** X13.  For a viewport that starts at the frontier or above it,
    [tokenizeViewport startLine endLine] is [forceTokenization endLine]. *)
Theorem tokenizeViewport_degrades startLine endLine e :
  startLine <= invalidLineStartIndex (_tokenizationStateStore e) ->
  tokenizeViewport equals clone defaultAttributes _textModel
    _languageIdCodec nullCloneError nullEndState
    startLine endLine e
  = forceTokenization equals clone defaultAttributes _textModel
    _languageIdCodec nullCloneError nullEndState
      endLine e.
Proof.
  intros Hstart. unfold tokenizeViewport, _tokenizeViewport, forceTokenization.
  destruct (_tokenizationSupport e) as [support|] eqn:Hs.
  - destruct (Z.leb_spec endLine (invalidLineStartIndex (_tokenizationStateStore e))).
    + rewrite _updateTokensUntilLine_tokenized by assumption. reflexivity.
    + destruct (Z.leb_spec startLine (invalidLineStartIndex (_tokenizationStateStore e)));
        [reflexivity|lia].
  - unfold _updateTokensUntilLine. rewrite Hs. reflexivity.
Qed.

(** [_updateTokensUntilLine] over a tracked store, with any builder. *)
Lemma _updateTokensUntilLine_tracked builder lineNumber e support :
  _tokenizationSupport e = Some support ->
  tracking equals (getLineCount _textModel) (_tokenizationStateStore e) ->
  lineNumber <= getLineCount _textModel ->
  exists builder' e1,
    _updateTokensUntilLine equals clone defaultAttributes _textModel
      _languageIdCodec nullCloneError nullEndState
      builder lineNumber e = Some (builder', e1)
    /\ tracking equals (getLineCount _textModel) (_tokenizationStateStore e1)
    /\ _tokenizationSupport e1 = _tokenizationSupport e
    /\ setTokensCalls e1 = setTokensCalls e
    /\ lineNumber <= invalidLineStartIndex (_tokenizationStateStore e1)
    /\ invalidLineStartIndex (_tokenizationStateStore e)
       <= invalidLineStartIndex (_tokenizationStateStore e1).
Proof.
  intros Hs Htr Hn.
  destruct (_updateTokensUntilLine_loop_returns
              (Z.to_nat (lineNumber - 1 + 1
                         - invalidLineStartIndex (_tokenizationStateStore e)))
              support (getLanguageId _textModel) (lineNumber - 1) builder e Htr
              ltac:(lia))
    as (builder' & e1 & Hrun & Htr1).
  assert (Hupd : _updateTokensUntilLine equals clone defaultAttributes _textModel
                   _languageIdCodec nullCloneError nullEndState builder lineNumber e
                   = Some (builder', e1)).
  { unfold _updateTokensUntilLine. rewrite Hs. exact Hrun. }
  destruct (_updateTokensUntilLine_loop_facts _ _ _ _ _ _ _ _ _ Hrun)
    as (Hs1 & Hc1 & Hf1 & _).
  exists builder', e1. split; [exact Hupd|]. split; [exact Htr1|].
  split; [exact Hs1|]. split; [exact Hc1|]. split; [|exact Hf1].
  eapply _updateTokensUntilLine_exit; eassumption.
Qed.

(** The third loop of the viewport mode keeps the store tracked: the lines
    it marks are behind the frontier. *)
Lemma viewportLines_loop_tracking n support languageId ln state builder e :
  tracking equals (getLineCount _textModel) (_tokenizationStateStore e) ->
  invalidLineStartIndex (_tokenizationStateStore e) < ln ->
  tracking equals (getLineCount _textModel)
    (_tokenizationStateStore
       (snd (viewportLines_loop clone defaultAttributes _textModel _languageIdCodec
               n support languageId ln state builder e))).
Proof.
  revert ln state builder e. induction n as [|m IH]; intros ln state builder e Htr Hlt.
  - exact Htr.
  - cbn [viewportLines_loop].
    destruct (safeTokenize clone defaultAttributes _languageIdCodec languageId
                (Some support) (getLineContent _textModel ln) true state)
      as [r reported].
    apply IH.
    + change (tracking equals (getLineCount _textModel)
                (setFakeTokens (ln - 1) (_tokenizationStateStore e))).
      apply tracking_fake; [exact Htr|]. unfold invalidLineStartIndex in Hlt. lia.
    + pose proof (_setValid_spec (ln - 1) false (_tokenizationStateStore e))
        as (_ & Hf & _).
      change (_invalidLineStartIndex (setFakeTokens (ln - 1) (_tokenizationStateStore e))
              < ln + 1).
      unfold setFakeTokens. cbv zeta in Hf. rewrite Hf.
      unfold invalidLineStartIndex in Hlt. lia.
Qed.

(** The viewport mode proper: what it returns and what it leaves alone. *)
Lemma tokenizeViewport_fake_run startLine endLine e support :
  _tokenizationSupport e = Some support ->
  0 <= invalidLineStartIndex (_tokenizationStateStore e) ->
  invalidLineStartIndex (_tokenizationStateStore e) < startLine ->
  invalidLineStartIndex (_tokenizationStateStore e) < endLine ->
  exists e',
    tokenizeViewport equals clone defaultAttributes _textModel
      _languageIdCodec nullCloneError nullEndState
      startLine endLine e = Some e'
    /\ _tokenizationSupport e' = _tokenizationSupport e
    /\ invalidLineStartIndex (_tokenizationStateStore e')
       = invalidLineStartIndex (_tokenizationStateStore e)
    /\ (forall j, getBeginState (_tokenizationStateStore e') j
                  = getBeginState (_tokenizationStateStore e) j)
    /\ (forall j, _isValid (_tokenizationStateStore e') j =
          if (startLine - 1 <=? j) && (j <=? endLine - 1) then false
          else _isValid (_tokenizationStateStore e) j)
    /\ (tracking equals (getLineCount _textModel) (_tokenizationStateStore e) ->
        tracking equals (getLineCount _textModel) (_tokenizationStateStore e')).
Proof.
  intros Hs H0 Hstart Hend.
  unfold tokenizeViewport, _tokenizeViewport. rewrite Hs.
  destruct (Z.leb_spec endLine (invalidLineStartIndex (_tokenizationStateStore e)));
    [lia|].
  destruct (Z.leb_spec startLine (invalidLineStartIndex (_tokenizationStateStore e)));
    [lia|].
  destruct (viewportPrefix_loop _ _ _ _ _) as [fakeLines initialState].
  destruct (viewportFakeLines_loop _ _ _ _ _ _ _ _) as [state reported].
  pose proof (viewportLines_loop_spec clone defaultAttributes _textModel _languageIdCodec
                (Z.to_nat (endLine - startLine + 1)) support (getLanguageId _textModel)
                startLine state [] (onUnexpectedError reported e))
    as (Hsup & _ & Hf & _ & Hv & Hb).
  pose proof (viewportLines_loop_tracking (Z.to_nat (endLine - startLine + 1)) support
                (getLanguageId _textModel) startLine state []
                (onUnexpectedError reported e)) as Htr.
  cbv zeta in *.
  destruct (viewportLines_loop _ _ _ _ _ _ _ _ _ _ _) as [batch e1].
  simpl fst in *. simpl snd in *.
  exists (setTokens _textModel batch e1).
  split; [reflexivity|]. split; [rewrite <- Hs; exact Hsup|]. split; [exact Hf|].
  split; [exact Hb|]. split.
  - intros j.
    change (_tokenizationStateStore (setTokens _textModel batch e1))
      with (_tokenizationStateStore e1).
    rewrite Hv by lia.
    change (_tokenizationStateStore (onUnexpectedError reported e))
      with (_tokenizationStateStore e).
    zcases.
  - intros Htracked. apply Htr; [exact Htracked|exact Hstart].
Qed.

(** X14.  In the viewport mode proper
    ([invalidFrontier < startLine <= endLine]) the begin states of the
    cache and the valid bits of the lines outside the viewport are left as
    they were, and so is the tokenizer. *)
Theorem tokenizeViewport_frame startLine endLine e support :
  _tokenizationSupport e = Some support ->
  0 <= invalidLineStartIndex (_tokenizationStateStore e) ->
  invalidLineStartIndex (_tokenizationStateStore e) < startLine <= endLine ->
  exists e',
    tokenizeViewport equals clone defaultAttributes _textModel
      _languageIdCodec nullCloneError nullEndState
      startLine endLine e = Some e'
    /\ _tokenizationSupport e' = _tokenizationSupport e
    /\ (forall j, getBeginState (_tokenizationStateStore e') j
                  = getBeginState (_tokenizationStateStore e) j)
    /\ (forall lineNumber, lineNumber < startLine \/ endLine < lineNumber ->
          _isValid (_tokenizationStateStore e') (lineNumber - 1)
          = _isValid (_tokenizationStateStore e) (lineNumber - 1)).
Proof.
  intros Hs H0 Hlines.
  destruct (tokenizeViewport_fake_run startLine endLine e support Hs H0)
    as (e' & Hrun & Hsup & _ & Hb & Hv & _); [lia..|].
  exists e'. split; [exact Hrun|]. split; [exact Hsup|]. split; [exact Hb|].
  intros lineNumber Hout. rewrite Hv. zcases.
Qed.

(** X15.  Fake tokens are superseded: with a tokenizer installed, over a
    tracked store, after [tokenizeViewport startLine endLine] in the
    viewport mode proper, [forceTokenization endLine] returns, and every
    line up to [endLine], the lines of the viewport among them, is valid
    afterwards. *)
Theorem tokenizeViewport_then_forceTokenization startLine endLine e support :
  _tokenizationSupport e = Some support ->
  tracking equals (getLineCount _textModel) (_tokenizationStateStore e) ->
  invalidLineStartIndex (_tokenizationStateStore e) < startLine <= endLine ->
  endLine <= getLineCount _textModel ->
  exists e1 e2,
    tokenizeViewport equals clone defaultAttributes _textModel
      _languageIdCodec nullCloneError nullEndState
      startLine endLine e = Some e1
    /\ (forall lineNumber, startLine <= lineNumber <= endLine ->
          _isValid (_tokenizationStateStore e1) (lineNumber - 1) = false)
    /\ forceTokenization equals clone defaultAttributes _textModel
      _languageIdCodec nullCloneError nullEndState
         endLine e1 = Some e2
    /\ (forall lineNumber, 1 <= lineNumber <= endLine ->
          _isValid (_tokenizationStateStore e2) (lineNumber - 1) = true).
Proof.
  intros Hs Htr Hlines HendL.
  destruct (tracking_tracked_ok equals _ _ Htr) as (_ & Hbd & _).
  unfold frontier_bounded in Hbd.
  destruct (tokenizeViewport_fake_run startLine endLine e support Hs)
    as (e1 & Hrun & Hsup & _ & _ & Hv & Htr1);
    [unfold invalidLineStartIndex; lia|lia..|].
  specialize (Htr1 Htr).
  destruct (_updateTokensUntilLine_tracked [] endLine e1 support)
    as (builder & e2 & Hupd & Htr2 & _ & _ & Hreach & _);
    [rewrite Hsup; exact Hs|exact Htr1|exact HendL|].
  exists e1, (setTokens _textModel builder e2).
  split; [exact Hrun|]. split.
  - intros lineNumber Hl. rewrite Hv. zcases.
  - split; [unfold forceTokenization; rewrite Hupd; reflexivity|].
    intros lineNumber Hl.
    destruct (tracking_tracked_ok equals _ _ Htr2) as (_ & _ & _ & _ & Hbelow & _).
    apply Hbelow. unfold invalidLineStartIndex in Hreach. simpl in *. lia.
Qed.

(** X16.  [isCheapToTokenize] is closed downwards: above a cheap line there
    are only cheap lines. *)
Theorem isCheapToTokenize_downward lineNumber lineNumber' e :
  lineNumber' < lineNumber ->
  isCheapToTokenize _textModel lineNumber e = true ->
  isCheapToTokenize _textModel lineNumber' e = true.
Proof.
  unfold isCheapToTokenize. intros Hlt.
  destruct (_tokenizationSupport e); [|reflexivity]. cbv zeta.
  destruct (Z.gtb_spec lineNumber
              (invalidLineStartIndex (_tokenizationStateStore e) + 1)); [discriminate|].
  intros _.
  destruct (Z.gtb_spec lineNumber'
              (invalidLineStartIndex (_tokenizationStateStore e) + 1)); [lia|].
  destruct (Z.ltb_spec lineNumber'
              (invalidLineStartIndex (_tokenizationStateStore e) + 1)); [reflexivity|lia].
Qed.

(** X17.  A line that [forceTokenization] was called for is cheap to
    tokenize afterwards. *)
Theorem isCheapToTokenize_after_forceTokenization lineNumber e e' :
  forceTokenization equals clone defaultAttributes _textModel
    _languageIdCodec nullCloneError nullEndState
    lineNumber e = Some e' ->
  isCheapToTokenize _textModel lineNumber e' = true.
Proof.
  intros Hrun. unfold forceTokenization in Hrun.
  destruct (_updateTokensUntilLine _ _ _ _ _ _ _ _ _ _) as [[builder e1]|] eqn:Hupd;
    [|discriminate].
  injection Hrun as <-.
  unfold isCheapToTokenize.
  change (_tokenizationSupport (setTokens _textModel builder e1))
    with (_tokenizationSupport e1).
  change (_tokenizationStateStore (setTokens _textModel builder e1))
    with (_tokenizationStateStore e1).
  destruct (_tokenizationSupport e1) as [support1|] eqn:Hs1; [|reflexivity].
  assert (Hs : _tokenizationSupport e = Some support1).
  { unfold _updateTokensUntilLine in Hupd.
    destruct (_tokenizationSupport e) as [support|] eqn:Hs.
    - apply _updateTokensUntilLine_loop_facts in Hupd.
      destruct Hupd as (Hsame & _). congruence.
    - injection Hupd as _ <-. congruence. }
  apply (_updateTokensUntilLine_exit _ _ _ _ _ _ _ _ _ _ support1) in Hupd; [|exact Hs].
  cbv zeta.
  destruct (Z.gtb_spec lineNumber
              (invalidLineStartIndex (_tokenizationStateStore e1) + 1)); [lia|].
  destruct (Z.ltb_spec lineNumber
              (invalidLineStartIndex (_tokenizationStateStore e1) + 1)); [reflexivity|lia].
Qed.

(** X18.  Without a tokenizer the engine does nothing: there are no lines
    to tokenize, [forceTokenization] and [tokenizeViewport] return with the
    store untouched and publish a batch without lines, flagged as complete,
    and the probe gives the default token type. *)
Theorem no_tokenizer_no_op lineNumber startLine endLine (position : Position)
  (character : string) e :
  _tokenizationSupport e = None ->
  _hasLinesToTokenize _textModel e = false
  /\ forceTokenization equals clone defaultAttributes _textModel
    _languageIdCodec nullCloneError nullEndState
       lineNumber e
     = Some (mkEngine (_tokenizationStateStore e) None (unexpectedErrors e)
               (setTokensCalls e ++ [([], true)]))
  /\ tokenizeViewport equals clone defaultAttributes _textModel
    _languageIdCodec nullCloneError nullEndState
       startLine endLine e
     = Some (mkEngine (_tokenizationStateStore e) None (unexpectedErrors e)
               (setTokensCalls e ++ [([], true)]))
  /\ getTokenTypeIfInsertingCharacter equals clone defaultAttributes getCount
       findTokenIndexAtOffset getStandardTokenType _textModel
         _languageIdCodec nullCloneError nullEndState
       position character e
     = Some (StandardTokenType.Other, e).
Proof.
  intros Hs.
  assert (Hno : _hasLinesToTokenize _textModel e = false).
  { unfold _hasLinesToTokenize. rewrite Hs. reflexivity. }
  split; [exact Hno|].
  split; [|split].
  - unfold forceTokenization, _updateTokensUntilLine. rewrite Hs.
    unfold setTokens. rewrite Hs, Hno. reflexivity.
  - unfold tokenizeViewport, _tokenizeViewport. rewrite Hs.
    unfold setTokens. rewrite Hs, Hno. reflexivity.
  - unfold getTokenTypeIfInsertingCharacter. rewrite Hs. reflexivity.
Qed.

End EngineExtras.

(** ** One line at a time, a background slice, reset and edits *)

Section BackgroundExtras.

Context {IState Error : Type}.
Variable equals : IState -> IState -> bool.
Variable clone : IState -> IState.
Variable defaultAttributes : Z -> Z.
Variable _textModel : TextModel.
Variable _languageIdCodec : ILanguageIdCodec.
Variable nullCloneError : Error.
Variable nullEndState : option IState.
Variable expired : nat -> bool.

Implicit Types (e : @TextModelTokenization IState Error)
  (support : @ITokenizationSupport IState Error) (builder : TokensBuilder).

Lemma _hasLinesToTokenize_spec e support :
  _tokenizationSupport e = Some support ->
  _hasLinesToTokenize _textModel e
  = (invalidLineStartIndex (_tokenizationStateStore e) <? getLineCount _textModel).
Proof. intros Hs. unfold _hasLinesToTokenize. rewrite Hs. reflexivity. Qed.

(** One round of tokenization over a tracked store. *)
Lemma _tokenizeOneInvalidLine_tracked builder e support :
  _tokenizationSupport e = Some support ->
  tracking equals (getLineCount _textModel) (_tokenizationStateStore e) ->
  _hasLinesToTokenize _textModel e = true ->
  exists builder' e',
    _tokenizeOneInvalidLine equals clone defaultAttributes _textModel
      _languageIdCodec nullCloneError nullEndState
      builder e
    = Some (invalidLineStartIndex (_tokenizationStateStore e) + 1, (builder', e'))
    /\ map fst builder'
       = map fst builder ++ [invalidLineStartIndex (_tokenizationStateStore e) + 1]
    /\ invalidLineStartIndex (_tokenizationStateStore e)
       < invalidLineStartIndex (_tokenizationStateStore e')
    /\ tracking equals (getLineCount _textModel) (_tokenizationStateStore e')
    /\ _tokenizationSupport e' = _tokenizationSupport e
    /\ setTokensCalls e' = setTokensCalls e
    /\ exists lineTokens,
         builder'
         = builder ++ [(invalidLineStartIndex (_tokenizationStateStore e) + 1, lineTokens)].
Proof.
  intros Hs Htr Hhas.
  rewrite (_hasLinesToTokenize_spec e support Hs) in Hhas.
  apply Z.ltb_lt in Hhas.
  destruct (tracking_tracked_ok equals _ _ Htr)
    as (_ & Hbd & _ & _ & _ & Hready & _).
  unfold frontier_bounded in Hbd.
  destruct (Hready (invalidLineStartIndex (_tokenizationStateStore e)))
    as [lineStartState Hst]; [unfold invalidLineStartIndex in *; lia..|].
  unfold _tokenizeOneInvalidLine.
  rewrite (_hasLinesToTokenize_spec e support Hs).
  destruct (Z.ltb_spec (invalidLineStartIndex (_tokenizationStateStore e))
              (getLineCount _textModel)); [|lia].
  cbn [negb]. cbv zeta.
  unfold _updateTokensUntilLine. rewrite Hs. cbv zeta.
  replace (Z.to_nat (invalidLineStartIndex (_tokenizationStateStore e) + 1 - 1 + 1
                     - invalidLineStartIndex (_tokenizationStateStore e)))
    with 1%nat by lia.
  cbn [_updateTokensUntilLine_loop].
  destruct (Z.leb_spec (invalidLineStartIndex (_tokenizationStateStore e))
              (invalidLineStartIndex (_tokenizationStateStore e) + 1 - 1)); [|lia].
  rewrite Hst.
  destruct (safeTokenize clone defaultAttributes _languageIdCodec
              (getLanguageId _textModel) (Some support) _ true lineStartState)
    as [r reported].
  eexists. eexists. split; [reflexivity|].
  split; [unfold builder_add; rewrite map_app; reflexivity|].
  pose proof (setEndState_frontier_lower_bound equals (getLineCount _textModel)
                (invalidLineStartIndex (_tokenizationStateStore e)) (endState r)
                (_tokenizationStateStore e)) as Hup.
  split; [unfold invalidLineStartIndex in *; simpl; lia|].
  split; [|split; [rewrite <- Hs; reflexivity|split; [reflexivity|]]].
  - apply (tracking_tokenized equals _ _ lineStartState);
      [exact Htr|unfold invalidLineStartIndex in *; lia|exact Hst].
  - exists (tokens r). reflexivity.
Qed.

(** X19.  With a tokenizer installed and lines left to tokenize, over a
    tracked store, [_tokenizeOneInvalidLine] tokenizes exactly the line at
    the frontier: it returns the number of that line, adds that one line to
    the builder, and moves the frontier up.  Without lines to tokenize it
    returns the line count plus one and changes nothing. *)
Theorem _tokenizeOneInvalidLine_one_line builder e support :
  _tokenizationSupport e = Some support ->
  tracking equals (getLineCount _textModel) (_tokenizationStateStore e) ->
  (_hasLinesToTokenize _textModel e = true ->
   exists builder' e',
     _tokenizeOneInvalidLine equals clone defaultAttributes _textModel
       _languageIdCodec nullCloneError nullEndState
       builder e
     = Some (invalidLineStartIndex (_tokenizationStateStore e) + 1, (builder', e'))
     /\ invalidLineStartIndex (_tokenizationStateStore e) + 1 <= getLineCount _textModel
     /\ map fst builder'
        = map fst builder ++ [invalidLineStartIndex (_tokenizationStateStore e) + 1]
     /\ invalidLineStartIndex (_tokenizationStateStore e)
        < invalidLineStartIndex (_tokenizationStateStore e'))
  /\ (_hasLinesToTokenize _textModel e = false ->
      _tokenizeOneInvalidLine equals clone defaultAttributes _textModel
        _languageIdCodec nullCloneError nullEndState
        builder e
      = Some (getLineCount _textModel + 1, (builder, e))).
Proof.
  intros Hs Htr. split.
  - intros Hhas.
    destruct (_tokenizeOneInvalidLine_tracked builder e support Hs Htr Hhas)
      as (builder' & e' & Hrun & Hb & Hf & _).
    exists builder', e'. split; [exact Hrun|]. split; [|auto].
    rewrite (_hasLinesToTokenize_spec e support Hs) in Hhas.
    apply Z.ltb_lt in Hhas. lia.
  - intros Hno. unfold _tokenizeOneInvalidLine. rewrite Hno. reflexivity.
Qed.

(** A slice over a tracked store returns.  Each round whose reading of the
    stop watch is not above one millisecond adds one line to the builder,
    so the lines added tell the readings taken: those of the rounds that
    added a line were not above one millisecond, and the loop was left
    because the next reading was, or because no lines are left.  If the
    first reading of the stop watch is not above one millisecond and there
    are lines, the frontier moves up. *)
Lemma slice_loop_spec fuel k builder e support :
  _tokenizationSupport e = Some support ->
  tracking equals (getLineCount _textModel) (_tokenizationStateStore e) ->
  (Z.to_nat (getLineCount _textModel
             - invalidLineStartIndex (_tokenizationStateStore e)) < fuel)%nat ->
  exists added e',
    slice_loop equals clone defaultAttributes _textModel _languageIdCodec
      nullCloneError nullEndState expired
      fuel k (getLineCount _textModel) builder e = Some (builder ++ added, e')
    /\ tracking equals (getLineCount _textModel) (_tokenizationStateStore e')
    /\ _tokenizationSupport e' = _tokenizationSupport e
    /\ setTokensCalls e' = setTokensCalls e
    /\ invalidLineStartIndex (_tokenizationStateStore e) + Z.of_nat (length added)
       <= invalidLineStartIndex (_tokenizationStateStore e')
    /\ (forall j, (k <= j < k + length added)%nat -> expired j = false)
    /\ (expired (k + length added) = true
        \/ _hasLinesToTokenize _textModel e' = false)
    /\ (expired k = false -> _hasLinesToTokenize _textModel e = true ->
        invalidLineStartIndex (_tokenizationStateStore e)
        < invalidLineStartIndex (_tokenizationStateStore e')).
Proof.
  revert k builder e. induction fuel as [|fuel IH]; intros k builder e Hs Htr Hfuel;
    [lia|].
  cbn [slice_loop].
  destruct (expired k) eqn:Hexp.
  { exists [], e. rewrite app_nil_r. simpl length. rewrite Nat.add_0_r.
    split; [reflexivity|]. split; [exact Htr|].
    split; [reflexivity|]. split; [reflexivity|]. split; [lia|].
    split; [intros j Hj; lia|].
    split; [left; exact Hexp|]. discriminate. }
  destruct (_hasLinesToTokenize _textModel e) eqn:Hhas.
  - destruct (_tokenizeOneInvalidLine_tracked builder e support Hs Htr Hhas)
      as (b1 & e1 & Hrun & _ & Hf1 & Htr1 & Hs1 & Hc1 & lineTokens & Hb1).
    rewrite Hrun. subst b1.
    assert (Hs1' : _tokenizationSupport e1 = Some support) by congruence.
    destruct (Z.geb_spec (invalidLineStartIndex (_tokenizationStateStore e) + 1)
                (getLineCount _textModel)) as [Hge|Hlt].
    + eexists [_], e1. simpl length.
      split; [reflexivity|]. split; [exact Htr1|].
      split; [exact Hs1|]. split; [exact Hc1|]. split; [lia|].
      split; [intros j Hj; replace j with k by lia; exact Hexp|].
      split; [|intros _ _; exact Hf1].
      right. rewrite (_hasLinesToTokenize_spec e1 support Hs1').
      apply Z.ltb_ge. lia.
    + destruct (_hasLinesToTokenize _textModel e1) eqn:Hhas1.
      * destruct (IH (S k)
                    (builder
                     ++ [(invalidLineStartIndex (_tokenizationStateStore e) + 1,
                          lineTokens)])
                    e1 Hs1' Htr1)
          as (added & e' & Hrun' & Htr' & Hs' & Hc' & Hf' & Hread & Hexit & _); [lia|].
        exists ((invalidLineStartIndex (_tokenizationStateStore e) + 1, lineTokens)
                :: added), e'.
        split; [rewrite Hrun', <- app_assoc; reflexivity|]. split; [exact Htr'|].
        split; [congruence|]. split; [congruence|].
        simpl length. split; [lia|].
        split.
        -- intros j Hj. destruct (Nat.eq_dec j k) as [->|Hne]; [exact Hexp|].
           apply Hread. lia.
        -- split; [|intros _ _; lia].
           replace (k + S (length added))%nat with (S k + length added)%nat by lia.
           exact Hexit.
      * eexists [_], e1. simpl length.
        split; [reflexivity|]. split; [exact Htr1|].
        split; [exact Hs1|]. split; [exact Hc1|]. split; [lia|].
        split; [intros j Hj; replace j with k by lia; exact Hexp|].
        split; [right; exact Hhas1|intros _ _; exact Hf1].
  - unfold _tokenizeOneInvalidLine. rewrite Hhas. cbn [negb].
    destruct (Z.geb_spec (getLineCount _textModel + 1) (getLineCount _textModel)); [|lia].
    exists [], e. rewrite app_nil_r. simpl length.
    split; [reflexivity|]. split; [exact Htr|].
    split; [reflexivity|]. split; [reflexivity|]. split; [lia|].
    split; [intros j Hj; lia|].
    split; [right; exact Hhas|]. intros _ Hcontra. discriminate.
Qed.

(** The loop of a slice is left through one of its exits: the rounds
    granted are enough. *)
Lemma slice_loop_exit k builder e support :
  _tokenizationSupport e = Some support ->
  tracking equals (getLineCount _textModel) (_tokenizationStateStore e) ->
  exists builder' e',
    slice_loop equals clone defaultAttributes _textModel _languageIdCodec
      nullCloneError nullEndState expired
      (S (Z.to_nat (getLineCount _textModel
                    - invalidLineStartIndex (_tokenizationStateStore e))))
      k (getLineCount _textModel) builder e = Some (builder', e')
    /\ ((exists k', (k <= k')%nat /\ expired k' = true)
        \/ _hasLinesToTokenize _textModel e' = false).
Proof.
  intros Hs Htr.
  destruct (slice_loop_spec
              (S (Z.to_nat (getLineCount _textModel
                            - invalidLineStartIndex (_tokenizationStateStore e))))
              k builder e support Hs Htr ltac:(lia))
    as (added & e' & Hrun & _ & _ & _ & _ & _ & Hexit & _).
  exists (builder ++ added), e'. split; [exact Hrun|].
  destruct Hexit as [Hexp|Hdone]; [left|right; exact Hdone].
  exists (k + length added)%nat. split; [lia|exact Hexp].
Qed.

(** X20.  A background slice, with a tokenizer installed over a tracked
    store, returns and publishes one batch.  It makes progress: when there
    are lines to tokenize and the first reading of the stop watch is not
    above one millisecond, the frontier moves up, and it moves up by at
    least one line for each line of the batch.  The batch tells the
    readings that the loop took: with [k] lines in the batch, the readings
    [0 .. k - 1] were not above one millisecond, and the loop was left
    because reading [k] was above one millisecond, or because no lines are
    left; the batch is flagged as complete exactly when the frontier is at
    the line count. *)
Theorem _backgroundTokenizeForAtLeast1ms_progress e support :
  _tokenizationSupport e = Some support ->
  tracking equals (getLineCount _textModel) (_tokenizationStateStore e) ->
  exists e' batch completed,
    _backgroundTokenizeForAtLeast1ms equals clone defaultAttributes _textModel
      _languageIdCodec nullCloneError nullEndState expired e = Some e'
    /\ setTokensCalls e' = setTokensCalls e ++ [(batch, completed)]
    /\ tracking equals (getLineCount _textModel) (_tokenizationStateStore e')
    /\ (expired 0%nat = false -> _hasLinesToTokenize _textModel e = true ->
        invalidLineStartIndex (_tokenizationStateStore e)
        < invalidLineStartIndex (_tokenizationStateStore e'))
    /\ invalidLineStartIndex (_tokenizationStateStore e) + Z.of_nat (length batch)
       <= invalidLineStartIndex (_tokenizationStateStore e')
    /\ (forall j, (j < length batch)%nat -> expired j = false)
    /\ (expired (length batch) = true
        \/ invalidLineStartIndex (_tokenizationStateStore e') = getLineCount _textModel)
    /\ (completed = true
        <-> invalidLineStartIndex (_tokenizationStateStore e') = getLineCount _textModel).
Proof.
  intros Hs Htr. unfold _backgroundTokenizeForAtLeast1ms. cbv zeta.
  destruct (slice_loop_spec
              (S (Z.to_nat (getLineCount _textModel
                            - invalidLineStartIndex (_tokenizationStateStore e))))
              0%nat [] e support Hs Htr ltac:(lia))
    as (batch & e' & Hrun & Htr' & Hs' & Hc' & Hf' & Hread & Hexit & Hprog).
  rewrite Hrun, app_nil_l.
  assert (Hhas : _hasLinesToTokenize _textModel e'
                 = (invalidLineStartIndex (_tokenizationStateStore e')
                    <? getLineCount _textModel)).
  { apply (_hasLinesToTokenize_spec e' support). congruence. }
  destruct (tracking_tracked_ok equals _ _ Htr') as (_ & _ & HfL & _).
  exists (setTokens _textModel batch e'), batch,
    (negb (_hasLinesToTokenize _textModel e')).
  change (_tokenizationStateStore (setTokens _textModel batch e'))
    with (_tokenizationStateStore e').
  split; [reflexivity|].
  split; [unfold setTokens; simpl; rewrite Hc'; reflexivity|].
  split; [exact Htr'|]. split; [exact Hprog|]. split; [exact Hf'|].
  split; [intros j Hj; apply Hread; lia|].
  split.
  - destruct Hexit as [Hexp|Hdone]; [left; exact Hexp|right].
    rewrite Hhas in Hdone. apply Z.ltb_ge in Hdone.
    unfold invalidLineStartIndex in *. lia.
  - rewrite Hhas.
    destruct (Z.ltb_spec (invalidLineStartIndex (_tokenizationStateStore e'))
                (getLineCount _textModel)) as [Hlt|Hge]; simpl.
    + split; [discriminate|]. intros Heq. lia.
    + split; [intros _|reflexivity]. unfold invalidLineStartIndex in *. lia.
Qed.

(** X21.  [initializeTokenization] gives a tokenizer and an initial state
    together or not at all.  A model that is too large gets none, whatever
    the registry holds, and nothing is reported; a tokenizer whose
    [getInitialState] throws is dropped and the error reported; otherwise
    the tokenizer of the registry is installed, with the state it gave as
    initial state, and nothing is reported. *)
Theorem initializeTokenization_outcomes (isTooLarge : bool)
  (registryGet : option (@RegisteredSupport IState Error)) :
  let '((tokenizationSupport, initialState), reported) :=
    initializeTokenization isTooLarge registryGet in
  (tokenizationSupport = None <-> initialState = None)
  /\ (isTooLarge = true -> tokenizationSupport = None /\ reported = [])
  /\ (forall registered err,
        isTooLarge = false -> registryGet = Some registered ->
        registered_getInitialState registered = inl err ->
        tokenizationSupport = None /\ reported = [err])
  /\ (forall registered st,
        isTooLarge = false -> registryGet = Some registered ->
        registered_getInitialState registered = inr st ->
        tokenizationSupport = Some (installed registered st)
        /\ initialState = Some st /\ reported = []).
Proof.
  unfold initializeTokenization.
  destruct isTooLarge.
  - repeat split; try discriminate; intros; discriminate.
  - destruct registryGet as [registered0|].
    + destruct (registered_getInitialState registered0) as [err0|st0] eqn:Hinit.
      * split; [split; reflexivity|]. split; [discriminate|]. split.
        -- intros registered err _ Hreg Hthrow. injection Hreg as <-.
           rewrite Hinit in Hthrow. injection Hthrow as <-. auto.
        -- intros registered st _ Hreg Hok. injection Hreg as <-. congruence.
      * split; [split; discriminate|]. split; [discriminate|]. split.
        -- intros registered err _ Hreg Hthrow. injection Hreg as <-. congruence.
        -- intros registered st _ Hreg Hok. injection Hreg as <-.
           rewrite Hinit in Hok. injection Hok as <-. auto.
    + split; [split; reflexivity|]. split; [discriminate|].
      split; intros; discriminate.
Qed.

(** X22.  After a reset that installs a tokenizer, the store is empty but
    for the initial state of the tokenizer, cached for line 1, the frontier
    is 0, and the store is tracked for every buffer (which has a line at
    least): [forceTokenization] returns for each of its lines. *)
Theorem _resetTokenizationState_ready (isTooLarge : bool)
  (registryGet : option (@RegisteredSupport IState Error)) e support lineNumber :
  _tokenizationSupport (_resetTokenizationState isTooLarge registryGet e) = Some support ->
  1 <= getLineCount _textModel ->
  lineNumber <= getLineCount _textModel ->
  let e0 := _resetTokenizationState isTooLarge registryGet e in
  invalidLineStartIndex (_tokenizationStateStore e0) = 0
  /\ (forall j, getBeginState (_tokenizationStateStore e0) j
                = if j =? 0 then Some (getInitialState support) else None)
  /\ (forall j, _isValid (_tokenizationStateStore e0) j = false)
  /\ exists e',
       forceTokenization equals clone defaultAttributes _textModel
         _languageIdCodec nullCloneError nullEndState
         lineNumber e0 = Some e'
       /\ lineNumber <= invalidLineStartIndex (_tokenizationStateStore e').
Proof.
  intros Hs HL Hn. cbv zeta.
  unfold _resetTokenizationState, initializeTokenization in *.
  destruct isTooLarge; [discriminate|].
  destruct registryGet as [registered|]; [|discriminate].
  destruct (registered_getInitialState registered) as [err|st]; [discriminate|].
  simpl in Hs. injection Hs as <-.
  cbn [_tokenizationStateStore getInitialState installed].
  destruct (flush_spec (Some st) (_tokenizationStateStore e)) as (Hf & _ & Hv & Hb).
  cbv zeta in *.
  split; [exact Hf|]. split; [exact Hb|]. split; [exact Hv|].
  set (e0 := mkEngine _ _ _ _).
  destruct (forceTokenization_tracked equals clone defaultAttributes _textModel
              _languageIdCodec nullCloneError nullEndState lineNumber e0
              (installed registered st))
    as (builder & e1 & _ & Hforce & _ & Hreach);
    [reflexivity|apply tracking_reset; exact HL|exact Hn|].
  exists (setTokens _textModel builder e1). split; [exact Hforce|exact Hreach].
Qed.

(** Each change of a list that fits the buffer keeps the store tracked, for
    the line count that the change leaves. *)
Lemma applyChanges_tracked (changes : list (IRange * Z)) linesLength e :
  changes_ok changes linesLength ->
  tracking equals linesLength (_tokenizationStateStore e) ->
  tracking equals (lineCountAfter changes linesLength)
    (_tokenizationStateStore (applyChanges changes e))
  /\ _tokenizationSupport (applyChanges changes e) = _tokenizationSupport e
  /\ setTokensCalls (applyChanges changes e) = setTokensCalls e.
Proof.
  revert linesLength e. induction changes as [|[range eolCount] changes IH];
    intros linesLength e Hok Htr.
  - simpl. auto.
  - destruct Hok as (Hr & Hend & He & Hok). cbn [applyChanges lineCountAfter].
    destruct (IH _ (with_store (applyEdits range eolCount (_tokenizationStateStore e)) e)
                Hok) as (Htr' & Hs' & Hc').
    + apply tracking_edit; assumption.
    + split; [exact Htr'|]. split; [exact Hs'|exact Hc'].
Qed.

(** X23.  The changes of the buffer keep the store tracked: after a list of
    changes that fits the buffer, the store is tracked for the line count
    that the changes leave, so that the frontier is within the new buffer,
    all entries below it are valid, and the begin states that tokenization
    reads next are cached.  The tokenizer and the published batches are
    left alone. *)
Theorem applyChanges_keeps_tracking (changes : list (IRange * Z)) linesLength e :
  changes_ok changes linesLength ->
  tracking equals linesLength (_tokenizationStateStore e) ->
  let e' := applyChanges changes e in
  let linesLength' := lineCountAfter changes linesLength in
  tracking equals linesLength' (_tokenizationStateStore e')
  /\ 0 <= _invalidLineStartIndex (_tokenizationStateStore e') <= linesLength'
  /\ below_frontier_valid (_tokenizationStateStore e')
  /\ begin_states_ready linesLength' (_tokenizationStateStore e')
  /\ _tokenizationSupport e' = _tokenizationSupport e
  /\ setTokensCalls e' = setTokensCalls e.
Proof.
  intros Hok Htr. cbv zeta.
  destruct (applyChanges_tracked changes linesLength e Hok Htr) as (Htr' & Hs' & Hc').
  destruct (tracking_tracked_ok equals _ _ Htr') as (_ & Hbd & HfL & _ & Hbelow & Hready).
  unfold frontier_bounded in Hbd.
  split; [exact Htr'|]. split; [lia|]. auto.
Qed.

End BackgroundExtras.

(** ** The prefix of a viewport, and the errors of a run *)

Section PrefixAndErrors.

Context {IState Error : Type}.
Variable equals : IState -> IState -> bool.
Variable clone : IState -> IState.
Variable defaultAttributes : Z -> Z.
Variable _textModel : TextModel.
Variable _languageIdCodec : ILanguageIdCodec.
Variable nullCloneError : Error.
Variable nullEndState : option IState.

Implicit Types (e : @TextModelTokenization IState Error)
  (support : @ITokenizationSupport IState Error) (builder : TokensBuilder)
  (store : @TokenizationStateStore IState).

Lemma viewportPrefix_loop_spec n store col acc :
  exists collected,
    fst (viewportPrefix_loop _textModel n store col acc) = acc ++ collected
    /\ Forall (fun line => exists i,
                 1 <= i <= Z.of_nat n
                 /\ line = getLineContent _textModel i
                 /\ getLineFirstNonWhitespaceColumn _textModel i <> 0
                 /\ getLineFirstNonWhitespaceColumn _textModel i < col
                 /\ getBeginState store (i - 1) = None) collected
    /\ (forall st, snd (viewportPrefix_loop _textModel n store col acc) = Some st ->
          exists i,
            1 <= i <= Z.of_nat n
            /\ getBeginState store (i - 1) = Some st
            /\ getLineFirstNonWhitespaceColumn _textModel i <> 0
            /\ getLineFirstNonWhitespaceColumn _textModel i < col)
    /\ (col <= 1 -> collected = []
                    /\ snd (viewportPrefix_loop _textModel n store col acc) = None).
Proof.
  revert col acc. induction n as [|m IH]; intros col acc.
  - exists []. simpl. rewrite app_nil_r. repeat split; try constructor; discriminate.
  - cbn [viewportPrefix_loop]. cbv zeta.
    destruct (Z.gtb_spec col 1) as [Hcol|Hcol].
    2:{ exists []. simpl. rewrite app_nil_r. repeat split; try constructor; discriminate. }
    set (i := Z.of_nat (S m)).
    assert (Hweaken : forall col' acc',
              col' <= col ->
              exists collected,
                fst (viewportPrefix_loop _textModel m store col' acc') = acc' ++ collected
                /\ Forall (fun line => exists i0,
                     1 <= i0 <= i
                     /\ line = getLineContent _textModel i0
                     /\ getLineFirstNonWhitespaceColumn _textModel i0 <> 0
                     /\ getLineFirstNonWhitespaceColumn _textModel i0 < col
                     /\ getBeginState store (i0 - 1) = None) collected
                /\ (forall st,
                      snd (viewportPrefix_loop _textModel m store col' acc') = Some st ->
                      exists i0,
                        1 <= i0 <= i
                        /\ getBeginState store (i0 - 1) = Some st
                        /\ getLineFirstNonWhitespaceColumn _textModel i0 <> 0
                        /\ getLineFirstNonWhitespaceColumn _textModel i0 < col)).
    { intros col' acc' Hle.
      destruct (IH col' acc') as (collected & Hfst & Hall & Hanchor & _).
      exists collected. split; [exact Hfst|]. split.
      - eapply Forall_impl; [exact Hall|]. cbv beta.
        intros line (i0 & Hi0 & Hline & Hnz & Hlt & Hnone).
        exists i0. unfold i. repeat split; try assumption; lia.
      - intros st Hst. destruct (Hanchor st Hst) as (i0 & Hi0 & Hb & Hnz & Hlt).
        exists i0. unfold i. repeat split; try assumption; lia. }
    destruct (Z.eqb_spec (getLineFirstNonWhitespaceColumn _textModel i) 0) as [Hz|Hnz].
    { destruct (Hweaken col acc ltac:(lia)) as (collected & H1 & H2 & H3).
      exists collected. split; [exact H1|]. split; [exact H2|]. split; [exact H3|]. lia. }
    destruct (Z.ltb_spec (getLineFirstNonWhitespaceColumn _textModel i) col) as [Hlt|Hge].
    2:{ destruct (Hweaken col acc ltac:(lia)) as (collected & H1 & H2 & H3).
        exists collected. split; [exact H1|]. split; [exact H2|]. split; [exact H3|]. lia. }
    destruct (getBeginState store (i - 1)) as [initialState|] eqn:Hb.
    + exists []. simpl. rewrite app_nil_r. split; [reflexivity|].
      split; [constructor|]. split; [|lia].
      intros st Hst. injection Hst as <-. exists i. unfold i at 1 2.
      repeat split; try assumption; lia.
    + destruct (Hweaken (getLineFirstNonWhitespaceColumn _textModel i)
                  (acc ++ [getLineContent _textModel i]) ltac:(lia))
        as (collected & H1 & H2 & H3).
      exists (getLineContent _textModel i :: collected).
      split; [rewrite H1, <- app_assoc; reflexivity|].
      split; [|split; [exact H3|lia]].
      constructor; [|exact H2].
      exists i. unfold i at 1 2. repeat split; try assumption; lia.
Qed.

(** X24.  The walk up from a viewport: every line it collects is a line
    above the viewport that is not blank, is indented less than the first
    line of the viewport, and has no cached begin state; the state it ends
    on, if any, is the cached begin state of such a line that has one.
    When the first line of the viewport is not indented, nothing is
    collected and no state is found. *)
Theorem viewportPrefix_loop_collects startLine store :
  let n := Z.to_nat (startLine - 1) in
  let col := getLineFirstNonWhitespaceColumn _textModel startLine in
  let '(fakeLines, anchor) := viewportPrefix_loop _textModel n store col [] in
  Forall (fun line => exists i,
            1 <= i < startLine
            /\ line = getLineContent _textModel i
            /\ getLineFirstNonWhitespaceColumn _textModel i <> 0
            /\ getLineFirstNonWhitespaceColumn _textModel i < col
            /\ getBeginState store (i - 1) = None) fakeLines
  /\ (forall st, anchor = Some st ->
        exists i,
          1 <= i < startLine
          /\ getBeginState store (i - 1) = Some st
          /\ getLineFirstNonWhitespaceColumn _textModel i <> 0
          /\ getLineFirstNonWhitespaceColumn _textModel i < col)
  /\ (col <= 1 -> fakeLines = [] /\ anchor = None).
Proof.
  cbv zeta.
  destruct (viewportPrefix_loop_spec (Z.to_nat (startLine - 1)) store
              (getLineFirstNonWhitespaceColumn _textModel startLine) [])
    as (collected & Hfst & Hall & Hanchor & Hflat).
  destruct (viewportPrefix_loop _ _ _ _ _) as [fakeLines anchor].
  simpl in *. subst fakeLines.
  split; [|split; [|exact Hflat]].
  - eapply Forall_impl; [exact Hall|]. cbv beta.
    intros line (i & Hi & Hrest). exists i. split; [lia|exact Hrest].
  - intros st Hst. destruct (Hanchor st Hst) as (i & Hi & Hrest).
    exists i. split; [lia|exact Hrest].
Qed.

Lemma safeTokenize_reports_at_most_one languageId
  (tokenizationSupport : option (@ITokenizationSupport IState Error)) text hasEOL
  (state : IState) :
  (length (snd (safeTokenize clone defaultAttributes _languageIdCodec languageId
                  tokenizationSupport text hasEOL state)) <= 1)%nat
  /\ ((forall support, tokenizationSupport = Some support ->
         exists r, tokenizeEncoded support text hasEOL (clone state) = inr r) ->
      snd (safeTokenize clone defaultAttributes _languageIdCodec languageId
             tokenizationSupport text hasEOL state) = []).
Proof.
  unfold safeTokenize. destruct tokenizationSupport as [support|].
  - destruct (tokenizeEncoded support text hasEOL (clone state)) as [err|r] eqn:Hrun.
    + split; [simpl; lia|]. intros H. destruct (H support eq_refl) as [r Hr]. congruence.
    + split; [simpl; lia|]. reflexivity.
  - split; [simpl; lia|]. reflexivity.
Qed.

(** With a tokenizer, what [safeTokenize] reports is what the tokenizer
    threw. *)
Lemma safeTokenize_reports_thrown languageId
  (support : @ITokenizationSupport IState Error) text hasEOL (state : IState) :
  snd (safeTokenize clone defaultAttributes _languageIdCodec languageId
         (Some support) text hasEOL state)
  = match tokenizeEncoded support text hasEOL (clone state) with
    | inl err => [err]
    | inr _ => []
    end.
Proof.
  unfold safeTokenize.
  destruct (tokenizeEncoded support text hasEOL (clone state)); reflexivity.
Qed.

(** Over a store that the engine tracks, the loop of
    [_updateTokensUntilLine] returns whatever the tokenizer does, and the
    errors it reports are those that the tokenizer threw, at most one for
    each line that it adds to the builder. *)
Lemma _updateTokensUntilLine_loop_tracked_errors fuel
  (support : @ITokenizationSupport IState Error) languageId endLineIndex
  (builder : TokensBuilder) (e : @TextModelTokenization IState Error) :
  tracking equals (getLineCount _textModel) (_tokenizationStateStore e) ->
  endLineIndex < getLineCount _textModel ->
  exists added reported e',
    _updateTokensUntilLine_loop equals clone defaultAttributes _textModel
      _languageIdCodec nullCloneError nullEndState
      fuel support languageId (getLineCount _textModel) endLineIndex
      (invalidLineStartIndex (_tokenizationStateStore e)) builder e
    = Some (builder ++ added, e')
    /\ unexpectedErrors e' = unexpectedErrors e ++ reported
    /\ (length reported <= length added)%nat
    /\ Forall (fun err => exists text st, tokenizeEncoded support text true st = inl err)
         reported
    /\ ((forall text st, exists err, tokenizeEncoded support text true st = inl err) ->
        length reported = length added).
Proof.
  revert builder e. induction fuel as [|fuel IH]; intros builder e Htr Hend.
  - exists [], [], e. rewrite !app_nil_r. simpl.
    split; [reflexivity|]. split; [reflexivity|]. split; [lia|].
    split; [constructor|reflexivity].
  - cbn [_updateTokensUntilLine_loop].
    destruct (Z.leb_spec (invalidLineStartIndex (_tokenizationStateStore e)) endLineIndex)
      as [Hle|Hgt].
    + destruct (tracking_tracked_ok equals _ _ Htr)
        as (_ & Hbd & _ & _ & _ & Hready & _).
      unfold frontier_bounded in Hbd.
      destruct (Hready (invalidLineStartIndex (_tokenizationStateStore e)))
        as [lineStartState Hst]; [unfold invalidLineStartIndex in *; lia..|].
      rewrite Hst.
      pose proof (safeTokenize_reports_thrown languageId support
                    (getLineContent _textModel
                       (invalidLineStartIndex (_tokenizationStateStore e) + 1))
                    true lineStartState) as Hthrown.
      destruct (safeTokenize clone defaultAttributes _languageIdCodec languageId
                  (Some support) _ true lineStartState) as [r reported1].
      simpl in Hthrown.
      set (e1 := with_store _ _).
      replace (invalidLineStartIndex (_tokenizationStateStore e1) - 1 + 1)
        with (invalidLineStartIndex (_tokenizationStateStore e1)) by lia.
      destruct (IH (builder_add builder
                      (invalidLineStartIndex (_tokenizationStateStore e) + 1) (tokens r))
                   e1) as (added & reported & e' & Hrun & He & Hlen & Hall & Hevery).
      { change (_tokenizationStateStore e1)
          with (setEndState equals (getLineCount _textModel)
                  (_invalidLineStartIndex (_tokenizationStateStore e)) (endState r)
                  (_tokenizationStateStore e)).
        apply (tracking_tokenized equals _ _ lineStartState); [exact Htr| |exact Hst].
        unfold invalidLineStartIndex in *. lia. }
      { exact Hend. }
      exists ((invalidLineStartIndex (_tokenizationStateStore e) + 1, tokens r) :: added),
        (reported1 ++ reported), e'.
      split; [rewrite Hrun; unfold builder_add; rewrite <- app_assoc; reflexivity|].
      split; [rewrite He; simpl; rewrite <- app_assoc; reflexivity|].
      destruct (tokenizeEncoded support _ true (clone lineStartState))
        as [err|r'] eqn:Hcall; subst reported1.
      * split; [simpl; lia|]. split.
        -- constructor; [|exact Hall]. eauto.
        -- intros Hthrows. simpl. rewrite (Hevery Hthrows). reflexivity.
      * split; [simpl; lia|]. split; [exact Hall|].
        intros Hthrows. destruct (Hthrows
          (getLineContent _textModel
             (invalidLineStartIndex (_tokenizationStateStore e) + 1))
          (clone lineStartState)) as [err Herr]. congruence.
    + exists [], [], e. rewrite !app_nil_r.
      split; [reflexivity|]. split; [reflexivity|]. split; [simpl; lia|].
      split; [constructor|reflexivity].
Qed.

(** X25.  A tokenizer that throws does not stop [forceTokenization].  With
    a tokenizer installed, over a store that the engine tracks, the call
    returns for every line of the buffer with the frontier at [lineNumber]
    or behind it, whatever the tokenizer does.  It publishes one batch; the
    errors it hands to [onUnexpectedError] are errors that the tokenizer
    threw on a line, at most one for each line of the batch: none when the
    tokenizer never throws, and one for each line of the batch when it
    always does. *)
Theorem forceTokenization_errors lineNumber
  (e : @TextModelTokenization IState Error) (support : @ITokenizationSupport IState Error) :
  _tokenizationSupport e = Some support ->
  tracking equals (getLineCount _textModel) (_tokenizationStateStore e) ->
  lineNumber <= getLineCount _textModel ->
  exists e' batch completed reported,
    forceTokenization equals clone defaultAttributes _textModel
      _languageIdCodec nullCloneError nullEndState lineNumber e = Some e'
    /\ lineNumber <= invalidLineStartIndex (_tokenizationStateStore e')
    /\ setTokensCalls e' = setTokensCalls e ++ [(batch, completed)]
    /\ unexpectedErrors e' = unexpectedErrors e ++ reported
    /\ (length reported <= length batch)%nat
    /\ Forall (fun err => exists text st, tokenizeEncoded support text true st = inl err)
         reported
    /\ ((forall text st, exists r, tokenizeEncoded support text true st = inr r) ->
        reported = [])
    /\ ((forall text st, exists err, tokenizeEncoded support text true st = inl err) ->
        length reported = length batch).
Proof.
  intros Hs Htr Hn.
  destruct (_updateTokensUntilLine_loop_tracked_errors
              (Z.to_nat (lineNumber - 1 + 1
                         - invalidLineStartIndex (_tokenizationStateStore e)))
              support (getLanguageId _textModel) (lineNumber - 1) [] e Htr ltac:(lia))
    as (batch & reported & e1 & Hloop & He & Hlen & Hall & Hevery).
  rewrite app_nil_l in Hloop.
  assert (Hupd : _updateTokensUntilLine equals clone defaultAttributes _textModel
                   _languageIdCodec nullCloneError nullEndState [] lineNumber e
                 = Some (batch, e1)).
  { unfold _updateTokensUntilLine. rewrite Hs. exact Hloop. }
  pose proof (_updateTokensUntilLine_exit equals clone defaultAttributes _textModel
                _languageIdCodec nullCloneError nullEndState [] lineNumber e support
                batch e1 Hs Hupd) as Hreach.
  apply _updateTokensUntilLine_loop_facts in Hloop. destruct Hloop as (_ & Hc & _).
  exists (setTokens _textModel batch e1), batch,
    (negb (_hasLinesToTokenize _textModel e1)), reported.
  split; [unfold forceTokenization; rewrite Hupd; reflexivity|].
  split; [exact Hreach|].
  split; [unfold setTokens; simpl; rewrite Hc; reflexivity|].
  split; [exact He|]. split; [exact Hlen|]. split; [exact Hall|].
  split; [|exact Hevery].
  intros Hok. destruct reported as [|err reported']; [reflexivity|].
  apply Forall_cons in Hall. destruct Hall as [(text & st & Herr) _].
  destruct (Hok text st) as [r Hr]. congruence.
Qed.

End PrefixAndErrors.

(** ** An edit inside a line, and the line tokenized again *)

Section EditThenTokenize.

Context {IState : Type}.
Variable equals : IState -> IState -> bool.

Implicit Types (s : @TokenizationStateStore IState) (i j linesLength : Z).

(** X29.  What typing inside a tokenized line costs.  Over a tracked store,
    an edit inside line [n] (no line removed, no line break inserted) puts
    the frontier on that line; and when the line is then tokenized again to
    an end state that equals the cached begin state of the next line, the
    frontier is back where it was before the edit, or further: one line is
    tokenized, and no other. *)
Theorem edit_in_line_then_skip_ahead linesLength n (startColumn endColumn : Z)
  (endState p : IState) s :
  tracking equals linesLength s ->
  1 <= n <= _invalidLineStartIndex s ->
  getBeginState s n = Some p ->
  equals endState p = true ->
  let edited := applyEdits (mkRange n startColumn n endColumn) 0 s in
  let tokenized := setEndState equals linesLength (n - 1) endState edited in
  _invalidLineStartIndex edited = n - 1
  /\ (forall j, j <> n - 1 -> _isValid edited j = _isValid s j)
  /\ _invalidLineStartIndex s <= _invalidLineStartIndex tokenized.
Proof.
  intros Htr Hn Hp Heq. cbv zeta.
  destruct (tracking_tracked_ok equals _ _ Htr)
    as (_ & Hbd & HfL & Hagree & Hbelow & _).
  unfold frontier_bounded in Hbd.
  set (range := mkRange n startColumn n endColumn).
  assert (Hr : range_ok range) by (unfold range_ok; simpl; lia).
  destruct (applyEdits_readings range 0 s Hagree Hr ltac:(lia) ltac:(simpl; lia))
    as (_ & Hv & Hb).
  cbv zeta in Hv, Hb. simpl startLineNumber in *. simpl endLineNumber in *.
  replace (Z.min (n - n) (_len s - n)) with 0 in * by lia.
  assert (Hfe : _invalidLineStartIndex (applyEdits range 0 s) = n - 1).
  { rewrite applyEdits_frontier. unfold editingLinesCnt. simpl.
    replace (Z.min (n - n) 0) with 0 by lia. simpl. lia. }
  assert (Hve : forall j, j <> n - 1 -> _isValid (applyEdits range 0 s) j = _isValid s j).
  { intros j Hj. rewrite Hv.
    destruct (Z.ltb_spec j (n - 1)); [reflexivity|].
    destruct (Z.ltb_spec j (n + 0)); [lia|].
    f_equal. lia. }
  split; [exact Hfe|]. split; [exact Hve|].
  set (edited := applyEdits range 0 s) in *.
  assert (Hpe : getBeginState edited (n - 1 + 1) = Some p).
  { replace (n - 1 + 1) with n by lia. rewrite Hb.
    destruct (Z.ltb_spec n n); [lia|].
    destruct (Z.ltb_spec n (n + 0)); [lia|].
    replace (n - 0 + 0) with n by lia. exact Hp. }
  destruct (setEndState_marked_spec (n - 1) edited) as (_ & Hmf & Hmv & _).
  specialize (Hmv ltac:(lia)). cbv zeta in *.
  destruct (setEndState_cases equals linesLength (n - 1) endState edited)
    as [[Hlast ->]|[(_ & Hprev & _)|(_ & _ & ->)]].
  - rewrite Hmf. lia.
  - exfalso. destruct Hprev as [Hnone|(q & Hq & Hneq)]; [congruence|].
    rewrite Hpe in Hq. injection Hq as <-. congruence.
  - change (_invalidLineStartIndex s
            <= skipValid (setEndState_marked (n - 1) edited) linesLength (n - 1 + 1)).
    destruct (skipValid_spec (setEndState_marked (n - 1) edited) linesLength (n - 1 + 1))
      as (H1 & _ & H3).
    cbv zeta in *.
    set (f := skipValid (setEndState_marked (n - 1) edited) linesLength (n - 1 + 1)) in *.
    destruct H3 as [H3|H3]; [lia|].
    destruct (Z.le_gt_cases (_invalidLineStartIndex s) f) as [Hle|Hgt]; [exact Hle|].
    exfalso. rewrite Hmv in H3.
    destruct (Z.eqb_spec f (n - 1)); [lia|].
    rewrite Hve in H3 by lia. rewrite Hbelow in H3 by lia. discriminate.
Qed.

End EditThenTokenize.

(** ** The working directories of the command tracker *)

Module CommandTrackerFacts.

Import CommandTracker.

Lemma or_zero_default (n : option Z) : or_zero n = default 0 n.
Proof. destruct n as [n|]; [|reflexivity]. simpl. destruct (Z.eqb_spec n 0); lia. Qed.

Lemma map_get_set (m : CwdMap) (key key' : string) (value : Z) :
  map_get (map_set m key value) key'
  = if String.eqb key key' then Some value else map_get m key'.
Proof.
  induction m as [|[k v] m IH]; simpl.
  - reflexivity.
  - destruct (String.eqb_spec k key) as [->|Hne]; simpl.
    + destruct (String.eqb_spec key key'); reflexivity.
    + rewrite IH. destruct (String.eqb_spec k key') as [->|];
        destruct (String.eqb_spec key key'); congruence.
Qed.

Lemma map_get_None_keys (m : CwdMap) (key : string) :
  map_get m key = None <-> key ∉ map fst m.
Proof.
  induction m as [|[k v] m IH]; simpl.
  - split; [intros _; apply not_elem_of_nil|reflexivity].
  - rewrite not_elem_of_cons. destruct (String.eqb_spec k key) as [->|Hne].
    + split; [discriminate|intros [H _]; congruence].
    + rewrite IH. split; [intros H; split; [congruence|exact H]|intros [_ H]; exact H].
Qed.

Lemma map_get_Some_keys (m : CwdMap) (key : string) (value : Z) :
  map_get m key = Some value -> key ∈ map fst m.
Proof.
  induction m as [|[k v] m IH]; simpl; [discriminate|].
  destruct (String.eqb_spec k key) as [->|]; intros H.
  - apply elem_of_cons. auto.
  - apply elem_of_cons. right. apply IH. exact H.
Qed.

Lemma map_set_keys (m : CwdMap) (key : string) (value : Z) :
  map fst (map_set m key value)
  = match map_get m key with
    | Some _ => map fst m
    | None => map fst m ++ [key]
    end.
Proof.
  induction m as [|[k v] m IH]; simpl.
  - reflexivity.
  - destruct (String.eqb_spec k key) as [->|Hne]; simpl; [reflexivity|].
    rewrite IH. destruct (map_get m key); reflexivity.
Qed.

Lemma map_set_fresh (m : CwdMap) (key : string) (value : Z) :
  key ∉ map fst m -> map_set m key value = m ++ [(key, value)].
Proof.
  induction m as [|[k v] m IH]; simpl; intros Hnot; [reflexivity|].
  rewrite not_elem_of_cons in Hnot. destruct Hnot as [Hne Hnot].
  destruct (String.eqb_spec k key); [congruence|]. rewrite IH by exact Hnot. reflexivity.
Qed.

Lemma map_set_NoDup (m : CwdMap) (key : string) (value : Z) :
  NoDup (map fst m) -> NoDup (map fst (map_set m key value)).
Proof.
  intros Hnd. rewrite map_set_keys.
  destruct (map_get m key) eqn:Hget; [exact Hnd|].
  apply NoDup_app. split; [exact Hnd|]. split.
  - intros x Hx Hin. apply list_elem_of_singleton in Hin. subst x.
    apply map_get_None_keys in Hget. contradiction.
  - apply NoDup_singleton.
Qed.

Lemma map_get_entry (m : CwdMap) (key : string) (value : Z) :
  NoDup (map fst m) -> (key, value) ∈ m -> map_get m key = Some value.
Proof.
  induction m as [|[k v] m IH]; simpl; intros Hnd Hin.
  - apply elem_of_nil in Hin. contradiction.
  - apply NoDup_cons in Hnd. destruct Hnd as [Hk Hnd].
    apply elem_of_cons in Hin. destruct Hin as [Heq|Hin].
    + injection Heq as -> ->. rewrite String.eqb_refl. reflexivity.
    + destruct (String.eqb_spec k key) as [->|]; [|apply IH; assumption].
      exfalso. apply Hk. apply list_elem_of_fmap. exists (key, value). auto.
Qed.

Lemma map_of_entries_NoDup_aux (entries acc : list (string * Z)) :
  NoDup (map fst (acc ++ entries)) ->
  fold_left (fun m entry => map_set m (fst entry) (snd entry)) entries acc
  = acc ++ entries.
Proof.
  revert acc. induction entries as [|[k v] entries IH]; intros acc Hnd; simpl.
  - rewrite app_nil_r. reflexivity.
  - assert (Hfresh : k ∉ map fst acc).
    { rewrite map_app in Hnd. apply NoDup_app in Hnd. destruct Hnd as (_ & Hdis & _).
      intros Hin. apply (Hdis k Hin). simpl. apply elem_of_cons. auto. }
    rewrite map_set_fresh by exact Hfresh.
    rewrite IH; rewrite <- app_assoc; [reflexivity|exact Hnd].
Qed.

(** The entries of a map make the map again. *)
Lemma map_of_entries_NoDup (entries : list (string * Z)) :
  NoDup (map fst entries) -> map_of_entries entries = entries.
Proof. intros Hnd. unfold map_of_entries. apply map_of_entries_NoDup_aux. exact Hnd. Qed.

Lemma insert_by_count_Permutation entry sorted :
  insert_by_count entry sorted ≡ₚ entry :: sorted.
Proof.
  induction sorted as [|entry' sorted IH]; simpl; [reflexivity|].
  destruct (snd entry <=? snd entry'); [reflexivity|].
  rewrite IH. apply Permutation_swap.
Qed.

Lemma sort_by_count_Permutation entries : sort_by_count entries ≡ₚ entries.
Proof.
  induction entries as [|entry entries IH]; simpl; [reflexivity|].
  rewrite insert_by_count_Permutation, IH. reflexivity.
Qed.

Lemma insert_by_count_Sorted entry sorted :
  Sorted (fun a b => snd a <= snd b) sorted ->
  Sorted (fun a b => snd a <= snd b) (insert_by_count entry sorted).
Proof.
  induction sorted as [|entry' sorted IH]; simpl; intros Hs.
  - repeat constructor.
  - destruct (Z.leb_spec (snd entry) (snd entry')).
    + constructor; [exact Hs|]. constructor. assumption.
    + apply Sorted_inv in Hs. destruct Hs as [Hs Hhd].
      constructor; [apply IH; exact Hs|].
      destruct sorted as [|entry'' sorted]; simpl.
      * constructor. lia.
      * apply HdRel_inv in Hhd.
        destruct (Z.leb_spec (snd entry) (snd entry'')); constructor; lia.
Qed.

Lemma sort_by_count_Sorted entries :
  Sorted (fun a b => snd a <= snd b) (sort_by_count entries).
Proof.
  induction entries as [|entry entries IH]; simpl; [constructor|].
  apply insert_by_count_Sorted. exact IH.
Qed.

Lemma Sorted_map_fst (count : string -> Z) (l : list (string * Z)) :
  (forall entry, entry ∈ l -> count (fst entry) = snd entry) ->
  Sorted (fun a b => snd a <= snd b) l ->
  Sorted (fun a b => count a <= count b) (map fst l).
Proof.
  intros Hcount Hs. induction Hs as [|entry l Hs IH Hhd]; simpl; [constructor|].
  constructor.
  - apply IH. intros entry' Hin. apply Hcount. apply elem_of_cons. auto.
  - destruct Hhd as [|entry' l' Hle]; simpl; constructor.
    rewrite (Hcount entry), (Hcount entry'); [exact Hle| |].
    + apply elem_of_cons. right. apply elem_of_cons. auto.
    + apply elem_of_cons. auto.
Qed.

(** One [CurrentDir] event on a tracker with a terminal. *)
Lemma handle_CurrentDir value t :
  _terminal t = true ->
  let t' := handleIntegratedShellChange CurrentDir value t in
  _terminal t' = true
  /\ (forall dir, count_of t' dir
                  = if String.eqb value dir then count_of t dir + 1 else count_of t dir)
  /\ (NoDup (map fst (_cwds t)) -> NoDup (map fst (_cwds t')))
  /\ (forall dir, dir ∈ map fst (_cwds t') <-> dir = value \/ dir ∈ map fst (_cwds t))
  /\ _cwd t' = Some value
  /\ onCwdChanged t' = onCwdChanged t ++ [value]
  /\ _initialCwd t' = if not_string (_initialCwd t) then Some value else _initialCwd t.
Proof.
  intros Hterm. cbv zeta. unfold handleIntegratedShellChange. rewrite Hterm. simpl.
  split; [reflexivity|]. split.
  - intros dir. unfold count_of. simpl. rewrite map_get_set.
    destruct (String.eqb_spec value dir) as [->|]; [|reflexivity].
    rewrite !or_zero_default. reflexivity.
  - split; [apply map_set_NoDup|]. split; [|auto].
    intros dir. rewrite map_set_keys.
    destruct (map_get (_cwds t) value) eqn:Hget.
    + split; [auto|]. intros [->|H]; [|exact H].
      eapply map_get_Some_keys. exact Hget.
    + rewrite elem_of_app, list_elem_of_singleton. tauto.
Qed.

Lemma handle_other type value t :
  type <> CurrentDir -> handleIntegratedShellChange type value t = t.
Proof.
  intros Hne. unfold handleIntegratedShellChange.
  destruct (negb (_terminal t)); [reflexivity|]. destruct type; congruence.
Qed.

Lemma reported_cons type value events :
  reported ((type, value) :: events)
  = match type with CurrentDir => value :: reported events | _ => reported events end.
Proof. destruct type; reflexivity. Qed.

Lemma handleAll_spec events t :
  _terminal t = true ->
  let t' := handleAll events t in
  _terminal t' = true
  /\ (forall dir, count_of t' dir = count_of t dir + visits dir events)
  /\ (NoDup (map fst (_cwds t)) -> NoDup (map fst (_cwds t')))
  /\ (forall dir, dir ∈ map fst (_cwds t')
                  <-> dir ∈ reported events \/ dir ∈ map fst (_cwds t))
  /\ onCwdChanged t' = onCwdChanged t ++ reported events
  /\ _cwd t' = match last (reported events) with
               | Some dir => Some dir
               | None => _cwd t
               end.
Proof.
  revert t. induction events as [|[type value] events IH]; intros t Hterm; cbv zeta.
  - simpl. split; [exact Hterm|]. split; [intros; unfold visits; simpl; lia|].
    split; [auto|]. split; [|rewrite app_nil_r; auto].
    intros dir. split; [auto|]. intros [H|H]; [|exact H].
    apply elem_of_nil in H. contradiction.
  - cbn [handleAll].
    assert (Hdec : type = CurrentDir \/ type <> CurrentDir)
      by (destruct type; auto; right; discriminate).
    destruct Hdec as [->|Hne].
    + destruct (handle_CurrentDir value t Hterm) as (Ht & Hcount & Hnd & Hkeys & Hcwd & Hfired & _).
      cbv zeta in *.
      destruct (IH _ Ht) as (Ht' & Hcount' & Hnd' & Hkeys' & Hfired' & Hcwd').
      cbv zeta in *. rewrite reported_cons.
      split; [exact Ht'|]. split.
      * intros dir. rewrite Hcount', Hcount. unfold visits. rewrite reported_cons.
        simpl. rewrite (String.eqb_sym dir value).
        destruct (String.eqb value dir); simpl; lia.
      * split; [auto|]. split.
        -- intros dir. rewrite Hkeys', Hkeys, elem_of_cons. tauto.
        -- split; [rewrite Hfired', Hfired, <- app_assoc; reflexivity|].
           rewrite Hcwd', Hcwd. rewrite last_cons.
           destruct (last (reported events)); reflexivity.
    + rewrite (handle_other type value t Hne).
      destruct (IH _ Hterm) as (Ht' & Hcount' & Hnd' & Hkeys' & Hfired' & Hcwd').
      cbv zeta in *.
      assert (Hrep : reported ((type, value) :: events) = reported events)
        by (rewrite reported_cons; destruct type; congruence).
      unfold visits. rewrite Hrep. auto.
Qed.

Lemma handleAll_inactive events t :
  _terminal t = false -> handleAll events t = t.
Proof.
  intros Hterm. induction events as [|[type value] events IH]; simpl; [reflexivity|].
  unfold handleIntegratedShellChange at 1. rewrite Hterm. simpl. exact IH.
Qed.

Lemma handleAll_initialCwd_kept events t dir :
  _initialCwd t = Some dir -> dir <> ""%string ->
  _initialCwd (handleAll events t) = Some dir.
Proof.
  revert t. induction events as [|[type value] events IH]; intros t Hinit Hne; simpl;
    [exact Hinit|].
  apply IH; [|exact Hne].
  unfold handleIntegratedShellChange.
  destruct (negb (_terminal t)); [exact Hinit|].
  destruct type; try exact Hinit. simpl. rewrite Hinit. simpl.
  destruct (String.eqb_spec dir ""); [congruence|reflexivity].
Qed.

(** X26.  The tracker counts the visits: on a tracker that has a terminal,
    after a run of events the count of each directory has gone up by the
    number of [CurrentDir] events that report it; the other events count
    nothing. *)
Theorem tracker_counts_visits events t dir :
  _terminal t = true ->
  count_of (handleAll events t) dir = count_of t dir + visits dir events.
Proof. intros Hterm. apply (handleAll_spec events t Hterm). Qed.

(** X27.  The getter [cwds], after any run of events on a fresh tracker
    that was given a terminal: it lists each directory that was reported
    once, lists nothing else, and lists the directories by rising count of
    visits. *)
Theorem cwds_by_rising_count events :
  let t := handleAll events (activate newTracker) in
  NoDup (cwds t)
  /\ (forall dir, dir ∈ cwds t <-> dir ∈ reported events)
  /\ Sorted (fun a b => visits a events <= visits b events) (cwds t).
Proof.
  cbv zeta.
  destruct (handleAll_spec events (activate newTracker) eq_refl)
    as (_ & Hcount & Hnd & Hkeys & _).
  cbv zeta in *. specialize (Hnd (NoDup_nil_2 (A:=string))).
  set (t := handleAll events (activate newTracker)) in *.
  assert (Hperm : sort_by_count (_cwds t) ≡ₚ _cwds t) by apply sort_by_count_Permutation.
  assert (Hnd' : NoDup (map fst (sort_by_count (_cwds t)))).
  { rewrite Hperm. exact Hnd. }
  unfold cwds. rewrite map_of_entries_NoDup by exact Hnd'.
  split; [exact Hnd'|]. split.
  - intros dir. rewrite Hperm, Hkeys. simpl. split; [|auto].
    intros [H|H]; [exact H|]. apply elem_of_nil in H. contradiction.
  - apply Sorted_map_fst; [|apply sort_by_count_Sorted].
    intros [dir n] Hin. rewrite Hperm in Hin. simpl.
    pose proof (Hcount dir) as Hc. unfold count_of in Hc.
    rewrite (map_get_entry (_cwds t) dir n Hnd Hin) in Hc.
    rewrite or_zero_default in Hc. simpl in Hc. lia.
Qed.

(** X28.  On a tracker with a terminal, one [onCwdChanged] event is fired
    for each directory reported, in order; the current directory is the
    last one reported; and an initial directory that is not the empty
    string stays for good. *)
Theorem tracker_current_and_initial events t :
  _terminal t = true ->
  let t' := handleAll events t in
  onCwdChanged t' = onCwdChanged t ++ reported events
  /\ _cwd t' = match last (reported events) with
               | Some dir => Some dir
               | None => _cwd t
               end
  /\ (forall dir, _initialCwd t = Some dir -> dir <> ""%string ->
                  _initialCwd t' = Some dir).
Proof.
  intros Hterm. cbv zeta.
  destruct (handleAll_spec events t Hterm) as (_ & _ & _ & _ & Hfired & Hcwd).
  split; [exact Hfired|]. split; [exact Hcwd|].
  intros dir. apply handleAll_initialCwd_kept.
Qed.

End CommandTrackerFacts.

(** ** The further laws on concrete stores and engines *)

Lemma tracking_store_reset : tracking Z.eqb 4 MoreExamples.store_reset.
Proof. apply tracking_reset. lia. Qed.

Lemma tracking_engine_line1 :
  tracking Z.eqb 4 (_tokenizationStateStore Examples.engine_line1).
Proof.
  exact (tracking_tokenized Z.eqb 4 (flush (Some 0) newStore) 0 0
           tracking_store_reset ltac:(simpl; lia) eq_refl).
Qed.

Lemma tracking_store_tokenized : tracking Z.eqb 4 Examples.store_tokenized.
Proof.
  pose proof tracking_store_reset as H0. unfold MoreExamples.store_reset in H0.
  pose proof (tracking_tokenized Z.eqb 4 _ 0 0 H0 ltac:(vm_compute; reflexivity) eq_refl)
    as H1.
  pose proof (tracking_tokenized Z.eqb 4 _ 0 0 H1 ltac:(vm_compute; reflexivity) eq_refl)
    as H2.
  pose proof (tracking_tokenized Z.eqb 4 _ 0 0 H2 ltac:(vm_compute; reflexivity) eq_refl)
    as H3.
  pose proof (tracking_tokenized Z.eqb 4 _ 0 0 H3 ltac:(vm_compute; reflexivity) eq_refl)
    as H4.
  exact H4.
Qed.

Lemma setEndState_marks_and_adopts_witness :
  let s := Examples.store_line2_edited in
  let s' := setEndState Z.eqb 4 1 9 s in
  _isValid s' 1 = true
  /\ (1 <> 4 - 1 ->
      getBeginState s' (1 + 1) = Some 9
      \/ exists p, getBeginState s (1 + 1) = Some p /\ Z.eqb 9 p = true
                   /\ getBeginState s' (1 + 1) = Some p).
Proof.
  apply (setEndState_marks_and_adopts Z.eqb 4 1 9 Examples.store_line2_edited). lia.
Defined.

Lemma setEndState_frame_witness :
  let s := Examples.store_line2_edited in
  let s' := setEndState Z.eqb 4 1 9 s in
  (forall j, j <> 1 + 1 -> getBeginState s' j = getBeginState s j)
  /\ (forall j, j <> 1 -> j <> 1 + 1 -> _isValid s' j = _isValid s j)
  /\ _len s <= _len s'.
Proof.
  apply (setEndState_frame Z.eqb 4 1 9 Examples.store_line2_edited). lia.
Defined.

Lemma setEndState_state_changed_witness :
  let s' := setEndState Z.eqb 4 1 9 Examples.store_line2_edited in
  _invalidLineStartIndex s' = 1 + 1
  /\ _isValid s' (1 + 1) = false
  /\ getBeginState s' (1 + 1) = Some 9.
Proof.
  apply (setEndState_state_changed Z.eqb 4 1 9 Examples.store_line2_edited).
  - lia.
  - lia.
  - right. exists 0. split; reflexivity.
Defined.

Lemma setEndState_frontier_in_buffer_witness :
  _invalidLineStartIndex (setEndState Z.eqb 4 1 0 Examples.store_line2_edited) <= 4.
Proof.
  apply (setEndState_frontier_in_buffer Z.eqb 4 1 0 Examples.store_line2_edited). lia.
Defined.

Lemma setFakeTokens_readings_witness :
  let s := Examples.store_tokenized in
  let s' := setFakeTokens 5 s in
  _invalidLineStartIndex s' = _invalidLineStartIndex s
  /\ _len s' = Z.max (_len s) (5 + 1)
  /\ (forall j, _isValid s' j = if j =? 5 then false else _isValid s j)
  /\ (forall j, getBeginState s' j = getBeginState s j).
Proof.
  apply (setFakeTokens_readings 5 Examples.store_tokenized). lia.
Defined.

Lemma applyEdits_beyond_cache_witness :
  applyEdits MoreExamples.edit_line9 2 Examples.store_tokenized = Examples.store_tokenized.
Proof.
  apply (applyEdits_beyond_cache MoreExamples.edit_line9 2 Examples.store_tokenized).
  - simpl. lia.
  - simpl. lia.
Defined.

(** Two of six lines go and one comes: the entry of line 2 is invalidated,
    one entry without state takes the place of two, and the entries of
    lines 5 and 6 move up with their states and valid bits. *)
Example applyEdits_lines_2_4 :
  applyEdits MoreExamples.edit_lines_2_4 1 MoreExamples.store_six
  = mkStore [Some 0; Some 1; None; Some 4; Some 5] [true; false; false; true; true] 5 1.
Proof. reflexivity. Qed.

Lemma applyEdits_entries_witness :
  let range := MoreExamples.edit_lines_2_4 in
  let s := MoreExamples.store_six in
  let d := Z.min (endLineNumber range - startLineNumber range)
                 (_len s - startLineNumber range) in
  let s' := applyEdits range 1 s in
  _len s' = _len s - d + 1
  /\ (forall j, _isValid s' j =
        if j <? startLineNumber range - 1 then _isValid s j
        else if j <? startLineNumber range + 1 then false
        else _isValid s (j - 1 + d))
  /\ (forall j, getBeginState s' j =
        if j <? startLineNumber range then getBeginState s j
        else if j <? startLineNumber range + 1 then None
        else getBeginState s (j - 1 + d)).
Proof.
  apply (applyEdits_entries MoreExamples.edit_lines_2_4 1 MoreExamples.store_six).
  - split; reflexivity.
  - unfold range_ok. simpl. lia.
  - lia.
  - simpl. lia.
Defined.

Lemma tracking_invariant_witness :
  let s := _tokenizationStateStore Examples.engine_line1 in
  0 <= _invalidLineStartIndex s <= 4
  /\ below_frontier_valid s
  /\ begin_states_ready 4 s.
Proof.
  apply (tracking_invariant Z.eqb 4 (_tokenizationStateStore Examples.engine_line1)).
  exact tracking_engine_line1.
Defined.

(** All four lines of the example are tokenized in one call. *)
Example forceTokenization_all_lines :
  MoreExamples.force 4 Examples.engine_fresh
  = Some (mkEngine (mkStore [Some 0; Some 0; Some 0; Some 0] [true; true; true; true] 4 4)
            (Some Examples.tokenizer) []
            [([(1, [(1, 7)]); (2, [(3, 7)]); (3, [(5, 7)]); (4, [(5, 7)])], true)]).
Proof. reflexivity. Qed.

Lemma forceTokenization_reaches_witness :
  exists e',
    MoreExamples.force 3 Examples.engine_line1 = Some e'
    /\ 3 <= invalidLineStartIndex (_tokenizationStateStore e')
    /\ (forall n, 1 <= n <= 3 -> _isValid (_tokenizationStateStore e') (n - 1) = true)
    /\ tracking Z.eqb (getLineCount Examples.model) (_tokenizationStateStore e').
Proof.
  apply (forceTokenization_reaches Z.eqb Examples.clone Examples.defaultAttributes
           Examples.model Examples.codec
           Examples.nullCloneError Examples.nullEndState 3
           Examples.engine_line1 Examples.tokenizer).
  - reflexivity.
  - exact tracking_engine_line1.
  - simpl. lia.
Defined.

Lemma forceTokenization_batch_witness :
  let e := Examples.engine_line1 in
  let e' := mkEngine (mkStore [Some 0; Some 0; Some 0; Some 0]
                        [true; true; true; false] 4 3)
              (Some Examples.tokenizer) [] [([(2, [(3, 7)]); (3, [(5, 7)])], false)] in
  invalidLineStartIndex (_tokenizationStateStore e)
    <= invalidLineStartIndex (_tokenizationStateStore e')
  /\ exists batch completed,
       setTokensCalls e' = setTokensCalls e ++ [(batch, completed)]
       /\ Forall (fun ln => invalidLineStartIndex (_tokenizationStateStore e) < ln <= 3)
            (map fst batch)
       /\ Sorted Z.lt (map fst batch).
Proof.
  apply (forceTokenization_batch Z.eqb Examples.clone Examples.defaultAttributes
           Examples.model Examples.codec
           Examples.nullCloneError Examples.nullEndState 3 Examples.engine_line1).
  reflexivity.
Defined.

Lemma forceTokenization_idempotent_witness :
  let e1 := mkEngine (mkStore [Some 0; Some 0; Some 0; Some 0]
                        [true; true; true; false] 4 3)
              (Some Examples.tokenizer) [] [([(2, [(3, 7)]); (3, [(5, 7)])], false)] in
  MoreExamples.force 3 e1 = Some (setTokens Examples.model [] e1).
Proof.
  apply (forceTokenization_idempotent Z.eqb Examples.clone Examples.defaultAttributes
           Examples.model Examples.codec
           Examples.nullCloneError Examples.nullEndState 3
           Examples.engine_line1 _ Examples.tokenizer).
  - reflexivity.
  - reflexivity.
Defined.

Lemma tokenizeViewport_degrades_witness :
  Examples.viewport 1 3 Examples.engine_line1 = MoreExamples.force 3 Examples.engine_line1.
Proof.
  apply (tokenizeViewport_degrades Z.eqb Examples.clone Examples.defaultAttributes
           Examples.model Examples.codec
           Examples.nullCloneError Examples.nullEndState 1 3 Examples.engine_line1).
  simpl. lia.
Defined.

Lemma tokenizeViewport_frame_witness :
  let e := Examples.engine_line1 in
  exists e',
    Examples.viewport 3 4 e = Some e'
    /\ _tokenizationSupport e' = _tokenizationSupport e
    /\ (forall j, getBeginState (_tokenizationStateStore e') j
                  = getBeginState (_tokenizationStateStore e) j)
    /\ (forall lineNumber, lineNumber < 3 \/ 4 < lineNumber ->
          _isValid (_tokenizationStateStore e') (lineNumber - 1)
          = _isValid (_tokenizationStateStore e) (lineNumber - 1)).
Proof.
  apply (tokenizeViewport_frame Z.eqb Examples.clone Examples.defaultAttributes
           Examples.model Examples.codec
           Examples.nullCloneError Examples.nullEndState 3 4
           Examples.engine_line1 Examples.tokenizer).
  - reflexivity.
  - simpl. lia.
  - simpl. lia.
Defined.

Lemma tokenizeViewport_then_forceTokenization_witness :
  exists e1 e2,
    Examples.viewport 3 4 Examples.engine_line1 = Some e1
    /\ (forall lineNumber, 3 <= lineNumber <= 4 ->
          _isValid (_tokenizationStateStore e1) (lineNumber - 1) = false)
    /\ MoreExamples.force 4 e1 = Some e2
    /\ (forall lineNumber, 1 <= lineNumber <= 4 ->
          _isValid (_tokenizationStateStore e2) (lineNumber - 1) = true).
Proof.
  apply (tokenizeViewport_then_forceTokenization Z.eqb Examples.clone
           Examples.defaultAttributes Examples.model Examples.codec
           Examples.nullCloneError Examples.nullEndState 3 4
           Examples.engine_line1 Examples.tokenizer).
  - reflexivity.
  - exact tracking_engine_line1.
  - simpl. lia.
  - simpl. lia.
Defined.

Lemma isCheapToTokenize_downward_witness :
  isCheapToTokenize Examples.model 1 Examples.engine_line1 = true.
Proof.
  apply (isCheapToTokenize_downward Examples.model 2 1 Examples.engine_line1).
  - lia.
  - reflexivity.
Defined.

Lemma isCheapToTokenize_after_forceTokenization_witness :
  isCheapToTokenize Examples.model 3
    (mkEngine (mkStore [Some 0; Some 0; Some 0; Some 0] [true; true; true; false] 4 3)
       (Some Examples.tokenizer) [] [([(2, [(3, 7)]); (3, [(5, 7)])], false)])
  = true.
Proof.
  apply (isCheapToTokenize_after_forceTokenization Z.eqb Examples.clone
           Examples.defaultAttributes Examples.model Examples.codec
           Examples.nullCloneError Examples.nullEndState 3
           Examples.engine_line1).
  reflexivity.
Defined.

Lemma no_tokenizer_no_op_witness :
  let e := Examples.engine_no_tokenizer in
  _hasLinesToTokenize Examples.model e = false
  /\ MoreExamples.force 3 e
     = Some (mkEngine (_tokenizationStateStore e) None (unexpectedErrors e)
               (setTokensCalls e ++ [([], true)]))
  /\ Examples.viewport 2 3 e
     = Some (mkEngine (_tokenizationStateStore e) None (unexpectedErrors e)
               (setTokensCalls e ++ [([], true)]))
  /\ Examples.probe (mkPosition 1 1) "/" e = Some (StandardTokenType.Other, e).
Proof.
  apply (no_tokenizer_no_op Z.eqb Examples.clone Examples.defaultAttributes
           Examples.getCount Examples.findTokenIndexAtOffset
           Examples.getStandardTokenType Examples.model Examples.codec
           Examples.nullCloneError Examples.nullEndState
           3 2 3 (mkPosition 1 1) "/" Examples.engine_no_tokenizer).
  reflexivity.
Defined.

Lemma _tokenizeOneInvalidLine_one_line_witness :
  let e := Examples.engine_line1 in
  (_hasLinesToTokenize Examples.model e = true ->
   exists builder' e',
     _tokenizeOneInvalidLine Z.eqb Examples.clone Examples.defaultAttributes
       Examples.model Examples.codec Examples.nullCloneError Examples.nullEndState [] e
     = Some (invalidLineStartIndex (_tokenizationStateStore e) + 1, (builder', e'))
     /\ invalidLineStartIndex (_tokenizationStateStore e) + 1
        <= getLineCount Examples.model
     /\ map fst builder'
        = map fst ([] : TokensBuilder)
          ++ [invalidLineStartIndex (_tokenizationStateStore e) + 1]
     /\ invalidLineStartIndex (_tokenizationStateStore e)
        < invalidLineStartIndex (_tokenizationStateStore e'))
  /\ (_hasLinesToTokenize Examples.model e = false ->
      _tokenizeOneInvalidLine Z.eqb Examples.clone Examples.defaultAttributes
        Examples.model Examples.codec Examples.nullCloneError Examples.nullEndState [] e
      = Some (getLineCount Examples.model + 1, ([], e))).
Proof.
  apply (_tokenizeOneInvalidLine_one_line Z.eqb Examples.clone Examples.defaultAttributes
           Examples.model Examples.codec
           Examples.nullCloneError Examples.nullEndState []
           Examples.engine_line1 Examples.tokenizer).
  - reflexivity.
  - exact tracking_engine_line1.
Defined.

(** A slice whose stop watch never passes one millisecond tokenizes the
    whole buffer; one whose third reading does stops after two lines. *)
Example slice_runs :
  (exists e', MoreExamples.slice MoreExamples.never_expired Examples.engine_fresh = Some e'
              /\ invalidLineStartIndex (_tokenizationStateStore e') = 4)
  /\ (exists e', MoreExamples.slice MoreExamples.expired_from_2 Examples.engine_fresh
                 = Some e'
                 /\ invalidLineStartIndex (_tokenizationStateStore e') = 2).
Proof. split; eexists; split; reflexivity. Qed.

Lemma _backgroundTokenizeForAtLeast1ms_progress_witness :
  let e := Examples.engine_fresh in
  exists e' batch completed,
    MoreExamples.slice MoreExamples.expired_from_2 e = Some e'
    /\ setTokensCalls e' = setTokensCalls e ++ [(batch, completed)]
    /\ tracking Z.eqb (getLineCount Examples.model) (_tokenizationStateStore e')
    /\ (MoreExamples.expired_from_2 0%nat = false ->
        _hasLinesToTokenize Examples.model e = true ->
        invalidLineStartIndex (_tokenizationStateStore e)
        < invalidLineStartIndex (_tokenizationStateStore e'))
    /\ invalidLineStartIndex (_tokenizationStateStore e) + Z.of_nat (length batch)
       <= invalidLineStartIndex (_tokenizationStateStore e')
    /\ (forall j, (j < length batch)%nat -> MoreExamples.expired_from_2 j = false)
    /\ (MoreExamples.expired_from_2 (length batch) = true
        \/ invalidLineStartIndex (_tokenizationStateStore e')
           = getLineCount Examples.model)
    /\ (completed = true
        <-> invalidLineStartIndex (_tokenizationStateStore e')
            = getLineCount Examples.model).
Proof.
  apply (_backgroundTokenizeForAtLeast1ms_progress Z.eqb Examples.clone
           Examples.defaultAttributes Examples.model Examples.codec
           Examples.nullCloneError Examples.nullEndState
           MoreExamples.expired_from_2 Examples.engine_fresh Examples.tokenizer).
  - reflexivity.
  - exact tracking_store_reset.
Defined.

(** The slice of the witness: the readings 0 and 1 of its stop watch are
    not above one millisecond and reading 2 is, so two lines are tokenized
    and published, and the batch is not flagged as complete. *)
Example slice_two_lines :
  MoreExamples.slice MoreExamples.expired_from_2 Examples.engine_fresh
  = Some (mkEngine (mkStore [Some 0; Some 0; Some 0] [true; true; false] 3 2)
            (Some Examples.tokenizer) []
            [([(1, [(1, 7)]); (2, [(3, 7)])], false)]).
Proof. reflexivity. Qed.

Lemma _resetTokenizationState_ready_witness :
  let e0 := _resetTokenizationState false (Some MoreExamples.registered)
              Examples.engine_no_tokenizer in
  invalidLineStartIndex (_tokenizationStateStore e0) = 0
  /\ (forall j, getBeginState (_tokenizationStateStore e0) j
                = if j =? 0 then Some (getInitialState Examples.tokenizer) else None)
  /\ (forall j, _isValid (_tokenizationStateStore e0) j = false)
  /\ exists e',
       MoreExamples.force 4 e0 = Some e'
       /\ 4 <= invalidLineStartIndex (_tokenizationStateStore e').
Proof.
  apply (_resetTokenizationState_ready Z.eqb Examples.clone Examples.defaultAttributes
           Examples.model Examples.codec
           Examples.nullCloneError Examples.nullEndState false (Some MoreExamples.registered)
           Examples.engine_no_tokenizer Examples.tokenizer 4).
  - reflexivity.
  - simpl. lia.
  - simpl. lia.
Defined.

Lemma applyChanges_keeps_tracking_witness :
  let changes := [(Examples.edit_in_line2, 1); (MoreExamples.edit_lines_2_4, 0)] in
  let e := Examples.engine_line1 in
  let e' := applyChanges changes e in
  let linesLength' := lineCountAfter changes 4 in
  tracking Z.eqb linesLength' (_tokenizationStateStore e')
  /\ 0 <= _invalidLineStartIndex (_tokenizationStateStore e') <= linesLength'
  /\ below_frontier_valid (_tokenizationStateStore e')
  /\ begin_states_ready linesLength' (_tokenizationStateStore e')
  /\ _tokenizationSupport e' = _tokenizationSupport e
  /\ setTokensCalls e' = setTokensCalls e.
Proof.
  apply (applyChanges_keeps_tracking Z.eqb
           [(Examples.edit_in_line2, 1); (MoreExamples.edit_lines_2_4, 0)] 4
           Examples.engine_line1).
  - simpl. unfold range_ok. simpl. lia.
  - exact tracking_engine_line1.
Defined.

(** The walk up from line 4 of the example, with nothing cached: lines 2
    and 1 are collected; with line 2 cached the walk ends on its state. *)
Example viewportPrefix_walks :
  viewportPrefix_loop Examples.model 3 (@newStore Z) 5 [] =
    (["  b"; "a"]%string, None)
  /\ viewportPrefix_loop Examples.model 3
       (_tokenizationStateStore Examples.engine_line1) 5 [] = ([], Some 0).
Proof. split; reflexivity. Qed.

Lemma forceTokenization_errors_witness :
  exists e' batch completed reported,
    MoreExamples.force 2 MoreExamples.engine_throwing = Some e'
    /\ 2 <= invalidLineStartIndex (_tokenizationStateStore e')
    /\ setTokensCalls e'
       = setTokensCalls MoreExamples.engine_throwing ++ [(batch, completed)]
    /\ unexpectedErrors e' = unexpectedErrors MoreExamples.engine_throwing ++ reported
    /\ (length reported <= length batch)%nat
    /\ Forall (fun err => exists text st,
                 tokenizeEncoded Examples.tokenizer_throwing text true st = inl err)
         reported
    /\ ((forall text st, exists r,
           tokenizeEncoded Examples.tokenizer_throwing text true st = inr r) ->
        reported = [])
    /\ ((forall text st, exists err,
           tokenizeEncoded Examples.tokenizer_throwing text true st = inl err) ->
        length reported = length batch).
Proof.
  apply (forceTokenization_errors Z.eqb Examples.clone Examples.defaultAttributes
           Examples.model Examples.codec Examples.nullCloneError Examples.nullEndState
           2 MoreExamples.engine_throwing Examples.tokenizer_throwing).
  - reflexivity.
  - exact tracking_store_reset.
  - simpl. lia.
Defined.

(** The call of the witness: two lines, two errors, null tokens. *)
Example forceTokenization_throwing :
  MoreExamples.force 2 MoreExamples.engine_throwing
  = Some (mkEngine (mkStore [Some 0; Some 0; Some 0] [true; true; false] 3 2)
            (Some Examples.tokenizer_throwing) ["boom"; "boom"]%string
            [([(1, [(1, 1)]); (2, [(3, 1)])], false)]).
Proof. reflexivity. Qed.

(** A store that was flushed with no initial state is not one that the
    engine tracks: the begin state of line 1 is missing.  The call returns
    all the same, with the error of [null.clone()] reported for each line
    and the lines null-tokenized. *)
Example forceTokenization_null_begin_state :
  MoreExamples.force 2
    (mkEngine (flush None newStore) (Some Examples.tokenizer) [] [])
  = Some (mkEngine (mkStore [None; None; None] [true; true; false] 3 2)
            (Some Examples.tokenizer) ["TypeError"; "TypeError"]%string
            [([(1, [(1, 1)]); (2, [(3, 1)])], false)]).
Proof. reflexivity. Qed.

(** The directories of the example shell, with their counts, and the list
    that the getter gives. *)
Example shell_cwds :
  let t := CommandTracker.handleAll MoreExamples.shell_events
             (CommandTracker.activate CommandTracker.newTracker) in
  CommandTracker._cwds t = [("/a", 2); ("/b", 1)]%string
  /\ CommandTracker.cwds t = ["/b"; "/a"]%string
  /\ CommandTracker._initialCwd t = Some "/a"%string.
Proof. repeat split. Qed.

Lemma tracker_counts_visits_witness :
  CommandTracker.count_of
    (CommandTracker.handleAll MoreExamples.shell_events
       (CommandTracker.activate CommandTracker.newTracker)) "/a"
  = CommandTracker.count_of (CommandTracker.activate CommandTracker.newTracker) "/a"
    + CommandTracker.visits "/a" MoreExamples.shell_events.
Proof.
  apply (CommandTrackerFacts.tracker_counts_visits MoreExamples.shell_events
           (CommandTracker.activate CommandTracker.newTracker) "/a").
  reflexivity.
Defined.

Lemma tracker_current_and_initial_witness :
  let t := CommandTracker.handleAll [(CommandTracker.CurrentDir, "/a"%string)]
             (CommandTracker.activate CommandTracker.newTracker) in
  let t' := CommandTracker.handleAll MoreExamples.shell_events t in
  CommandTracker.onCwdChanged t'
  = CommandTracker.onCwdChanged t ++ CommandTracker.reported MoreExamples.shell_events
  /\ CommandTracker._cwd t'
     = match last (CommandTracker.reported MoreExamples.shell_events) with
       | Some dir => Some dir
       | None => CommandTracker._cwd t
       end
  /\ (forall dir, CommandTracker._initialCwd t = Some dir -> dir <> ""%string ->
                  CommandTracker._initialCwd t' = Some dir).
Proof.
  apply (CommandTrackerFacts.tracker_current_and_initial MoreExamples.shell_events
           (CommandTracker.handleAll [(CommandTracker.CurrentDir, "/a"%string)]
              (CommandTracker.activate CommandTracker.newTracker))).
  reflexivity.
Defined.

(** Line 2 of four tokenized lines is edited in place and tokenized again
    to the same end state: the frontier goes to 1 and comes back to 4. *)
Example edit_line2_and_back :
  let edited := applyEdits Examples.edit_in_line2 0 Examples.store_tokenized in
  _invalidLineStartIndex edited = 1
  /\ _invalidLineStartIndex (setEndState Z.eqb 4 1 0 edited) = 4.
Proof. split; reflexivity. Qed.

Lemma edit_in_line_then_skip_ahead_witness :
  let s := Examples.store_tokenized in
  let edited := applyEdits (mkRange 2 1 2 1) 0 s in
  let tokenized := setEndState Z.eqb 4 (2 - 1) 0 edited in
  _invalidLineStartIndex edited = 2 - 1
  /\ (forall j, j <> 2 - 1 -> _isValid edited j = _isValid s j)
  /\ _invalidLineStartIndex s <= _invalidLineStartIndex tokenized.
Proof.
  apply (edit_in_line_then_skip_ahead Z.eqb 4 2 1 1 0 0 Examples.store_tokenized).
  - exact tracking_store_tokenized.
  - simpl. lia.
  - reflexivity.
  - reflexivity.
Defined.

(** The outcomes of [initializeTokenization] on the example tokenizer. *)
Example initializeTokenization_examples :
  initializeTokenization false (Some MoreExamples.registered)
  = ((Some Examples.tokenizer, Some 0), @nil string)
  /\ initializeTokenization true (Some MoreExamples.registered)
     = ((None, None), @nil string)
  /\ initializeTokenization false
       (Some (mkRegistered (inl "no state"%string)
                (registered_tokenizeEncoded MoreExamples.registered)))
     = ((@None (@ITokenizationSupport Z string), @None Z), ["no state"%string]).
Proof. repeat split. Qed.
